(** * The notebooks of the unsupervised-learning tutorial

    The repository is a set of Jupyter notebooks: text, and short code cells
    that call scikit-learn, PyTorch, TensorBoard and Matplotlib.  This file
    states and proves what the code of these cells does.

    - Parts 1 to 3 embed the functions and classes the notebooks define and
      whose behaviour is proved: [sparsity_ratio], [select_n_random], and
      the modules [AE] and [DynamicNet].
    - Part 4 runs the autograd session of the AutoGrad notebook on a model
      of PyTorch's [backward()], [retain_grad()] and [.grad].
    - Parts 5 and 6 hold the code cells of every notebook as syntax, and the
      queries that list what the cells construct, define, write and train.
    - Part 7 embeds the hand-written training step of the AutoGrad notebook.
    - Parts 8 to 13 embed more of the code of the notebooks: the other
      models and the mini-batch loop of the nn notebook, and the
      convolutional network, the transform, [matplotlib_imshow] and the
      logging of the TensorBoard notebook.

    The numbers held by arrays and tensors are rationals ([Q]): results on
    shapes and pairings do not depend on the scalar type, and results on
    values are those of exact arithmetic.  Random draws ([torch.randperm],
    [random.randint], the initial weights of a layer) are explicit
    arguments. *)

From Stdlib Require Import QArith Qminmax Lia Lqa List Permutation.
From stdpp Require Import gmap strings list.

Import ListNotations.
Local Open Scope nat_scope.

(** ** Python results: a value or a raised exception *)

Inductive exception :=
  | ZeroDivisionError
  | AssertionError
  | IndexError
  | NameError (name : string)
  | AttributeError (msg : string)
  | RuntimeError (msg : string).

Inductive result (A : Type) :=
  | Ok (a : A)
  | Raise (e : exception).
Arguments Ok {A} a.
Arguments Raise {A} e.

Definition bind {A B} (r : result A) (k : A -> result B) : result B :=
  match r with
  | Ok a => k a
  | Raise e => Raise e
  end.

Notation "x <- r ;; k" := (bind r (fun x => k))
  (at level 100, r at next level, right associativity).

(** ** Part 1: [sparsity_ratio] (data-representation notebook) *)

Module Sparsity.

(** A two-dimensional numpy array: its [shape] and its items in row-major
    order.  [shape1] is meaningful even when there is no row. *)
Record ndarray := {
  shape0 : nat;
  shape1 : nat;
  data : list Q
}.

Definition well_shaped (X : ndarray) : Prop :=
  length (data X) = shape0 X * shape1 X.

Definition is_nonzero (v : Q) : bool := negb (Qeq_bool v 0).

(** [np.count_nonzero(X)] *)
Definition count_nonzero (X : ndarray) : nat :=
  length (List.filter is_nonzero (data X)).

(** [float(n)] of a Python int *)
Definition float_of_nat (n : nat) : Q := inject_Z (Z.of_nat n).

(** Python's [a / b] on numbers: a zero divisor raises. *)
Definition truediv (a b : Q) : result Q :=
  if Qeq_bool b 0 then Raise ZeroDivisionError else Ok (a / b)%Q.

(** [def sparsity_ratio(X):
       return 1.0 - np.count_nonzero(X) / float(X.shape[0] * X.shape[1])] *)
Definition sparsity_ratio (X : ndarray) : result Q :=
  q <- truediv (float_of_nat (count_nonzero X))
               (float_of_nat (shape0 X * shape1 X)) ;;
  Ok (1 - q)%Q.

Definition all_zeros (X : ndarray) : Prop :=
  Forall (fun v => (v == 0)%Q) (data X).

(** A sample array of shape [(2, 3)] with two non-zero items. *)
Definition X_sample : ndarray :=
  {| shape0 := 2; shape1 := 3; data := [0; 1#2; 0; 0; -3; 0]%Q |}.

End Sparsity.

(** ** Part 2: [select_n_random] (TensorBoard notebook) *)

Module Select.

(** [data[perm]]: indexing by a tensor of positions; a position out of
    range raises [IndexError]. *)
Fixpoint index_select {A} (data : list A) (perm : list nat) : result (list A) :=
  match perm with
  | [] => Ok []
  | i :: perm' =>
      match data !! i with
      | Some a => rest <- index_select data perm' ;; Ok (a :: rest)
      | None => Raise IndexError
      end
  end.

(** [l[:n]]: Python's slice up to [n]; a negative [n] counts from the end. *)
Definition slice_to {A} (n : Z) (l : list A) : list A :=
  if (n <? 0)%Z
  then take (Z.to_nat (Z.of_nat (length l) + n)) l
  else take (Z.to_nat n) l.

(** What [torch.randperm(k)] may return: a permutation of [0 .. k-1].
    The draw is an explicit argument of the function below. *)
Definition is_randperm (k : nat) (perm : list nat) : Prop :=
  Permutation perm (seq 0 k).

(** [def select_n_random(data, labels, n=100):
       assert len(data) == len(labels)
       perm = torch.randperm(len(data))
       return data[perm][:n], labels[perm][:n]]
    where [perm] is the value drawn by [torch.randperm(len(data))]. *)
Definition select_n_random {A B} (perm : list nat)
    (data : list A) (labels : list B) (n : Z) : result (list A * list B) :=
  if negb (length data =? length labels) then Raise AssertionError
  else
    d <- index_select data perm ;;
    l <- index_select labels perm ;;
    Ok (slice_to n d, slice_to n l).

Definition default_n : Z := 100.

End Select.

(** ** Part 3: tensors, [nn.Linear], and the [nn.Module] subclasses *)

Module Torch.

(** A two-dimensional tensor, as the list of its rows. *)
Definition tensor := list (list Q).

Definition has_shape (t : tensor) (n m : nat) : Prop :=
  length t = n /\ Forall (fun row => length row = m) t.

(** Equality of tensors up to the representation of the rationals. *)
Definition tensor_equiv (s t : tensor) : Prop :=
  Forall2 (Forall2 Qeq) s t.

(** [torch.nn.Linear]: [weight] has shape [[out_features, in_features]],
    [bias] has [out_features] items. *)
Record Linear := {
  in_features : nat;
  out_features : nat;
  weight : list (list Q);
  bias : list Q
}.

(** [nn.Linear(in_features, out_features)].  The constructor draws the
    initial weights at random: the draw is given as [w] and [b]. *)
Definition nn_Linear (in_f out_f : nat)
    (w : nat -> nat -> Q) (b : nat -> Q) : Linear :=
  {| in_features := in_f;
     out_features := out_f;
     weight := map (fun o => map (fun i => w o i) (seq 0 in_f)) (seq 0 out_f);
     bias := map b (seq 0 out_f) |}.

Definition dot (u v : list Q) : Q :=
  fold_right Qplus 0%Q (zip_with Qmult u v).

(** Calling a [Linear] layer: each row [r] becomes [r . W^T + b]; a row
    whose length is not [in_features] raises the size-mismatch error. *)
Definition linear_forward (l : Linear) (x : tensor) : result tensor :=
  if forallb (fun row => length row =? in_features l) x
  then Ok (map (fun row =>
                  zip_with Qplus (map (fun wrow => dot row wrow) (weight l))
                           (bias l)) x)
  else Raise (RuntimeError "size mismatch").

(** [F.relu], [torch.relu] *)
Definition relu (t : tensor) : tensor := map (map (Qmax 0)) t.

(** The random draws of one module constructor: one initialiser per layer. *)
Definition init := nat -> (nat -> nat -> Q) * (nat -> Q).

Definition layer (rng : init) (k in_f out_f : nat) : Linear :=
  nn_Linear in_f out_f (fst (rng k)) (snd (rng k)).

(** A sample draw: every weight and bias is 1. *)
Definition ones_init : init := fun _ => (fun _ _ => 1%Q, fun _ => 1%Q).

(** *** [class AE(nn.Module)] (autoencoder notebook) *)

Record AE := {
  encoder_hidden_layer : Linear;
  encoder_output_layer : Linear;
  decoder_hidden_layer : Linear;
  decoder_output_layer : Linear
}.

(** [AE.__init__(self, input_shape)] *)
Definition AE_init (input_shape : nat) (rng : init) : AE :=
  {| encoder_hidden_layer := layer rng 0 input_shape 128;
     encoder_output_layer := layer rng 1 128 128;
     decoder_hidden_layer := layer rng 2 128 128;
     decoder_output_layer := layer rng 3 128 input_shape |}.

(** [AE.forward(self, features)] *)
Definition AE_forward (self : AE) (features : tensor) : result tensor :=
  encoder <- linear_forward (encoder_hidden_layer self) features ;;
  let encoder := relu encoder in
  z <- linear_forward (encoder_output_layer self) encoder ;;
  let z := relu z in
  decoder <- linear_forward (decoder_hidden_layer self) z ;;
  let decoder := relu decoder in
  reconstructed <- linear_forward (decoder_output_layer self) decoder ;;
  let reconstructed := relu reconstructed in
  Ok reconstructed.

(** *** [class DynamicNet(torch.nn.Module)] (nn notebook) *)

Record DynamicNet := {
  input_linear : Linear;
  middle_linear : Linear;
  output_linear : Linear
}.

(** [DynamicNet.__init__(self, D_in, H, D_out)] *)
Definition DynamicNet_init (D_in H D_out : nat) (rng : init) : DynamicNet :=
  {| input_linear := layer rng 0 D_in H;
     middle_linear := layer rng 1 H H;
     output_linear := layer rng 2 H D_out |}.

(** The values [random.randint(a, b)] may return: both ends included. *)
Definition randint (a b : nat) : list nat := seq a (S b - a).

(** [for _ in range(hidden_layers):
       h_relu = torch.relu(self.middle_linear(h_relu))] *)
Fixpoint middle_loop (self : DynamicNet) (hidden_layers : nat)
    (h_relu : tensor) : result tensor :=
  match hidden_layers with
  | O => Ok h_relu
  | S k =>
      h <- linear_forward (middle_linear self) h_relu ;;
      middle_loop self k (relu h)
  end.

(** [DynamicNet.forward(self, x)], where [hidden_layers] is the value
    drawn by [random.randint(0, 3)] during the call. *)
Definition DynamicNet_forward (self : DynamicNet) (hidden_layers : nat)
    (x : tensor) : result tensor :=
  h <- linear_forward (input_linear self) x ;;
  let h_relu := relu h in
  h_relu <- middle_loop self hidden_layers h_relu ;;
  y_pred <- linear_forward (output_linear self) h_relu ;;
  Ok y_pred.

End Torch.

(** ** Part 4: the autograd session of the AutoGrad notebook

    Cells 6 to 22 of the AutoGrad notebook build [out = mean(3 (x + 2)^2)]
    from a leaf [x] and call [backward()], [retain_grad()] and [.grad] on
    it.  The engine behind these calls is PyTorch's; what follows is a model
    of the part of it the cells exercise, run on the cells and compared with
    the outputs stored in the notebook file. *)

Module Autograd.

(** The items of a tensor, flattened. *)
Definition values := list Q.

Definition vmap2 (f : Q -> Q -> Q) (u v : values) : values :=
  zip_with (fun a b => Qred (f a b)) u v.

Definition vscale (c : Q) (u : values) : values :=
  map (fun a => Qred (c * a)) u.

Definition vsum (u : values) : Q := Qred (fold_right Qplus 0%Q u).

(** A tensor together with the history that produced it: a leaf, or the
    result of an operation, named after the [grad_fn] PyTorch records.
    [id] identifies the Python object. *)
Inductive tensor :=
  | Leaf (id : nat) (data : values) (requires_grad : bool)
  | AddBackward0 (id : nat) (data : values) (a : tensor) (c : Q)
  | MulBackward0 (id : nat) (data : values) (a b : tensor)
  | MulBackward0_scalar (id : nat) (data : values) (a : tensor) (c : Q)
  | MeanBackward0 (id : nat) (data : values) (a : tensor).

Definition tensor_id (t : tensor) : nat :=
  match t with
  | Leaf id _ _ | AddBackward0 id _ _ _ | MulBackward0 id _ _ _
  | MulBackward0_scalar id _ _ _ | MeanBackward0 id _ _ => id
  end.

Definition tensor_data (t : tensor) : values :=
  match t with
  | Leaf _ d _ | AddBackward0 _ d _ _ | MulBackward0 _ d _ _
  | MulBackward0_scalar _ d _ _ | MeanBackward0 _ d _ => d
  end.

Definition is_leaf (t : tensor) : bool :=
  match t with Leaf _ _ _ => true | _ => false end.

(** Operation nodes are only recorded for inputs that require a gradient. *)
Definition requires_grad (t : tensor) : bool :=
  match t with Leaf _ _ rg => rg | _ => true end.

(** The mutable autograd attributes of a tensor object. *)
Record attr := {
  grad : option values;
  retains_grad : bool;
  freed : bool
}.

Definition no_attr : attr :=
  {| grad := None; retains_grad := false; freed := false |}.

Definition attr_of (m : gmap nat attr) (id : nat) : attr :=
  default no_attr (m !! id).

(** Gradients are accumulated into [.grad], not replaced. *)
Definition accumulate (id : nat) (g : values) (m : gmap nat attr)
    : gmap nat attr :=
  let a := attr_of m id in
  let g' := match grad a with
            | None => g
            | Some old => vmap2 Qplus old g
            end in
  <[id := {| grad := Some g'; retains_grad := retains_grad a;
             freed := freed a |}]> m.

(** A non-leaf tensor keeps the gradient that flows through it only when
    [retain_grad()] was called on it. *)
Definition retain_hook (id : nat) (g : values) (m : gmap nat attr)
    : gmap nat attr :=
  if retains_grad (attr_of m id) then accumulate id g m else m.

Definition freed_message : string :=
  "Trying to backward through the graph a second time, but the buffers have already been freed. Specify retain_graph=True when calling backward the first time.".

(** Modelled from the spec: the reverse pass of PyTorch's autograd engine
    (third-party code, absent from the repository), after the notebook's
    description: gradients are accumulated in the leaves that require one,
    a non-leaf tensor keeps its gradient only after [retain_grad()], and
    going through a graph whose buffers were freed raises the RuntimeError
    recorded in cell 15.  From [t] with incoming gradient [g], the chain
    rule is followed along the recorded history. *)
Fixpoint backprop (t : tensor) (g : values) (m : gmap nat attr)
    : result unit * gmap nat attr :=
  match t with
  | Leaf id _ rg => (Ok tt, if rg then accumulate id g m else m)
  | AddBackward0 id _ a _ =>
      if freed (attr_of m id) then (Raise (RuntimeError freed_message), m)
      else backprop a g (retain_hook id g m)
  | MulBackward0 id _ a b =>
      if freed (attr_of m id) then (Raise (RuntimeError freed_message), m)
      else
        match backprop a (vmap2 Qmult g (tensor_data b)) (retain_hook id g m) with
        | (Ok _, m1) => backprop b (vmap2 Qmult g (tensor_data a)) m1
        | (Raise e, m1) => (Raise e, m1)
        end
  | MulBackward0_scalar id _ a c =>
      if freed (attr_of m id) then (Raise (RuntimeError freed_message), m)
      else backprop a (vscale c g) (retain_hook id g m)
  | MeanBackward0 id _ a =>
      if freed (attr_of m id) then (Raise (RuntimeError freed_message), m)
      else
        let n := length (tensor_data a) in
        let share := Qred (hd 0%Q g / inject_Z (Z.of_nat n)) in
        backprop a (repeat share n) (retain_hook id g m)
  end.

Definition mark_freed (id : nat) (m : gmap nat attr) : gmap nat attr :=
  let a := attr_of m id in
  <[id := {| grad := grad a; retains_grad := retains_grad a; freed := true |}]> m.

(** Freeing the graph used to compute the gradients. *)
Fixpoint free_graph (t : tensor) (m : gmap nat attr) : gmap nat attr :=
  match t with
  | Leaf _ _ _ => m
  | AddBackward0 id _ a _ | MulBackward0_scalar id _ a _
  | MeanBackward0 id _ a => free_graph a (mark_freed id m)
  | MulBackward0 id _ a b => free_graph b (free_graph a (mark_freed id m))
  end.

(** No node of the history of [t] has had its buffers freed. *)
Fixpoint live (t : tensor) (m : gmap nat attr) : bool :=
  match t with
  | Leaf _ _ _ => true
  | AddBackward0 id _ a _ | MulBackward0_scalar id _ a _
  | MeanBackward0 id _ a => negb (freed (attr_of m id)) && live a m
  | MulBackward0 id _ a b =>
      negb (freed (attr_of m id)) && live a m && live b m
  end.

(** The leaves of the history of [t] that require a gradient. *)
Fixpoint grad_leaves (t : tensor) : list nat :=
  match t with
  | Leaf id _ rg => if rg then [id] else []
  | AddBackward0 _ _ a _ | MulBackward0_scalar _ _ a _
  | MeanBackward0 _ _ a => grad_leaves a
  | MulBackward0 _ _ a b => grad_leaves a ++ grad_leaves b
  end.

(** *** The interpreter state of the notebook *)

Record state := {
  globals : gmap string tensor;
  attrs : gmap nat attr;
  next_id : nat;
  warning_shown : bool;
  stderr : list string
}.

Definition initial_state : state :=
  {| globals := ∅; attrs := ∅; next_id := 0;
     warning_shown := false; stderr := [] |}.

(** A statement either returns or raises; what it changed before raising
    stays changed. *)
Definition M (A : Type) := state -> result A * state.

Definition ret {A} (a : A) : M A := fun s => (Ok a, s).

Definition raise {A} (e : exception) : M A := fun s => (Raise e, s).

Definition bind_state {A B} (c : M A) (k : A -> M B) : M B :=
  fun s => match c s with
           | (Ok a, s') => k a s'
           | (Raise e, s') => (Raise e, s')
           end.

Notation "x <~ c ;; k" := (bind_state c (fun x => k))
  (at level 100, c at next level, right associativity).
Notation "c ;;; k" := (bind_state c (fun _ => k))
  (at level 100, right associativity).

Definition with_attrs (f : gmap nat attr -> gmap nat attr) : M unit :=
  fun s => (Ok tt, {| globals := globals s; attrs := f (attrs s);
                      next_id := next_id s;
                      warning_shown := warning_shown s;
                      stderr := stderr s |}).

Definition fresh : M nat :=
  fun s => (Ok (next_id s),
            {| globals := globals s; attrs := attrs s;
               next_id := S (next_id s);
               warning_shown := warning_shown s; stderr := stderr s |}).

(** Reading and binding a global name of the notebook. *)
Definition name (x : string) : M tensor :=
  fun s => match globals s !! x with
           | Some t => (Ok t, s)
           | None => (Raise (NameError x), s)
           end.

Definition assign (x : string) (t : tensor) : M unit :=
  fun s => (Ok tt, {| globals := <[x := t]> (globals s); attrs := attrs s;
                      next_id := next_id s;
                      warning_shown := warning_shown s;
                      stderr := stderr s |}).

(** [torch.ones(..., requires_grad=rg)] with [n] items *)
Definition torch_ones (n : nat) (rg : bool) : M tensor :=
  id <~ fresh ;; ret (Leaf id (repeat 1%Q n) rg).

(** The result of an operation whose inputs do not require a gradient is
    a leaf. *)
Definition record (a : tensor) (d : values) (node : nat -> tensor) : M tensor :=
  id <~ fresh ;;
  ret (if requires_grad a then node id else Leaf id d false).

(** [a + c] *)
Definition add_scalar (a : tensor) (c : Q) : M tensor :=
  let d := map (fun v => Qred (v + c)) (tensor_data a) in
  record a d (fun id => AddBackward0 id d a c).

(** [a * b] *)
Definition mul (a b : tensor) : M tensor :=
  let d := vmap2 Qmult (tensor_data a) (tensor_data b) in
  id <~ fresh ;;
  ret (if requires_grad a || requires_grad b
       then MulBackward0 id d a b else Leaf id d false).

(** [a * c] *)
Definition mul_scalar (a : tensor) (c : Q) : M tensor :=
  let d := vscale c (tensor_data a) in
  record a d (fun id => MulBackward0_scalar id d a c).

(** [a.mean()] *)
Definition mean (a : tensor) : M tensor :=
  let n := length (tensor_data a) in
  let d := [Qred (vsum (tensor_data a) / inject_Z (Z.of_nat n))] in
  record a d (fun id => MeanBackward0 id d a).

(** Modelled from the spec: [Tensor.backward] (PyTorch, absent from the
    repository), after the notebook's description of its parameters.
    [t.backward(retain_graph=..., create_graph=...)] on a scalar [t]:
    [retain_graph] defaults to the value of [create_graph]; if it is false
    the graph used to compute the gradients is freed. *)
Definition backward (t : tensor) (retain_graph : option bool)
    (create_graph : bool) : M unit :=
  if negb (requires_grad t)
  then raise (RuntimeError "element 0 of tensors does not require grad and does not have a grad_fn")
  else if negb (length (tensor_data t) =? 1)
  then raise (RuntimeError "grad can be implicitly created only for scalar outputs")
  else
    fun s =>
      let keep := default create_graph retain_graph in
      match backprop t [1%Q] (attrs s) with
      | (Ok _, m) =>
          with_attrs (fun _ => if keep then m else free_graph t m) s
      | (Raise e, m) =>
          (Raise e, snd (with_attrs (fun _ => m) s))
      end.

(** Modelled from the spec: [Tensor.retain_grad] (PyTorch, absent from the
    repository).  [t.retain_grad()] makes a non-leaf tensor keep its
    gradient; it does nothing on a leaf. *)
Definition retain_grad (t : tensor) : M unit :=
  if negb (requires_grad t)
  then raise (RuntimeError "can't retain_grad on Tensor that has requires_grad=False")
  else if is_leaf t then ret tt
  else with_attrs (fun m =>
         let a := attr_of m (tensor_id t) in
         <[tensor_id t := {| grad := grad a; retains_grad := true;
                             freed := freed a |}]> m).

Definition nonleaf_grad_warning : string :=
  "UserWarning: The .grad attribute of a Tensor that is not a leaf Tensor is being accessed. Its .grad attribute won't be populated during autograd.backward(). If you indeed want the gradient for a non-leaf Tensor, use .retain_grad() on the non-leaf Tensor. If you access the non-leaf Tensor by mistake, make sure you access the leaf Tensor instead. See github.com/pytorch/pytorch/pull/30531 for more informations.".

(** [warnings.warn]: by default Python shows a warning raised from one
    place only the first time. *)
Definition warn (msg : string) : M unit :=
  fun s => (Ok tt,
            {| globals := globals s; attrs := attrs s; next_id := next_id s;
               warning_shown := true;
               stderr := if warning_shown s then stderr s
                         else stderr s ++ [msg] |}).

(** Whether reading [t.grad] issues the non-leaf warning. *)
Definition grad_warns (t : tensor) (s : state) : bool :=
  negb (is_leaf t) && negb (retains_grad (attr_of (attrs s) (tensor_id t))).

(** Modelled from the spec: the [.grad] attribute (PyTorch, absent from
    the repository), after the warning recorded in cell 14.  [t.grad] of a
    non-leaf tensor that does not retain its gradient warns and is [None]. *)
Definition get_grad (t : tensor) : M (option values) :=
  fun s =>
    if grad_warns t s
    then (warn nonleaf_grad_warning ;;; ret None) s
    else (Ok (grad (attr_of (attrs s) (tensor_id t))), s).

(** [t.grad.zero_()] *)
Definition grad_zero_ (t : tensor) : M unit :=
  g <~ get_grad t ;;
  match g with
  | None => raise (AttributeError "'NoneType' object has no attribute 'zero_'")
  | Some old =>
      with_attrs (fun m =>
        let a := attr_of m (tensor_id t) in
        <[tensor_id t := {| grad := Some (map (fun _ => 0%Q) old);
                            retains_grad := retains_grad a;
                            freed := freed a |}]> m)
  end.

(** *** The cells of the notebook, named by their execution count

    The notebook file stores [In [21]] before [In [20]]; the cells are run
    here in the order of their counts. *)

(** What running a cell shows: the tensors printed or returned (or the
    exception raised), and the warnings written to stderr. *)
Record outcome := {
  shown : result (list values);
  warnings : list string
}.

Definition run_cell (c : M (list values)) (s : state) : outcome * state :=
  let s0 := {| globals := globals s; attrs := attrs s; next_id := next_id s;
               warning_shown := warning_shown s; stderr := [] |} in
  let (r, s1) := c s0 in
  ({| shown := r; warnings := stderr s1 |}, s1).

Definition show (g : option values) : list values :=
  match g with Some v => [v] | None => [] end.

(** [x = torch.ones(2, 2, requires_grad=True); print(x)] *)
Definition cell_6 : M (list values) :=
  x <~ torch_ones (2 * 2) true ;; assign "x" x ;;;
  ret [tensor_data x].

(** [y = x + 2; print(y)] *)
Definition cell_7 : M (list values) :=
  x <~ name "x" ;; y <~ add_scalar x 2 ;; assign "y" y ;;;
  ret [tensor_data y].

(** [z = y * y * 3; out = z.mean(); print(z, out)] *)
Definition cell_9 : M (list values) :=
  y <~ name "y" ;; yy <~ mul y y ;; z <~ mul_scalar yy 3 ;; assign "z" z ;;;
  z <~ name "z" ;; out <~ mean z ;; assign "out" out ;;;
  ret [tensor_data z; tensor_data out].

(** [out.backward()] *)
Definition cell_11 : M (list values) :=
  out <~ name "out" ;; backward out None false ;;; ret [].

(** [print(x.grad)] *)
Definition cell_12 : M (list values) :=
  x <~ name "x" ;; g <~ get_grad x ;; ret (show g).

(** [x.data] *)
Definition cell_13 : M (list values) :=
  x <~ name "x" ;; ret [tensor_data x].

(** [out.grad] *)
Definition cell_14 : M (list values) :=
  out <~ name "out" ;; g <~ get_grad out ;; ret (show g).

(** [out.retain_grad(); out.backward()] *)
Definition cell_15 : M (list values) :=
  out <~ name "out" ;; retain_grad out ;;;
  out <~ name "out" ;; backward out None false ;;; ret [].

(** [y = x + 2; z = y * y * 3; out = z.mean()]: the first three lines of
    cell 16, which build the graph again. *)
Definition cell_16_rebuild : M unit :=
  x <~ name "x" ;; y <~ add_scalar x 2 ;; assign "y" y ;;;
  y <~ name "y" ;; yy <~ mul y y ;; z <~ mul_scalar yy 3 ;; assign "z" z ;;;
  z <~ name "z" ;; out <~ mean z ;; assign "out" out.

(** Cell 16: the three lines above, then
    [out.retain_grad();
     out.backward(create_graph=True, retain_graph=True)] *)
Definition cell_16 : M (list values) :=
  cell_16_rebuild ;;;
  out <~ name "out" ;; retain_grad out ;;;
  out <~ name "out" ;; backward out (Some true) true ;;; ret [].

(** [x.grad] *)
Definition cell_17 : M (list values) :=
  x <~ name "x" ;; g <~ get_grad x ;; ret (show g).

(** [x.grad.zero_(); x.grad] *)
Definition cell_18 : M (list values) :=
  x <~ name "x" ;; grad_zero_ x ;;;
  x <~ name "x" ;; g <~ get_grad x ;; ret (show g).

(** [out.backward()] *)
Definition cell_19 : M (list values) :=
  out <~ name "out" ;; backward out None false ;;; ret [].

(** [out.grad] *)
Definition cell_20 : M (list values) :=
  out <~ name "out" ;; g <~ get_grad out ;; ret (show g).

(** [x.grad] *)
Definition cell_21 : M (list values) :=
  x <~ name "x" ;; g <~ get_grad x ;; ret (show g).

(** [y.grad] *)
Definition cell_22 : M (list values) :=
  y <~ name "y" ;; g <~ get_grad y ;; ret (show g).

(** The cells that touch [x], [y], [z] and [out], in execution order. *)
Definition session : list (nat * M (list values)) :=
  [ (6, cell_6); (7, cell_7); (9, cell_9); (11, cell_11); (12, cell_12);
    (13, cell_13); (14, cell_14); (15, cell_15); (16, cell_16);
    (17, cell_17); (18, cell_18); (19, cell_19); (20, cell_20);
    (21, cell_21); (22, cell_22) ].

Fixpoint run_session (cells : list (nat * M (list values))) (s : state)
    : list (nat * outcome) * state :=
  match cells with
  | [] => ([], s)
  | (k, c) :: rest =>
      let (o, s1) := run_cell c s in
      let (os, s2) := run_session rest s1 in
      ((k, o) :: os, s2)
  end.

(** The state in which the cell of execution count [k] runs. *)
Definition state_before (k : nat) : state :=
  snd (run_session (List.filter (fun kc => fst kc <? k) session) initial_state).

(** The two tensors named [out]: the one built by cell 9 and the one
    rebuilt by cell 16 (objects 4 and 8 of the session). *)
Definition x_leaf : tensor := Leaf 0 [1; 1; 1; 1]%Q true.

Definition out_first : tensor :=
  let y := AddBackward0 1 [3; 3; 3; 3]%Q x_leaf 2 in
  let yy := MulBackward0 2 [9; 9; 9; 9]%Q y y in
  let z := MulBackward0_scalar 3 [27; 27; 27; 27]%Q yy 3 in
  MeanBackward0 4 [27]%Q z.

Definition out_second : tensor :=
  let y := AddBackward0 5 [3; 3; 3; 3]%Q x_leaf 2 in
  let yy := MulBackward0 6 [9; 9; 9; 9]%Q y y in
  let z := MulBackward0_scalar 7 [27; 27; 27; 27]%Q yy 3 in
  MeanBackward0 8 [27]%Q z.

(** The state in the middle of cell 16, once [out] has been rebuilt and
    before [out.retain_grad()]. *)
Definition state_rebuilt_16 : state :=
  snd (cell_16_rebuild (state_before 16)).

Definition quiet (vs : list values) : outcome :=
  {| shown := Ok vs; warnings := [] |}.

(** The outputs stored in the notebook file for these cells. *)
Definition recorded : list (nat * outcome) :=
  [ (6, quiet [[1; 1; 1; 1]]%Q);
    (7, quiet [[3; 3; 3; 3]]%Q);
    (9, quiet [[27; 27; 27; 27]; [27]]%Q);
    (11, quiet []);
    (12, quiet [[9#2; 9#2; 9#2; 9#2]]%Q);
    (13, quiet [[1; 1; 1; 1]]%Q);
    (14, {| shown := Ok []; warnings := [nonleaf_grad_warning] |});
    (15, {| shown := Raise (RuntimeError freed_message); warnings := [] |});
    (16, quiet []);
    (17, quiet [[9; 9; 9; 9]]%Q);
    (18, quiet [[0; 0; 0; 0]]%Q);
    (19, quiet []);
    (20, quiet [[2]]%Q);
    (21, quiet [[9#2; 9#2; 9#2; 9#2]]%Q);
    (22, quiet []) ].

End Autograd.

(** ** Part 5: the code cells of the notebooks, as syntax *)

Module Py.

#[local] Set Warnings "-register-all".

Inductive const :=
  | CInt (z : Z)
  | CFloat (literal : string)
  | CStr (s : string)
  | CBool (b : bool)
  | CNone
  | CEllipsis.

Arguments CInt z%_Z.

Inductive binop := Add | Sub | Mult | Div | Mod | Pow.

Inductive cmpop := CmpEq | CmpNotEq | CmpLt | CmpLtE | CmpGt | CmpGtE.

(** The expressions that occur in the code cells. *)
Inductive expr :=
  | Name (id : string)
  | Const (c : const)
  | Attr (value : expr) (attr : string)
  | Call (func : expr) (args : list expr) (keywords : list (string * expr))
  | BinOp (left : expr) (op : binop) (right : expr)
  | Neg (operand : expr)
  | Compare (left : expr) (op : cmpop) (right : expr)
  | Subscript (value : expr) (index : expr)
  | Slice (lower upper : option expr)
  | Tuple (elts : list expr)
  | ListLit (elts : list expr)
  | ListComp (elt target iter : expr)
  | IfExp (test body orelse : expr).

(** The statements that occur in the code cells.  [Docstring] stands for a
    string used as a statement. *)
Inductive stmt :=
  | ImportStmt (names : list string)
  | ImportFromStmt (module : string) (names : list string)
  | Assign (targets : list expr) (value : expr)
  | AugAssign (target : expr) (op : binop) (value : expr)
  | Expr (value : expr)
  | For (target iter : expr) (body : list stmt)
  | With (items : list expr) (body : list stmt)
  | If (test : expr) (body orelse : list stmt)
  | ClassDef (name : string) (bases : list expr) (body : list stmt)
  | FunctionDef (name : string) (params : list (string * option expr))
      (body : list stmt)
  | Return (value : option expr)
  | Assert (test : expr)
  | Docstring.

(** A notebook: its path and its code cells, each with its position among
    the cells of the notebook, text cells included (the first cell is 0).
    The comment before a cell gives its execution count, [In [n]]. *)
Record notebook := {
  path : string;
  cells : list (nat * list stmt)
}.

Local Open Scope string_scope.

(** The code cells of [unnamed/part_000]. *)
Definition data_nb : notebook :=
  {| path := "unnamed/part_000";
     cells := [
       (* cell 12, In [1] *)
       (12, [ImportFromStmt "sklearn" ["datasets"]]);
       (* cell 15, In [2] *)
       (15,
        [ ImportFromStmt "sklearn.datasets" ["load_iris"];
          Assign
            [Tuple [Name "X"; Name "y"]]
            (Call
              (Name "load_iris")
              []
              [("return_X_y", Const (CBool true)); ("as_frame", Const (CBool true))]) ]);
       (* cell 16, In [3] *)
       (16, [Assign [Name "first_sample"] (Subscript (Attr (Name "X") "iloc") (Const (CInt 0)))]);
       (* cell 17, In [4] *)
       (17, [Expr (Name "first_sample")]);
       (* cell 19, In [5] *)
       (19,
        [ ImportFromStmt "sklearn.datasets" ["load_digits"];
          Assign [Name "digits"] (Call (Name "load_digits") [] []) ]);
       (* cell 20, In [6] *)
       (20, []);
       (* cell 23, In [7] *)
       (23, [ImportFromStmt "sklearn.datasets" ["fetch_rcv1"]]);
       (* cell 24, In [8] *)
       (24, [Assign [Name "rcv1"] (Call (Name "fetch_rcv1") [] [])]);
       (* cell 25, In [9] *)
       (25, [Expr (Call (Attr (Name "rcv1") "keys") [] [])]);
       (* cell 26, In [10] *)
       (26, [Expr (Call (Name "print") [Attr (Name "rcv1") "DESCR"] [])]);
       (* cell 27, In [11] *)
       (27, [Assign [Name "X"] (Attr (Name "rcv1") "data")]);
       (* cell 28, In [12] *)
       (28, [Expr (Attr (Name "X") "shape")]);
       (* cell 29, In [ ] *)
       (29, [Expr (Call (Name "type") [Name "X"] [])]) ] |}.

(** The code cells of [unnamed/part_001]. *)
Definition autoencoder_nb : notebook :=
  {| path := "unnamed/part_001";
     cells := [
       (* cell 8, In [1] *)
       (8, [ImportStmt ["torch"]; ImportFromStmt "torch" ["nn"]]);
       (* cell 9, In [11] *)
       (9, [ImportFromStmt "torch.nn" ["functional as F"]]);
       (* cell 10, In [12] *)
       (10,
        [ ClassDef "AE"
            [Attr (Name "nn") "Module"]
            [ FunctionDef "__init__"
                [("self", None); ("input_shape", None)]
                [ Expr
                    (Call
                      (Attr (Call (Name "super") [Name "AE"; Name "self"] []) "__init__")
                      []
                      []);
                  Assign
                    [Attr (Name "self") "encoder_hidden_layer"]
                    (Call
                      (Attr (Name "nn") "Linear")
                      []
                      [("in_features", Name "input_shape"); ("out_features", Const (CInt 128))]);
                  Assign
                    [Attr (Name "self") "encoder_output_layer"]
                    (Call (Attr (Name "nn") "Linear") [Const (CInt 128); Const (CInt 128)] []);
                  Assign
                    [Attr (Name "self") "decoder_hidden_layer"]
                    (Call (Attr (Name "nn") "Linear") [Const (CInt 128); Const (CInt 128)] []);
                  Assign
                    [Attr (Name "self") "decoder_output_layer"]
                    (Call (Attr (Name "nn") "Linear") [Const (CInt 128); Name "input_shape"] []) ];
              FunctionDef "forward"
                [("self", None); ("features", None)]
                [ Assign
                    [Name "encoder"]
                    (Call
                      (Attr (Name "F") "relu")
                      [Call (Attr (Name "self") "encoder_hidden_layer") [Name "features"] []]
                      []);
                  Assign
                    [Name "z"]
                    (Call
                      (Attr (Name "F") "relu")
                      [Call (Attr (Name "self") "encoder_output_layer") [Name "encoder"] []]
                      []);
                  Assign
                    [Name "decoder"]
                    (Call
                      (Attr (Name "F") "relu")
                      [Call (Attr (Name "self") "decoder_hidden_layer") [Name "z"] []]
                      []);
                  Assign
                    [Name "reconstructed"]
                    (Call
                      (Attr (Name "F") "relu")
                      [Call (Attr (Name "self") "decoder_output_layer") [Name "decoder"] []]
                      []);
                  Return (Some (Name "reconstructed")) ] ] ]);
       (* cell 13, In [13] *)
       (13,
        [ ImportFromStmt "torch" ["optim"];
          Assign
            [Name "device"]
            (Call
              (Attr (Name "torch") "device")
              [ IfExp
                  (Call (Attr (Attr (Name "torch") "cuda") "is_available") [] [])
                  (Const (CStr "cuda"))
                  (Const (CStr "cpu")) ]
              []);
          Assign
            [Name "model"]
            (Call
              (Attr (Call (Name "AE") [] [("input_shape", Const (CInt 784))]) "to")
              [Name "device"]
              []);
          Assign
            [Name "optimizer"]
            (Call
              (Attr (Name "optim") "Adam")
              [Call (Attr (Name "model") "parameters") [] []]
              [("lr", Const (CFloat "1e-3"))]);
          Assign [Name "criterion"] (Call (Attr (Name "nn") "MSELoss") [] []) ]);
       (* cell 15, In [14] *)
       (15,
        [ ImportStmt ["torchvision"];
          Assign
            [Name "transform"]
            (Call
              (Attr (Attr (Name "torchvision") "transforms") "Compose")
              [ListLit [Call (Attr (Attr (Name "torchvision") "transforms") "ToTensor") [] []]]
              []);
          Assign
            [Name "train_dataset"]
            (Call
              (Attr (Attr (Name "torchvision") "datasets") "MNIST")
              []
              [ ("root", Const (CStr "mnist_data"));
                ("train", Const (CBool true));
                ("transform", Name "transform");
                ("download", Const (CBool true)) ]);
          Assign
            [Name "test_dataset"]
            (Call
              (Attr (Attr (Name "torchvision") "datasets") "MNIST")
              []
              [ ("root", Const (CStr "mnist_data"));
                ("train", Const (CBool false));
                ("transform", Name "transform");
                ("download", Const (CBool true)) ]);
          Assign
            [Name "train_loader"]
            (Call
              (Attr (Attr (Attr (Name "torch") "utils") "data") "DataLoader")
              [Name "train_dataset"]
              [ ("batch_size", Const (CInt 128));
                ("shuffle", Const (CBool true));
                ("num_workers", Const (CInt 4));
                ("pin_memory", Const (CBool true)) ]);
          Assign
            [Name "test_loader"]
            (Call
              (Attr (Attr (Attr (Name "torch") "utils") "data") "DataLoader")
              [Name "test_dataset"]
              [ ("batch_size", Const (CInt 32));
                ("shuffle", Const (CBool false));
                ("num_workers", Const (CInt 4)) ]) ]);
       (* cell 17, In [16] *)
       (17,
        [ Assign [Name "EPOCHS"] (Const (CInt 20));
          For
            (Name "epoch")
            (Call (Name "range") [Name "EPOCHS"] [])
            [ Assign [Name "loss"] (Const (CInt 0));
              For
                (Tuple [Name "batch_features"; Name "_"])
                (Name "train_loader")
                [ Assign
                    [Name "batch_features"]
                    (Call
                      (Attr
                        (Call
                          (Attr (Name "batch_features") "view")
                          [Neg (Const (CInt 1)); Const (CInt 784)]
                          [])
                        "to")
                      [Name "device"]
                      []);
                  Expr (Call (Attr (Name "optimizer") "zero_grad") [] []);
                  Assign [Name "outputs"] (Call (Name "model") [Name "batch_features"] []);
                  Assign
                    [Name "train_loss"]
                    (Call (Name "criterion") [Name "outputs"; Name "batch_features"] []);
                  Expr (Call (Attr (Name "train_loss") "backward") [] []);
                  Expr (Call (Attr (Name "optimizer") "step") [] []);
                  AugAssign (Name "loss") Add (Call (Attr (Name "train_loss") "item") [] []) ];
              Assign
                [Name "loss"]
                (BinOp (Name "loss") Div (Call (Name "len") [Name "train_loader"] []));
              Expr
                (Call
                  (Name "print")
                  [ Call
                      (Attr (Const (CStr "epoch : {}/{}, loss = {:.6f}")) "format")
                      [BinOp (Name "epoch") Add (Const (CInt 1)); Name "EPOCHS"; Name "loss"]
                      [] ]
                  []) ] ]);
       (* cell 18, In [24] *)
       (18,
        [ Assign [Name "test_iter"] (Call (Name "iter") [Name "test_loader"] []);
          With
            [Call (Attr (Name "torch") "no_grad") [] []]
            [ Assign [Tuple [Name "images"; Name "_"]] (Call (Name "next") [Name "test_iter"] []);
              Assign
                [Name "images"]
                (Call (Attr (Name "images") "view") [Neg (Const (CInt 1)); Const (CInt 784)] []);
              Assign [Name "reconstructed"] (Call (Name "model") [Name "images"] []) ] ]);
       (* cell 19, In [25] *)
       (19, [Expr (Attr (Name "reconstructed") "shape")]);
       (* cell 20, In [26] *)
       (20,
        [ Assign
            [Name "img"]
            (Call
              (Attr
                (Call (Attr (Subscript (Name "reconstructed") (Const (CInt 0))) "numpy") [] [])
                "reshape")
              [Const (CInt 28); Const (CInt 28)]
              []) ]);
       (* cell 21, In [27] *)
       (21, [Expr (Attr (Name "img") "shape")]);
       (* cell 22, In [30] *)
       (22,
        [ ImportFromStmt "matplotlib" ["pyplot as plt"];
          Expr (Call (Attr (Name "plt") "imshow") [Name "img"] [("cmap", Const (CStr "binary"))]);
          Expr (Call (Attr (Name "plt") "show") [] []) ]);
       (* cell 23, In [ ] *)
       (23, []) ] |}.

(** [unnamed/part_002] has no code cell. *)
Definition cnn_nb : notebook :=
  {| path := "unnamed/part_002"; cells := [] |}.

(** The code cells of [unnamed/part_003]. *)
Definition tensorboard_nb : notebook :=
  {| path := "unnamed/part_003";
     cells := [
       (* cell 3, In [1] *)
       (3,
        [ ImportStmt ["matplotlib.pyplot as plt"];
          ImportStmt ["numpy as np"];
          ImportStmt ["torch"];
          ImportStmt ["torchvision"];
          ImportStmt ["torchvision.transforms as transforms"];
          ImportStmt ["torch.nn as nn"];
          ImportStmt ["torch.nn.functional as F"];
          ImportStmt ["torch.optim as optim"] ]);
       (* cell 4, In [2] *)
       (4,
        [ Assign
            [Name "transform"]
            (Call
              (Attr (Name "transforms") "Compose")
              [ ListLit
                  [ Call (Attr (Name "transforms") "ToTensor") [] [];
                    Call
                      (Attr (Name "transforms") "Normalize")
                      [Tuple [Const (CFloat "0.5")]; Tuple [Const (CFloat "0.5")]]
                      [] ] ]
              []) ]);
       (* cell 5, In [3] *)
       (5,
        [ Assign
            [Name "trainset"]
            (Call
              (Attr (Attr (Name "torchvision") "datasets") "FashionMNIST")
              [Const (CStr "./data")]
              [ ("download", Const (CBool true));
                ("train", Const (CBool true));
                ("transform", Name "transform") ]);
          Assign
            [Name "testset"]
            (Call
              (Attr (Attr (Name "torchvision") "datasets") "FashionMNIST")
              [Const (CStr "./data")]
              [ ("download", Const (CBool true));
                ("train", Const (CBool false));
                ("transform", Name "transform") ]);
          Assign
            [Name "trainloader"]
            (Call
              (Attr (Attr (Attr (Name "torch") "utils") "data") "DataLoader")
              [Name "trainset"]
              [ ("batch_size", Const (CInt 4));
                ("shuffle", Const (CBool true));
                ("num_workers", Const (CInt 2)) ]);
          Assign
            [Name "testloader"]
            (Call
              (Attr (Attr (Attr (Name "torch") "utils") "data") "DataLoader")
              [Name "testset"]
              [ ("batch_size", Const (CInt 4));
                ("shuffle", Const (CBool false));
                ("num_workers", Const (CInt 2)) ]) ]);
       (* cell 6, In [4] *)
       (6,
        [ Assign
            [Name "classes"]
            (Tuple
              [ Const (CStr "T-shirt/top");
                Const (CStr "Trouser");
                Const (CStr "Pullover");
                Const (CStr "Dress");
                Const (CStr "Coat");
                Const (CStr "Sandal");
                Const (CStr "Shirt");
                Const (CStr "Sneaker");
                Const (CStr "Bag");
                Const (CStr "Ankle Boot") ]) ]);
       (* cell 7, In [5] *)
       (7,
        [ FunctionDef "matplotlib_imshow"
            [("img", None); ("one_channel", Some (Const (CBool false)))]
            [ If
                (Name "one_channel")
                [Assign [Name "img"] (Call (Attr (Name "img") "mean") [] [("dim", Const (CInt 0))])]
                [];
              Assign
                [Name "img"]
                (BinOp (BinOp (Name "img") Div (Const (CInt 2))) Add (Const (CFloat "0.5")));
              Assign [Name "npimg"] (Call (Attr (Name "img") "numpy") [] []);
              If
                (Name "one_channel")
                [ Expr
                    (Call
                      (Attr (Name "plt") "imshow")
                      [Name "npimg"]
                      [("cmap", Const (CStr "Greys"))]) ]
                [ Expr
                    (Call
                      (Attr (Name "plt") "imshow")
                      [ Call
                          (Attr (Name "np") "transpose")
                          [Name "npimg"; Tuple [Const (CInt 1); Const (CInt 2); Const (CInt 0)]]
                          [] ]
                      []) ] ] ]);
       (* cell 9, In [6] *)
       (9,
        [ ClassDef "Net"
            [Attr (Name "nn") "Module"]
            [ FunctionDef "__init__"
                [("self", None)]
                [ Expr
                    (Call
                      (Attr (Call (Name "super") [Name "Net"; Name "self"] []) "__init__")
                      []
                      []);
                  Assign
                    [Attr (Name "self") "conv1"]
                    (Call
                      (Attr (Name "nn") "Conv2d")
                      [Const (CInt 1); Const (CInt 6); Const (CInt 5)]
                      []);
                  Assign
                    [Attr (Name "self") "pool"]
                    (Call (Attr (Name "nn") "MaxPool2d") [Const (CInt 2); Const (CInt 2)] []);
                  Assign
                    [Attr (Name "self") "conv2"]
                    (Call
                      (Attr (Name "nn") "Conv2d")
                      [Const (CInt 6); Const (CInt 16); Const (CInt 5)]
                      []);
                  Assign
                    [Attr (Name "self") "fc1"]
                    (Call
                      (Attr (Name "nn") "Linear")
                      [ BinOp (BinOp (Const (CInt 16)) Mult (Const (CInt 4))) Mult (Const (CInt 4));
                        Const (CInt 120) ]
                      []);
                  Assign
                    [Attr (Name "self") "fc2"]
                    (Call (Attr (Name "nn") "Linear") [Const (CInt 120); Const (CInt 84)] []);
                  Assign
                    [Attr (Name "self") "fc3"]
                    (Call (Attr (Name "nn") "Linear") [Const (CInt 84); Const (CInt 10)] []) ];
              FunctionDef "forward"
                [("self", None); ("x", None)]
                [ Assign
                    [Name "x"]
                    (Call
                      (Attr (Name "self") "pool")
                      [ Call
                          (Attr (Name "F") "relu")
                          [Call (Attr (Name "self") "conv1") [Name "x"] []]
                          [] ]
                      []);
                  Assign
                    [Name "x"]
                    (Call
                      (Attr (Name "self") "pool")
                      [ Call
                          (Attr (Name "F") "relu")
                          [Call (Attr (Name "self") "conv2") [Name "x"] []]
                          [] ]
                      []);
                  Assign
                    [Name "x"]
                    (Call
                      (Attr (Name "x") "view")
                      [ Neg (Const (CInt 1));
                        BinOp
                          (BinOp (Const (CInt 16)) Mult (Const (CInt 4)))
                          Mult
                          (Const (CInt 4)) ]
                      []);
                  Assign
                    [Name "x"]
                    (Call
                      (Attr (Name "F") "relu")
                      [Call (Attr (Name "self") "fc1") [Name "x"] []]
                      []);
                  Assign
                    [Name "x"]
                    (Call
                      (Attr (Name "F") "relu")
                      [Call (Attr (Name "self") "fc2") [Name "x"] []]
                      []);
                  Assign [Name "x"] (Call (Attr (Name "self") "fc3") [Name "x"] []);
                  Return (Some (Name "x")) ] ];
          Assign [Name "net"] (Call (Name "Net") [] []) ]);
       (* cell 11, In [7] *)
       (11,
        [ Assign [Name "criterion"] (Call (Attr (Name "nn") "CrossEntropyLoss") [] []);
          Assign
            [Name "optimizer"]
            (Call
              (Attr (Name "optim") "SGD")
              [Call (Attr (Name "net") "parameters") [] []]
              [("lr", Const (CFloat "0.001")); ("momentum", Const (CFloat "0.9"))]) ]);
       (* cell 14, In [8] *)
       (14,
        [ ImportFromStmt "torch.utils.tensorboard" ["SummaryWriter"];
          Assign
            [Name "writer"]
            (Call (Name "SummaryWriter") [Const (CStr "runs/fashion_mnist_experiment_1")] []) ]);
       (* cell 17, In [9] *)
       (17,
        [ Assign [Name "dataiter"] (Call (Name "iter") [Name "trainloader"] []);
          Assign
            [Tuple [Name "images"; Name "labels"]]
            (Call (Attr (Name "dataiter") "next") [] []);
          Assign
            [Name "img_grid"]
            (Call (Attr (Attr (Name "torchvision") "utils") "make_grid") [Name "images"] []);
          Expr
            (Call
              (Name "matplotlib_imshow")
              [Name "img_grid"]
              [("one_channel", Const (CBool true))]);
          Expr
            (Call
              (Attr (Name "writer") "add_image")
              [Const (CStr "four_fashion_mnist_images"); Name "img_grid"]
              []) ]);
       (* cell 23, In [10] *)
       (23,
        [ Expr (Call (Attr (Name "writer") "add_graph") [Name "net"; Name "images"] []);
          Expr (Call (Attr (Name "writer") "close") [] []) ]);
       (* cell 27, In [14] *)
       (27,
        [ ImportStmt ["tensorflow as tf"];
          ImportStmt ["tensorboard as tb"];
          Assign
            [Attr (Attr (Name "tf") "io") "gfile"]
            (Attr (Attr (Attr (Attr (Name "tb") "compat") "tensorflow_stub") "io") "gfile") ]);
       (* cell 28, In [15] *)
       (28,
        [ FunctionDef "select_n_random"
            [("data", None); ("labels", None); ("n", Some (Const (CInt 100)))]
            [ Docstring;
              Assert
                (Compare
                  (Call (Name "len") [Name "data"] [])
                  CmpEq
                  (Call (Name "len") [Name "labels"] []));
              Assign
                [Name "perm"]
                (Call (Attr (Name "torch") "randperm") [Call (Name "len") [Name "data"] []] []);
              Return
                (Some
                  (Tuple
                    [ Subscript
                        (Subscript (Name "data") (Name "perm"))
                        (Slice None (Some (Name "n")));
                      Subscript
                        (Subscript (Name "labels") (Name "perm"))
                        (Slice None (Some (Name "n"))) ])) ];
          Assign
            [Tuple [Name "images"; Name "labels"]]
            (Call
              (Name "select_n_random")
              [Attr (Name "trainset") "data"; Attr (Name "trainset") "targets"]
              []);
          Assign
            [Name "class_labels"]
            (ListComp (Subscript (Name "classes") (Name "lab")) (Name "lab") (Name "labels"));
          Assign
            [Name "features"]
            (Call
              (Attr (Name "images") "view")
              [Neg (Const (CInt 1)); BinOp (Const (CInt 28)) Mult (Const (CInt 28))]
              []);
          Expr
            (Call
              (Attr (Name "writer") "add_embedding")
              [Name "features"]
              [ ("metadata", Name "class_labels");
                ("label_img", Call (Attr (Name "images") "unsqueeze") [Const (CInt 1)] []) ]);
          Expr (Call (Attr (Name "writer") "close") [] []) ]);
       (* cell 31, In [16] *)
       (31,
        [ FunctionDef "images_to_probs"
            [("net", None); ("images", None)]
            [ Docstring;
              Assign [Name "output"] (Call (Name "net") [Name "images"] []);
              Assign
                [Tuple [Name "_"; Name "preds_tensor"]]
                (Call (Attr (Name "torch") "max") [Name "output"; Const (CInt 1)] []);
              Assign
                [Name "preds"]
                (Call
                  (Attr (Name "np") "squeeze")
                  [Call (Attr (Name "preds_tensor") "numpy") [] []]
                  []);
              Return
                (Some
                  (Tuple
                    [ Name "preds";
                      ListComp
                        (Call
                          (Attr
                            (Subscript
                              (Call
                                (Attr (Name "F") "softmax")
                                [Name "el"]
                                [("dim", Const (CInt 0))])
                              (Name "i"))
                            "item")
                          []
                          [])
                        (Tuple [Name "i"; Name "el"])
                        (Call (Name "zip") [Name "preds"; Name "output"] []) ])) ] ]);
       (* cell 32, In [17] *)
       (32,
        [ FunctionDef "plot_classes_preds"
            [("net", None); ("images", None); ("labels", None)]
            [ Docstring;
              Assign
                [Tuple [Name "preds"; Name "probs"]]
                (Call (Name "images_to_probs") [Name "net"; Name "images"] []);
              Assign
                [Name "fig"]
                (Call
                  (Attr (Name "plt") "figure")
                  []
                  [("figsize", Tuple [Const (CInt 12); Const (CInt 48)])]);
              For
                (Name "idx")
                (Call (Attr (Name "np") "arange") [Const (CInt 4)] [])
                [ Assign
                    [Name "ax"]
                    (Call
                      (Attr (Name "fig") "add_subplot")
                      [Const (CInt 1); Const (CInt 4); BinOp (Name "idx") Add (Const (CInt 1))]
                      [("xticks", ListLit []); ("yticks", ListLit [])]);
                  Expr
                    (Call
                      (Name "matplotlib_imshow")
                      [Subscript (Name "images") (Name "idx")]
                      [("one_channel", Const (CBool true))]);
                  Expr
                    (Call
                      (Attr (Name "ax") "set_title")
                      [ Call
                          (Attr (Const (CStr "{0}, {1:.1f}%\n(label: {2})")) "format")
                          [ Subscript (Name "classes") (Subscript (Name "preds") (Name "idx"));
                            BinOp
                              (Subscript (Name "probs") (Name "idx"))
                              Mult
                              (Const (CFloat "100.0"));
                            Subscript (Name "classes") (Subscript (Name "labels") (Name "idx")) ]
                          [] ]
                      [ ("color",
                         IfExp
                           (Compare
                             (Subscript (Name "preds") (Name "idx"))
                             CmpEq
                             (Call (Attr (Subscript (Name "labels") (Name "idx")) "item") [] []))
                           (Const (CStr "green"))
                           (Const (CStr "red"))) ]) ];
              Return (Some (Name "fig")) ] ]);
       (* cell 34, In [18] *)
       (34,
        [ Assign [Name "running_loss"] (Const (CFloat "0.0"));
          For
            (Name "epoch")
            (Call (Name "range") [Const (CInt 1)] [])
            [ For
                (Tuple [Name "i"; Name "data"])
                (Call (Name "enumerate") [Name "trainloader"; Const (CInt 0)] [])
                [ Assign [Tuple [Name "inputs"; Name "labels"]] (Name "data");
                  Expr (Call (Attr (Name "optimizer") "zero_grad") [] []);
                  Assign [Name "outputs"] (Call (Name "net") [Name "inputs"] []);
                  Assign [Name "loss"] (Call (Name "criterion") [Name "outputs"; Name "labels"] []);
                  Expr (Call (Attr (Name "loss") "backward") [] []);
                  Expr (Call (Attr (Name "optimizer") "step") [] []);
                  AugAssign (Name "running_loss") Add (Call (Attr (Name "loss") "item") [] []);
                  If
                    (Compare (BinOp (Name "i") Mod (Const (CInt 1000))) CmpEq (Const (CInt 999)))
                    [ Expr
                        (Call
                          (Attr (Name "writer") "add_scalar")
                          [ Const (CStr "training loss");
                            BinOp (Name "running_loss") Div (Const (CInt 1000));
                            BinOp
                              (BinOp
                                (Name "epoch")
                                Mult
                                (Call (Name "len") [Name "trainloader"] []))
                              Add
                              (Name "i") ]
                          []);
                      Expr
                        (Call
                          (Attr (Name "writer") "add_figure")
                          [ Const (CStr "predictions vs. actuals");
                            Call
                              (Name "plot_classes_preds")
                              [Name "net"; Name "inputs"; Name "labels"]
                              [] ]
                          [ ("global_step",
                             BinOp
                               (BinOp
                                 (Name "epoch")
                                 Mult
                                 (Call (Name "len") [Name "trainloader"] []))
                               Add
                               (Name "i")) ]);
                      Assign [Name "running_loss"] (Const (CFloat "0.0")) ]
                    [] ] ];
          Expr (Call (Name "print") [Const (CStr "Finished Training")] []) ]) ] |}.

(** The code cells of [dl_intro/2 Torch AutoGrad.ipynb]. *)
Definition autograd_nb : notebook :=
  {| path := "dl_intro/2 Torch AutoGrad.ipynb";
     cells := [
       (* cell 5, In [1] *)
       (5,
        [ ImportStmt ["numpy as np"];
          Assign
            [Tuple [Name "N"; Name "D_in"; Name "H"; Name "D_out"]]
            (Tuple [Const (CInt 64); Const (CInt 1000); Const (CInt 100); Const (CInt 10)]);
          Assign
            [Name "x"]
            (Call (Attr (Attr (Name "np") "random") "randn") [Name "N"; Name "D_in"] []);
          Assign
            [Name "y"]
            (Call (Attr (Attr (Name "np") "random") "randn") [Name "N"; Name "D_out"] []);
          Assign
            [Name "w1"]
            (Call (Attr (Attr (Name "np") "random") "randn") [Name "D_in"; Name "H"] []);
          Assign
            [Name "w2"]
            (Call (Attr (Attr (Name "np") "random") "randn") [Name "H"; Name "D_out"] []) ]);
       (* cell 6, In [2] *)
       (6, [Assign [Name "learning_rate"] (Const (CFloat "1e-6"))]);
       (* cell 8, In [3] *)
       (8,
        [ For
            (Name "t")
            (Call (Name "range") [Const (CInt 500)] [])
            [ Assign [Name "h"] (Call (Attr (Name "x") "dot") [Name "w1"] []);
              Assign
                [Name "h_relu"]
                (Call (Attr (Name "np") "maximum") [Name "h"; Const (CInt 0)] []);
              Assign [Name "y_pred"] (Call (Attr (Name "h_relu") "dot") [Name "w2"] []);
              Assign
                [Name "loss"]
                (Call
                  (Attr
                    (Call (Attr (Name "np") "square") [BinOp (Name "y_pred") Sub (Name "y")] [])
                    "sum")
                  []
                  []);
              If
                (Compare (BinOp (Name "t") Mod (Const (CInt 50))) CmpEq (Const (CInt 0)))
                [Expr (Call (Name "print") [Name "t"; Name "loss"] [])]
                [];
              Assign
                [Name "grad_y_pred"]
                (BinOp (Const (CFloat "2.0")) Mult (BinOp (Name "y_pred") Sub (Name "y")));
              Assign
                [Name "grad_w2"]
                (Call (Attr (Attr (Name "h_relu") "T") "dot") [Name "grad_y_pred"] []);
              Assign
                [Name "grad_h_relu"]
                (Call (Attr (Name "grad_y_pred") "dot") [Attr (Name "w2") "T"] []);
              Assign [Name "grad_h"] (Call (Attr (Name "grad_h_relu") "copy") [] []);
              Assign
                [Subscript (Name "grad_h") (Compare (Name "h") CmpLt (Const (CInt 0)))]
                (Const (CInt 0));
              Assign [Name "grad_w1"] (Call (Attr (Attr (Name "x") "T") "dot") [Name "grad_h"] []);
              AugAssign (Name "w1") Sub (BinOp (Name "learning_rate") Mult (Name "grad_w1"));
              AugAssign (Name "w2") Sub (BinOp (Name "learning_rate") Mult (Name "grad_w2")) ];
          Expr (Call (Name "print") [Const (CStr "Final Loss: "); Name "loss"] []) ]);
       (* cell 10, In [4] *)
       (10,
        [ ImportStmt ["torch"];
          Assign [Name "dtype"] (Attr (Name "torch") "float");
          Assign [Name "device"] (Call (Attr (Name "torch") "device") [Const (CStr "cpu")] []);
          Assign
            [Tuple [Name "N"; Name "D_in"; Name "H"; Name "D_out"]]
            (Tuple [Const (CInt 64); Const (CInt 1000); Const (CInt 100); Const (CInt 10)]);
          Assign
            [Name "x"]
            (Call
              (Attr (Name "torch") "randn")
              [Name "N"; Name "D_in"]
              [("device", Name "device"); ("dtype", Name "dtype")]);
          Assign
            [Name "y"]
            (Call
              (Attr (Name "torch") "randn")
              [Name "N"; Name "D_out"]
              [("device", Name "device"); ("dtype", Name "dtype")]);
          Assign
            [Name "w1"]
            (Call
              (Attr (Name "torch") "randn")
              [Name "D_in"; Name "H"]
              [("device", Name "device"); ("dtype", Name "dtype")]);
          Assign
            [Name "w2"]
            (Call
              (Attr (Name "torch") "randn")
              [Name "H"; Name "D_out"]
              [("device", Name "device"); ("dtype", Name "dtype")]);
          Assign [Name "learning_rate"] (Const (CFloat "1e-6")) ]);
       (* cell 11, In [5] *)
       (11,
        [ For
            (Name "t")
            (Call (Name "range") [Const (CInt 500)] [])
            [ Assign [Name "h"] (Call (Attr (Name "x") "mm") [Name "w1"] []);
              Assign [Name "h_relu"] (Call (Attr (Name "h") "clamp") [] [("min", Const (CInt 0))]);
              Assign [Name "y_pred"] (Call (Attr (Name "h_relu") "mm") [Name "w2"] []);
              Assign
                [Name "loss"]
                (Call
                  (Attr
                    (Call
                      (Attr
                        (Call
                          (Attr (BinOp (Name "y_pred") Sub (Name "y")) "pow")
                          [Const (CInt 2)]
                          [])
                        "sum")
                      []
                      [])
                    "item")
                  []
                  []);
              If
                (Compare (BinOp (Name "t") Mod (Const (CInt 50))) CmpEq (Const (CInt 0)))
                [Expr (Call (Name "print") [Name "t"; Name "loss"] [])]
                [];
              Assign
                [Name "grad_y_pred"]
                (BinOp (Const (CFloat "2.0")) Mult (BinOp (Name "y_pred") Sub (Name "y")));
              Assign
                [Name "grad_w2"]
                (Call (Attr (Call (Attr (Name "h_relu") "t") [] []) "mm") [Name "grad_y_pred"] []);
              Assign
                [Name "grad_h_relu"]
                (Call (Attr (Name "grad_y_pred") "mm") [Call (Attr (Name "w2") "t") [] []] []);
              Assign [Name "grad_h"] (Call (Attr (Name "grad_h_relu") "clone") [] []);
              Assign
                [Subscript (Name "grad_h") (Compare (Name "h") CmpLt (Const (CInt 0)))]
                (Const (CInt 0));
              Assign
                [Name "grad_w1"]
                (Call (Attr (Call (Attr (Name "x") "t") [] []) "mm") [Name "grad_h"] []);
              AugAssign (Name "w1") Sub (BinOp (Name "learning_rate") Mult (Name "grad_w1"));
              AugAssign (Name "w2") Sub (BinOp (Name "learning_rate") Mult (Name "grad_w2")) ];
          Expr (Call (Name "print") [Const (CStr "Final Loss: "); Name "loss"] []) ]);
       (* cell 17, In [6] *)
       (17,
        [ Assign
            [Name "x"]
            (Call
              (Attr (Name "torch") "ones")
              [Const (CInt 2); Const (CInt 2)]
              [("requires_grad", Const (CBool true))]);
          Expr (Call (Name "print") [Name "x"] []) ]);
       (* cell 18, In [7] *)
       (18,
        [ Assign [Name "y"] (BinOp (Name "x") Add (Const (CInt 2)));
          Expr (Call (Name "print") [Name "y"] []) ]);
       (* cell 19, In [8] *)
       (19, [Expr (Call (Name "print") [Attr (Name "y") "grad_fn"] [])]);
       (* cell 20, In [9] *)
       (20,
        [ Assign [Name "z"] (BinOp (BinOp (Name "y") Mult (Name "y")) Mult (Const (CInt 3)));
          Assign [Name "out"] (Call (Attr (Name "z") "mean") [] []);
          Expr (Call (Name "print") [Name "z"; Name "out"] []) ]);
       (* cell 23, In [10] *)
       (23,
        [ Assign
            [Name "a"]
            (Call (Attr (Name "torch") "randn") [Const (CInt 2); Const (CInt 2)] []);
          Assign
            [Name "a"]
            (BinOp
              (BinOp (Name "a") Mult (Const (CInt 3)))
              Div
              (BinOp (Name "a") Sub (Const (CInt 1))));
          Expr (Call (Name "print") [Attr (Name "a") "requires_grad"] []);
          Expr (Call (Attr (Name "a") "requires_grad_") [Const (CBool true)] []);
          Expr (Call (Name "print") [Attr (Name "a") "requires_grad"] []);
          Assign [Name "b"] (Call (Attr (BinOp (Name "a") Mult (Name "a")) "sum") [] []);
          Expr (Call (Name "print") [Attr (Name "b") "grad_fn"] []) ]);
       (* cell 25, In [11] *)
       (25, [Expr (Call (Attr (Name "out") "backward") [] [])]);
       (* cell 26, In [12] *)
       (26, [Expr (Call (Name "print") [Attr (Name "x") "grad"] [])]);
       (* cell 27, In [13] *)
       (27, [Expr (Attr (Name "x") "data")]);
       (* cell 30, In [14] *)
       (30, [Expr (Attr (Name "out") "grad")]);
       (* cell 38, In [15] *)
       (38,
        [ Expr (Call (Attr (Name "out") "retain_grad") [] []);
          Expr (Call (Attr (Name "out") "backward") [] []) ]);
       (* cell 39, In [16] *)
       (39,
        [ Assign [Name "y"] (BinOp (Name "x") Add (Const (CInt 2)));
          Assign [Name "z"] (BinOp (BinOp (Name "y") Mult (Name "y")) Mult (Const (CInt 3)));
          Assign [Name "out"] (Call (Attr (Name "z") "mean") [] []);
          Expr (Call (Attr (Name "out") "retain_grad") [] []);
          Expr
            (Call
              (Attr (Name "out") "backward")
              []
              [("create_graph", Const (CBool true)); ("retain_graph", Const (CBool true))]) ]);
       (* cell 40, In [17] *)
       (40, [Expr (Attr (Name "x") "grad")]);
       (* cell 42, In [18] *)
       (42,
        [Expr (Call (Attr (Attr (Name "x") "grad") "zero_") [] []); Expr (Attr (Name "x") "grad")]);
       (* cell 43, In [19] *)
       (43, [Expr (Call (Attr (Name "out") "backward") [] [])]);
       (* cell 44, In [21] *)
       (44, [Expr (Attr (Name "x") "grad")]);
       (* cell 45, In [20] *)
       (45, [Expr (Attr (Name "out") "grad")]);
       (* cell 46, In [22] *)
       (46, [Expr (Attr (Name "y") "grad")]);
       (* cell 49, In [23] *)
       (49,
        [ Expr (Call (Name "print") [Attr (Name "x") "requires_grad"] []);
          Expr
            (Call (Name "print") [Attr (BinOp (Name "x") Pow (Const (CInt 2))) "requires_grad"] []);
          With
            [Call (Attr (Name "torch") "no_grad") [] []]
            [ Expr
                (Call
                  (Name "print")
                  [Attr (BinOp (Name "x") Pow (Const (CInt 2))) "requires_grad"]
                  []) ] ]);
       (* cell 51, In [24] *)
       (51,
        [ Expr (Call (Name "print") [Attr (Name "x") "requires_grad"] []);
          Assign [Name "y"] (Call (Attr (Name "x") "detach") [] []);
          Expr (Call (Name "print") [Attr (Name "y") "requires_grad"] []);
          Expr
            (Call
              (Name "print")
              [Call (Attr (Call (Attr (Name "x") "eq") [Name "y"] []) "all") [] []]
              []) ]);
       (* cell 55, In [25] *)
       (55,
        [ Assign [Name "dtype"] (Attr (Name "torch") "float");
          Assign [Name "device"] (Call (Attr (Name "torch") "device") [Const (CStr "cpu")] []);
          Assign
            [Tuple [Name "N"; Name "D_in"; Name "H"; Name "D_out"]]
            (Tuple [Const (CInt 64); Const (CInt 1000); Const (CInt 100); Const (CInt 10)]);
          Assign
            [Name "x"]
            (Call
              (Attr (Name "torch") "randn")
              [Name "N"; Name "D_in"]
              [("device", Name "device"); ("dtype", Name "dtype")]);
          Assign
            [Name "y"]
            (Call
              (Attr (Name "torch") "randn")
              [Name "N"; Name "D_out"]
              [("device", Name "device"); ("dtype", Name "dtype")]) ]);
       (* cell 57, In [26] *)
       (57,
        [ Assign
            [Name "w1"]
            (Call
              (Attr (Name "torch") "randn")
              [Name "D_in"; Name "H"]
              [ ("device", Name "device");
                ("dtype", Name "dtype");
                ("requires_grad", Const (CBool true)) ]);
          Assign
            [Name "w2"]
            (Call
              (Attr (Name "torch") "randn")
              [Name "H"; Name "D_out"]
              [ ("device", Name "device");
                ("dtype", Name "dtype");
                ("requires_grad", Const (CBool true)) ]) ]);
       (* cell 58, In [27] *)
       (58,
        [ Assign [Name "learning_rate"] (Const (CFloat "1e-6"));
          For
            (Name "t")
            (Call (Name "range") [Const (CInt 500)] [])
            [ Assign
                [Name "y_pred"]
                (Call
                  (Attr
                    (Call
                      (Attr (Call (Attr (Name "x") "mm") [Name "w1"] []) "clamp")
                      []
                      [("min", Const (CInt 0))])
                    "mm")
                  [Name "w2"]
                  []);
              Assign
                [Name "loss"]
                (Call
                  (Attr
                    (Call (Attr (BinOp (Name "y_pred") Sub (Name "y")) "pow") [Const (CInt 2)] [])
                    "sum")
                  []
                  []);
              If
                (Compare (BinOp (Name "t") Mod (Const (CInt 50))) CmpEq (Const (CInt 0)))
                [Expr (Call (Name "print") [Name "t"; Call (Attr (Name "loss") "item") [] []] [])]
                [];
              Expr (Call (Attr (Name "loss") "backward") [] []);
              With
                [Call (Attr (Name "torch") "no_grad") [] []]
                [ AugAssign
                    (Name "w1")
                    Sub
                    (BinOp (Name "learning_rate") Mult (Attr (Name "w1") "grad"));
                  AugAssign
                    (Name "w2")
                    Sub
                    (BinOp (Name "learning_rate") Mult (Attr (Name "w2") "grad"));
                  Expr (Call (Attr (Attr (Name "w1") "grad") "zero_") [] []);
                  Expr (Call (Attr (Attr (Name "w2") "grad") "zero_") [] []) ] ] ]) ] |}.

(** The code cells of [dl_intro/3 Torch NN.ipynb]. *)
Definition nn_nb : notebook :=
  {| path := "dl_intro/3 Torch NN.ipynb";
     cells := [
       (* cell 4, In [2] *)
       (4, [ImportStmt ["torch"]]);
       (* cell 5, In [3] *)
       (5,
        [ Assign
            [Tuple [Name "N"; Name "D_in"; Name "H"; Name "D_out"]]
            (Tuple [Const (CInt 64); Const (CInt 1000); Const (CInt 100); Const (CInt 10)]);
          Assign [Name "x"] (Call (Attr (Name "torch") "randn") [Name "N"; Name "D_in"] []);
          Assign [Name "y"] (Call (Attr (Name "torch") "randn") [Name "N"; Name "D_out"] []);
          Assign
            [Name "model"]
            (Call
              (Attr (Attr (Name "torch") "nn") "Sequential")
              [ Call (Attr (Attr (Name "torch") "nn") "Linear") [Name "D_in"; Name "H"] [];
                Call (Attr (Attr (Name "torch") "nn") "ReLU") [] [];
                Call (Attr (Attr (Name "torch") "nn") "Linear") [Name "H"; Name "D_out"] [] ]
              []) ]);
       (* cell 6, In [4] *)
       (6,
        [ Assign
            [Name "loss_fn"]
            (Call
              (Attr (Attr (Name "torch") "nn") "MSELoss")
              []
              [("reduction", Const (CStr "sum"))]);
          Assign [Name "learning_rate"] (Const (CFloat "1e-4")) ]);
       (* cell 7, In [5] *)
       (7,
        [ For
            (Name "t")
            (Call (Name "range") [Const (CInt 500)] [])
            [ Assign [Name "y_pred"] (Call (Name "model") [Name "x"] []);
              Assign [Name "loss"] (Call (Name "loss_fn") [Name "y_pred"; Name "y"] []);
              If
                (Compare (BinOp (Name "t") Mod (Const (CInt 50))) CmpEq (Const (CInt 0)))
                [Expr (Call (Name "print") [Name "t"; Call (Attr (Name "loss") "item") [] []] [])]
                [];
              Expr (Call (Attr (Name "model") "zero_grad") [] []);
              Expr (Call (Attr (Name "loss") "backward") [] []);
              With
                [Call (Attr (Name "torch") "no_grad") [] []]
                [ For
                    (Name "param")
                    (Call (Attr (Name "model") "parameters") [] [])
                    [ AugAssign
                        (Name "param")
                        Sub
                        (BinOp (Name "learning_rate") Mult (Attr (Name "param") "grad")) ] ] ] ]);
       (* cell 10, In [6] *)
       (10,
        [ Assign
            [Tuple [Name "N"; Name "D_in"; Name "H"; Name "D_out"]]
            (Tuple [Const (CInt 64); Const (CInt 1000); Const (CInt 100); Const (CInt 10)]);
          Assign [Name "x"] (Call (Attr (Name "torch") "randn") [Name "N"; Name "D_in"] []);
          Assign [Name "y"] (Call (Attr (Name "torch") "randn") [Name "N"; Name "D_out"] []);
          Assign
            [Name "model"]
            (Call
              (Attr (Attr (Name "torch") "nn") "Sequential")
              [ Call (Attr (Attr (Name "torch") "nn") "Linear") [Name "D_in"; Name "H"] [];
                Call (Attr (Attr (Name "torch") "nn") "ReLU") [] [];
                Call (Attr (Attr (Name "torch") "nn") "Linear") [Name "H"; Name "D_out"] [] ]
              []);
          Assign
            [Name "loss_fn"]
            (Call
              (Attr (Attr (Name "torch") "nn") "MSELoss")
              []
              [("reduction", Const (CStr "sum"))]) ]);
       (* cell 11, In [7] *)
       (11,
        [ Assign [Name "learning_rate"] (Const (CFloat "1e-4"));
          Assign
            [Name "optimizer"]
            (Call
              (Attr (Attr (Name "torch") "optim") "Adam")
              [Call (Attr (Name "model") "parameters") [] []]
              [("lr", Name "learning_rate")]) ]);
       (* cell 12, In [8] *)
       (12,
        [ For
            (Name "t")
            (Call (Name "range") [Const (CInt 500)] [])
            [ Assign [Name "y_pred"] (Call (Name "model") [Name "x"] []);
              Assign [Name "loss"] (Call (Name "loss_fn") [Name "y_pred"; Name "y"] []);
              If
                (Compare (BinOp (Name "t") Mod (Const (CInt 50))) CmpEq (Const (CInt 0)))
                [Expr (Call (Name "print") [Name "t"; Call (Attr (Name "loss") "item") [] []] [])]
                [];
              Expr (Call (Attr (Name "optimizer") "zero_grad") [] []);
              Expr (Call (Attr (Name "loss") "backward") [] []);
              Expr (Call (Attr (Name "optimizer") "step") [] []) ] ]);
       (* cell 20, In [9] *)
       (20,
        [ ClassDef "TwoLayerNet"
            [Attr (Attr (Name "torch") "nn") "Module"]
            [ FunctionDef "__init__"
                [("self", None); ("D_in", None); ("H", None); ("D_out", None)]
                [ Docstring;
                  Expr
                    (Call
                      (Attr (Call (Name "super") [Name "TwoLayerNet"; Name "self"] []) "__init__")
                      []
                      []);
                  Assign
                    [Attr (Name "self") "linear1"]
                    (Call (Attr (Attr (Name "torch") "nn") "Linear") [Name "D_in"; Name "H"] []);
                  Assign
                    [Attr (Name "self") "hidden_activation"]
                    (Call (Attr (Attr (Name "torch") "nn") "ReLU") [] []);
                  Assign
                    [Attr (Name "self") "linear2"]
                    (Call (Attr (Attr (Name "torch") "nn") "Linear") [Name "H"; Name "D_out"] []) ];
              FunctionDef "forward"
                [("self", None); ("x", None)]
                [ Docstring;
                  Assign [Name "l1"] (Call (Attr (Name "self") "linear1") [Name "x"] []);
                  Assign
                    [Name "h_relu"]
                    (Call (Attr (Name "self") "hidden_activation") [Name "l1"] []);
                  Assign [Name "y_pred"] (Call (Attr (Name "self") "linear2") [Name "h_relu"] []);
                  Return (Some (Name "y_pred")) ] ] ]);
       (* cell 21, In [10] *)
       (21,
        [ Assign
            [Tuple [Name "N"; Name "D_in"; Name "H"; Name "D_out"]]
            (Tuple [Const (CInt 64); Const (CInt 1000); Const (CInt 100); Const (CInt 10)]);
          Assign [Name "x"] (Call (Attr (Name "torch") "randn") [Name "N"; Name "D_in"] []);
          Assign [Name "y"] (Call (Attr (Name "torch") "randn") [Name "N"; Name "D_out"] []) ]);
       (* cell 22, In [11] *)
       (22,
        [ Assign
            [Name "model"]
            (Call (Name "TwoLayerNet") [Name "D_in"; Name "H"; Name "D_out"] []) ]);
       (* cell 23, In [12] *)
       (23,
        [ Assign
            [Name "criterion"]
            (Call
              (Attr (Attr (Name "torch") "nn") "MSELoss")
              []
              [("reduction", Const (CStr "sum"))]);
          Assign
            [Name "optimizer"]
            (Call
              (Attr (Attr (Name "torch") "optim") "SGD")
              [Call (Attr (Name "model") "parameters") [] []]
              [("lr", Const (CFloat "1e-4"))]) ]);
       (* cell 24, In [13] *)
       (24,
        [ For
            (Name "t")
            (Call (Name "range") [Const (CInt 500)] [])
            [ Assign [Name "y_pred"] (Call (Name "model") [Name "x"] []);
              Assign [Name "loss"] (Call (Name "criterion") [Name "y_pred"; Name "y"] []);
              If
                (Compare (BinOp (Name "t") Mod (Const (CInt 50))) CmpEq (Const (CInt 0)))
                [Expr (Call (Name "print") [Name "t"; Call (Attr (Name "loss") "item") [] []] [])]
                [];
              Expr (Call (Attr (Name "optimizer") "zero_grad") [] []);
              Expr (Call (Attr (Name "loss") "backward") [] []);
              Expr (Call (Attr (Name "optimizer") "step") [] []) ] ]);
       (* cell 33, In [14] *)
       (33,
        [ For
            (Tuple [Name "name_str"; Name "param"])
            (Call (Attr (Name "model") "named_parameters") [] [])
            [ Expr
                (Call
                  (Name "print")
                  [ Call
                      (Attr (Const (CStr "{:21} {:19} {}")) "format")
                      [ Name "name_str";
                        Call (Name "str") [Attr (Name "param") "shape"] [];
                        Call (Attr (Name "param") "numel") [] [] ]
                      [] ]
                  []) ] ]);
       (* cell 39, In [15] *)
       (39,
        [ ClassDef "TwoLayerNet"
            [Attr (Attr (Name "torch") "nn") "Module"]
            [ FunctionDef "__init__"
                [("self", None); ("D_in", None); ("H", None); ("D_out", None)]
                [ Docstring;
                  Expr
                    (Call
                      (Attr (Call (Name "super") [Name "TwoLayerNet"; Name "self"] []) "__init__")
                      []
                      []);
                  Assign
                    [Attr (Name "self") "linear1"]
                    (Call (Attr (Attr (Name "torch") "nn") "Linear") [Name "D_in"; Name "H"] []);
                  Assign
                    [Attr (Name "self") "linear2"]
                    (Call (Attr (Attr (Name "torch") "nn") "Linear") [Name "H"; Name "D_out"] []) ];
              FunctionDef "forward"
                [("self", None); ("x", None)]
                [ Docstring;
                  Assign
                    [Name "h_relu"]
                    (Call
                      (Attr (Call (Attr (Name "self") "linear1") [Name "x"] []) "clamp")
                      []
                      [("min", Const (CInt 0))]);
                  Assign [Name "y_pred"] (Call (Attr (Name "self") "linear2") [Name "h_relu"] []);
                  Return (Some (Name "y_pred")) ] ] ]);
       (* cell 43, In [16] *)
       (43,
        [ ClassDef "TwoLayerNet"
            [Attr (Attr (Name "torch") "nn") "Module"]
            [ FunctionDef "__init__"
                [("self", None); ("D_in", None); ("H", None); ("D_out", None)]
                [ Docstring;
                  Expr
                    (Call
                      (Attr (Call (Name "super") [Name "TwoLayerNet"; Name "self"] []) "__init__")
                      []
                      []);
                  Assign
                    [Attr (Name "self") "linear1"]
                    (Call (Attr (Attr (Name "torch") "nn") "Linear") [Name "D_in"; Name "H"] []);
                  Assign
                    [Attr (Name "self") "linear2"]
                    (Call (Attr (Attr (Name "torch") "nn") "Linear") [Name "H"; Name "D_out"] []) ];
              FunctionDef "forward"
                [("self", None); ("x", None)]
                [ Docstring;
                  Assign
                    [Name "h_relu"]
                    (Call
                      (Attr (Attr (Attr (Name "torch") "nn") "functional") "relu")
                      [Call (Attr (Name "self") "linear1") [Name "x"] []]
                      []);
                  Assign [Name "y_pred"] (Call (Attr (Name "self") "linear2") [Name "h_relu"] []);
                  Return (Some (Name "y_pred")) ] ] ]);
       (* cell 44, In [ ] *)
       (44,
        [ ImportFromStmt "torch.nn" ["functional as F"];
          Expr (Call (Attr (Name "F") "relu") [Attr (Name "self") "linear"] []) ]);
       (* cell 45, In [17] *)
       (45,
        [ Assign
            [Name "model"]
            (Call (Name "TwoLayerNet") [Name "D_in"; Name "H"; Name "D_out"] []);
          Assign
            [Name "criterion"]
            (Call
              (Attr (Attr (Name "torch") "nn") "MSELoss")
              []
              [("reduction", Const (CStr "sum"))]);
          Assign
            [Name "optimizer"]
            (Call
              (Attr (Attr (Name "torch") "optim") "SGD")
              [Call (Attr (Name "model") "parameters") [] []]
              [("lr", Const (CFloat "1e-4"))]);
          For
            (Name "t")
            (Call (Name "range") [Const (CInt 500)] [])
            [ Assign [Name "y_pred"] (Call (Name "model") [Name "x"] []);
              Assign [Name "loss"] (Call (Name "criterion") [Name "y_pred"; Name "y"] []);
              If
                (Compare (BinOp (Name "t") Mod (Const (CInt 50))) CmpEq (Const (CInt 0)))
                [Expr (Call (Name "print") [Name "t"; Call (Attr (Name "loss") "item") [] []] [])]
                [];
              Expr (Call (Attr (Name "optimizer") "zero_grad") [] []);
              Expr (Call (Attr (Name "loss") "backward") [] []);
              Expr (Call (Attr (Name "optimizer") "step") [] []) ] ]);
       (* cell 52, In [24] *)
       (52, [ImportStmt ["torch"]]);
       (* cell 53, In [42] *)
       (53,
        [ ImportStmt ["random"];
          ClassDef "DynamicNet"
            [Attr (Attr (Name "torch") "nn") "Module"]
            [ FunctionDef "__init__"
                [("self", None); ("D_in", None); ("H", None); ("D_out", None)]
                [ Docstring;
                  Expr
                    (Call
                      (Attr (Call (Name "super") [Name "DynamicNet"; Name "self"] []) "__init__")
                      []
                      []);
                  Assign
                    [Attr (Name "self") "input_linear"]
                    (Call (Attr (Attr (Name "torch") "nn") "Linear") [Name "D_in"; Name "H"] []);
                  Assign
                    [Attr (Name "self") "middle_linear"]
                    (Call (Attr (Attr (Name "torch") "nn") "Linear") [Name "H"; Name "H"] []);
                  Assign
                    [Attr (Name "self") "output_linear"]
                    (Call (Attr (Attr (Name "torch") "nn") "Linear") [Name "H"; Name "D_out"] []) ];
              FunctionDef "forward"
                [("self", None); ("x", None)]
                [ Docstring;
                  Assign
                    [Name "h_relu"]
                    (Call
                      (Attr (Name "torch") "relu")
                      [Call (Attr (Name "self") "input_linear") [Name "x"] []]
                      []);
                  Assign
                    [Name "hidden_layers"]
                    (Call (Attr (Name "random") "randint") [Const (CInt 0); Const (CInt 3)] []);
                  For
                    (Name "_")
                    (Call (Name "range") [Name "hidden_layers"] [])
                    [ Assign
                        [Name "h_relu"]
                        (Call
                          (Attr (Name "torch") "relu")
                          [Call (Attr (Name "self") "middle_linear") [Name "h_relu"] []]
                          []) ];
                  Assign
                    [Name "y_pred"]
                    (Call (Attr (Name "self") "output_linear") [Name "h_relu"] []);
                  Return (Some (Name "y_pred")) ] ] ]);
       (* cell 54, In [43] *)
       (54,
        [ Assign
            [Tuple [Name "N"; Name "D_in"; Name "H"; Name "D_out"]]
            (Tuple [Const (CInt 64); Const (CInt 1000); Const (CInt 100); Const (CInt 10)]);
          Assign [Name "x"] (Call (Attr (Name "torch") "randn") [Name "N"; Name "D_in"] []);
          Assign [Name "y"] (Call (Attr (Name "torch") "randn") [Name "N"; Name "D_out"] []);
          Assign [Name "model"] (Call (Name "DynamicNet") [Name "D_in"; Name "H"; Name "D_out"] []);
          Assign
            [Name "criterion"]
            (Call
              (Attr (Attr (Name "torch") "nn") "MSELoss")
              []
              [("reduction", Const (CStr "sum"))]);
          Assign
            [Name "optimizer"]
            (Call
              (Attr (Attr (Name "torch") "optim") "SGD")
              [Call (Attr (Name "model") "parameters") [] []]
              [("lr", Const (CFloat "1e-4")); ("momentum", Const (CFloat "0.9"))]) ]);
       (* cell 55, In [44] *)
       (55,
        [ For
            (Name "t")
            (Call (Name "range") [Const (CInt 500)] [])
            [ For
                (Name "i")
                (Call (Name "range") [Const (CInt 2)] [])
                [ Assign
                    [Tuple [Name "start"; Name "end"]]
                    (Tuple
                      [ Call
                          (Name "int")
                          [BinOp (BinOp (Name "N") Div (Const (CInt 2))) Mult (Name "i")]
                          [];
                        Call
                          (Name "int")
                          [ BinOp
                              (BinOp (Name "N") Div (Const (CInt 2)))
                              Mult
                              (BinOp (Name "i") Add (Const (CInt 1))) ]
                          [] ]);
                  Assign
                    [Name "x"]
                    (Subscript
                      (Name "x")
                      (Tuple [Slice (Some (Name "start")) (Some (Name "end")); Const CEllipsis]));
                  Assign
                    [Name "y"]
                    (Subscript
                      (Name "y")
                      (Tuple [Slice (Some (Name "start")) (Some (Name "end")); Const CEllipsis]));
                  Assign [Name "y_pred"] (Call (Name "model") [Name "x"] []);
                  Assign [Name "loss"] (Call (Name "criterion") [Name "y_pred"; Name "y"] []);
                  If
                    (Compare (BinOp (Name "t") Mod (Const (CInt 50))) CmpEq (Const (CInt 0)))
                    [ Expr
                        (Call
                          (Name "print")
                          [Name "t"; Call (Attr (Name "loss") "item") [] []]
                          []) ]
                    [];
                  Expr (Call (Attr (Name "optimizer") "zero_grad") [] []);
                  Expr (Call (Attr (Name "loss") "backward") [] []);
                  Expr (Call (Attr (Name "optimizer") "step") [] []) ] ] ]) ] |}.

(** [dl_intro/Extra Introduction to GANs.ipynb] has no code cell. *)
Definition gans_nb : notebook :=
  {| path := "dl_intro/Extra Introduction to GANs.ipynb"; cells := [] |}.

Definition notebooks : list notebook :=
  [data_nb; autoencoder_nb; cnn_nb; tensorboard_nb; autograd_nb; nn_nb;
   gans_nb].

(** *** Queries on the syntax *)

(** A dotted name such as [torch.utils.data.DataLoader]. *)
Fixpoint dotted (e : expr) : option string :=
  match e with
  | Name id => Some id
  | Attr v a =>
      match dotted v with
      | Some s => Some (s ++ "." ++ a)
      | None => None
      end
  | _ => None
  end.

Definition opt_list {A B} (f : A -> list B) (o : option A) : list B :=
  match o with Some a => f a | None => [] end.

(** Every call expression inside an expression, outermost first. *)
Fixpoint calls_in_expr (e : expr) : list expr :=
  match e with
  | Name _ | Const _ => []
  | Attr v _ => calls_in_expr v
  | Call f args kws =>
      e :: calls_in_expr f ++ flat_map calls_in_expr args
        ++ flat_map (fun kw => let '(_, v) := kw in calls_in_expr v) kws
  | BinOp l _ r | Compare l _ r | Subscript l r =>
      calls_in_expr l ++ calls_in_expr r
  | Neg v => calls_in_expr v
  | Slice lo hi => opt_list calls_in_expr lo ++ opt_list calls_in_expr hi
  | Tuple es | ListLit es => flat_map calls_in_expr es
  | ListComp a b c | IfExp a b c =>
      calls_in_expr a ++ calls_in_expr b ++ calls_in_expr c
  end.

(** Every call expression inside a statement, nested blocks included. *)
Fixpoint calls_in (s : stmt) : list expr :=
  match s with
  | ImportStmt _ | ImportFromStmt _ _ | Docstring => []
  | Assign ts v => flat_map calls_in_expr ts ++ calls_in_expr v
  | AugAssign t _ v => calls_in_expr t ++ calls_in_expr v
  | Expr v | Assert v => calls_in_expr v
  | For t i b => calls_in_expr t ++ calls_in_expr i ++ flat_map calls_in b
  | With items b => flat_map calls_in_expr items ++ flat_map calls_in b
  | If t b o => calls_in_expr t ++ flat_map calls_in b ++ flat_map calls_in o
  | ClassDef _ bases b => flat_map calls_in_expr bases ++ flat_map calls_in b
  | FunctionDef _ ps b =>
      flat_map (fun p => let '(_, d) := p in opt_list calls_in_expr d) ps
        ++ flat_map calls_in b
  | Return v => opt_list calls_in_expr v
  end.

(** Every statement inside a statement, itself first. *)
Fixpoint statements_in (s : stmt) : list stmt :=
  s :: match s with
       | For _ _ b | With _ b | ClassDef _ _ b | FunctionDef _ _ b =>
           flat_map statements_in b
       | If _ b o => flat_map statements_in b ++ flat_map statements_in o
       | _ => []
       end.

Definition cell_statements (nb : notebook) : list stmt :=
  flat_map (fun c => snd c) (cells nb).

Definition calls_of (nb : notebook) : list expr :=
  flat_map calls_in (cell_statements nb).

(** The value passed for keyword [k] in a call, if any. *)
Fixpoint keyword (k : string) (kws : list (string * expr)) : option expr :=
  match kws with
  | [] => None
  | (k', v) :: rest => if String.eqb k k' then Some v else keyword k rest
  end.

Definition callee (e : expr) : option string :=
  match e with Call f _ _ => dotted f | _ => None end.

Definition is_call_to (fn : string) (e : expr) : bool :=
  match callee e with Some s => String.eqb s fn | None => false end.

End Py.

(** ** Part 6: what the code cells construct, define and write *)

Module Analysis.
Import Py.
Local Open Scope string_scope.

Definition keywords_of (call : expr) : list (string * expr) :=
  match call with Call _ _ kws => kws | _ => [] end.

Definition args_of (call : expr) : list expr :=
  match call with Call _ args _ => args | _ => [] end.

Definition const_eqb (c d : const) : bool :=
  match c, d with
  | CInt a, CInt b => (a =? b)%Z
  | CFloat a, CFloat b | CStr a, CStr b => String.eqb a b
  | CBool a, CBool b => Bool.eqb a b
  | CNone, CNone | CEllipsis, CEllipsis => true
  | _, _ => false
  end.

Definition is_const (c : const) (e : expr) : bool :=
  match e with Const d => const_eqb c d | _ => false end.

Definition all_calls : list expr := flat_map calls_of notebooks.

(** *** DataLoader construction *)

Definition dataloader_calls (nb : notebook) : list expr :=
  List.filter (is_call_to "torch.utils.data.DataLoader") (calls_of nb).

Definition all_dataloaders : list expr := flat_map dataloader_calls notebooks.

(** Modelled from the spec: the values [torch.utils.data.DataLoader] takes
    for the keywords a call does not pass (the library's signature is not
    part of the repository): [num_workers=0] and [pin_memory=False]. *)
Definition default_num_workers : const := CInt 0.
Definition default_pin_memory : const := CBool false.

(** A call leaves option [k] at its default [d] when it does not pass the
    keyword, or passes the default itself. *)
Definition leaves_default (k : string) (d : const) (call : expr) : bool :=
  match keyword k (keywords_of call) with
  | None => true
  | Some v => is_const d v
  end.

Definition default_parallelism (call : expr) : bool :=
  leaves_default "num_workers" default_num_workers call
  && leaves_default "pin_memory" default_pin_memory call.

(** The dataset a loader is built on and what it passes for the two
    options. *)
Definition loader_settings (call : expr)
    : list expr * option expr * option expr :=
  (args_of call,
   keyword "num_workers" (keywords_of call),
   keyword "pin_memory" (keywords_of call)).

(** *** Classes and functions defined by the notebooks *)

Inductive definition :=
  | Class (name : string) (bases : list (option string))
      (methods : list string)
  | Function (name : string).

Definition method_name (s : stmt) : list string :=
  match s with FunctionDef f _ _ => [f] | _ => [] end.

(** The definition a top-level statement of a cell makes, if any. *)
Definition defines (s : stmt) : list definition :=
  match s with
  | ClassDef c bases body =>
      [Class c (map dotted bases) (flat_map method_name body)]
  | FunctionDef f _ _ => [Function f]
  | _ => []
  end.

Definition definitions_of (nb : notebook) : list definition :=
  flat_map defines (cell_statements nb).

Definition own_definitions : list definition :=
  flat_map definitions_of notebooks.

Definition defined_name (d : definition) : string :=
  match d with Class c _ _ => c | Function f => f end.

(** The library operations a definition is built from: the dotted names
    its body calls. *)
Definition body_callees (s : stmt) : list string :=
  match s with
  | ClassDef _ _ _ | FunctionDef _ _ _ =>
      flat_map (fun c => match callee c with Some f => [f] | None => [] end)
               (calls_in s)
  | _ => []
  end.

(** Every statement that makes a definition has calls in its body. *)
Definition built_from_calls (s : stmt) : bool :=
  match defines s, body_callees s with
  | _ :: _, [] => false
  | _, _ => true
  end.

(** The calls of the notebooks whose callee is one of their own
    definitions. *)
Definition calls_to_own : list string :=
  flat_map (fun c => match callee c with
                     | Some f =>
                         if existsb (fun d => String.eqb (defined_name d) f)
                                    own_definitions
                         then [f] else []
                     | None => []
                     end) all_calls.

(** *** What running a cell leaves on disk *)

(** The calls a cell makes whenever it runs: those of its top-level
    assignments and expression statements (not those inside loops,
    conditionals or the bodies of definitions). *)
Definition straight_line_calls (s : stmt) : list expr :=
  match s with
  | Assign _ _ | AugAssign _ _ _ | Expr _ => calls_in s
  | _ => []
  end.

Definition str_value (e : expr) : list string :=
  match e with Const (CStr s) => [s] | _ => [] end.

(** The directory a call names: keyword [k], else the first positional
    argument. *)
Definition directory_arg (k : string) (call : expr) : list string :=
  match keyword k (keywords_of call), args_of call with
  | Some v, _ => str_value v
  | None, a :: _ => str_value a
  | None, [] => []
  end.

(** The paths a library call creates on disk.  The libraries are not part
    of the notebooks; the two effects kept here are the one the TensorBoard
    notebook states after its [SummaryWriter] cell ("this line alone
    creates a [runs/fashion_mnist_experiment_1] folder") and the one
    [download=True] asks of a torchvision dataset constructor: store the
    dataset under [root]. *)
Definition paths_written (call : expr) : list string :=
  match callee call with
  | Some "SummaryWriter" => directory_arg "log_dir" call
  | Some "torchvision.datasets.MNIST"
  | Some "torchvision.datasets.FashionMNIST" =>
      match keyword "download" (keywords_of call) with
      | Some (Const (CBool true)) => directory_arg "root" call
      | _ => []
      end
  | _ => []
  end.

(** The disk: the set of paths that exist. *)
Definition run_cell (cell : list stmt) (disk : gset string) : gset string :=
  disk ∪ list_to_set (flat_map paths_written
                         (flat_map straight_line_calls cell)).

Definition run_notebook (nb : notebook) (disk : gset string) : gset string :=
  fold_left (fun d c => run_cell (snd c) d) (cells nb) disk.

(** The cell at position [k] of a notebook. *)
Definition cell_at (nb : notebook) (k : nat) : list stmt :=
  flat_map (fun c => if Nat.eqb (fst c) k then snd c else []) (cells nb).

(** *** Training loops *)

Definition calls_method (m : string) (s : stmt) : bool :=
  existsb (fun c => match c with
                    | Call (Attr _ a) _ _ => String.eqb a m
                    | _ => false
                    end) (calls_in s).

(** The in-place updates [target -= value] inside a statement. *)
Definition decrements (s : stmt) : list (expr * expr) :=
  flat_map (fun s' => match s' with
                      | AugAssign t Sub v => [(t, v)]
                      | _ => []
                      end) (statements_in s).

(** The names a statement assigns to. *)
Definition assigned_names (s : stmt) : list string :=
  flat_map (fun s' => match s' with
                      | Assign [Name x] _ => [x]
                      | _ => []
                      end) (statements_in s).

(** A training loop: a top-level [for] that updates parameters, through
    [optimizer.step()] or through an in-place [-=]. *)
Definition is_training_loop (s : stmt) : bool :=
  match s with
  | For _ _ _ =>
      calls_method "step" s
      || match decrements s with [] => false | _ => true end
  | _ => false
  end.

(** How one training loop obtains its gradients and applies its updates. *)
Record training := {
  in_notebook : string;
  at_cell : nat;
  calls_backward : bool;
  calls_optimizer_step : bool;
  hand_written_updates : list (expr * expr);
  gradient_variables : list string
}.

Definition has_prefix (p s : string) : bool :=
  String.eqb (String.substring 0 (String.length p) s) p.

Definition describe (nb : notebook) (k : nat) (s : stmt) : training :=
  {| in_notebook := path nb;
     at_cell := k;
     calls_backward := calls_method "backward" s;
     calls_optimizer_step := calls_method "step" s;
     hand_written_updates := decrements s;
     gradient_variables :=
       List.filter (has_prefix "grad_") (assigned_names s) |}.

Definition training_loops_of (nb : notebook) : list training :=
  flat_map (fun c =>
              flat_map (fun s => if is_training_loop s
                                 then [describe nb (fst c) s] else [])
                       (snd c))
           (cells nb).

Definition training_loops : list training :=
  flat_map training_loops_of notebooks.

Definition summary (t : training)
    : string * nat * bool * bool * list (expr * expr) * list string :=
  (in_notebook t, at_cell t, calls_backward t, calls_optimizer_step t,
   hand_written_updates t, gradient_variables t).

(** Differentiation and update are both left to the library. *)
Definition delegated (t : training) : bool :=
  calls_backward t && calls_optimizer_step t
  && match hand_written_updates t with [] => true | _ => false end.

End Analysis.

(** ** Part 7: the hand-written training step of the AutoGrad notebook *)

Module WarmUp.

Local Open Scope Q_scope.

(** A two-dimensional array, by its items.  The shapes are those fixed at
    the top of the cell: [N, D_in, H, D_out = 64, 1000, 100, 10]; they are
    kept as parameters. *)
Definition array := nat -> nat -> Q.

(** [sum(f(0), ..., f(n-1))] *)
Fixpoint sum_below (n : nat) (f : nat -> Q) : Q :=
  match n with
  | O => 0
  | S k => sum_below k f + f k
  end.

(** [a.dot(b)] ([a.mm(b)] on tensors), [k] being the shared dimension *)
Definition dot (k : nat) (a b : array) : array :=
  fun i j => sum_below k (fun l => a i l * b l j).

(** [np.maximum(a, 0)] ([a.clamp(min=0)]) *)
Definition maximum0 (a : array) : array := fun i j => Qmax (a i j) 0.

(** [a.T] ([a.t()]) *)
Definition T (a : array) : array := fun i j => a j i.

Definition sub (a b : array) : array := fun i j => a i j - b i j.

Definition add (a b : array) : array := fun i j => a i j + b i j.

Definition scale (c : Q) (a : array) : array := fun i j => c * a i j.

(** [np.square(a)] ([a.pow(2)]) *)
Definition square (a : array) : array := fun i j => a i j * a i j.

(** [a.sum()] of an array of shape [(n, m)] *)
Definition sum (n m : nat) (a : array) : Q :=
  sum_below n (fun i => sum_below m (fun j => a i j)).

(** [g = g0.copy(); g[h < 0] = 0] *)
Definition zero_where_negative (h g0 : array) : array :=
  fun i j => if Qlt_le_dec (h i j) 0 then 0 else g0 i j.

Section Loop.

Variables N D_in H D_out : nat.
Variable learning_rate : Q.
Variables x y : array.

(** The forward pass of the loop body. *)
Definition hidden (w1 : array) : array := dot D_in x w1.

Definition predict (w1 w2 : array) : array :=
  dot H (maximum0 (hidden w1)) w2.

(** [loss = np.square(y_pred - y).sum()] *)
Definition loss (w1 w2 : array) : Q :=
  sum N D_out (square (sub (predict w1 w2) y)).

(** Which hidden items the ReLU lets through: those [grad_h[h < 0] = 0]
    leaves alone. *)
Definition passes (w1 : array) (i k : nat) : Q :=
  if Qlt_le_dec (hidden w1 i k) 0 then 0 else 1.

(** What one pass through the loop body computes. *)
Record pass := {
  loss_value : Q;
  grad_w1 : array;
  grad_w2 : array;
  new_w1 : array;
  new_w2 : array
}.

(** The body of [for t in range(500)] in cells 8 (numpy) and 11
    (torch.Tensor):
    [h = x.dot(w1); h_relu = np.maximum(h, 0); y_pred = h_relu.dot(w2)
     loss = np.square(y_pred - y).sum()
     grad_y_pred = 2.0 * (y_pred - y)
     grad_w2 = h_relu.T.dot(grad_y_pred)
     grad_h_relu = grad_y_pred.dot(w2.T)
     grad_h = grad_h_relu.copy(); grad_h[h < 0] = 0
     grad_w1 = x.T.dot(grad_h)
     w1 -= learning_rate * grad_w1; w2 -= learning_rate * grad_w2] *)
Definition loop_body (w1 w2 : array) : pass :=
  let h := dot D_in x w1 in
  let h_relu := maximum0 h in
  let y_pred := dot H h_relu w2 in
  let loss := sum N D_out (square (sub y_pred y)) in
  let grad_y_pred := scale 2 (sub y_pred y) in
  let grad_w2 := dot N (T h_relu) grad_y_pred in
  let grad_h_relu := dot D_out grad_y_pred (T w2) in
  let grad_h := zero_where_negative h grad_h_relu in
  let grad_w1 := dot N (T x) grad_h in
  {| loss_value := loss;
     grad_w1 := grad_w1;
     grad_w2 := grad_w2;
     new_w1 := sub w1 (scale learning_rate grad_w1);
     new_w2 := sub w2 (scale learning_rate grad_w2) |}.

(** [for t in range(n)]: the weights after [n] passes. *)
Fixpoint train (n : nat) (w1 w2 : array) : array * array :=
  match n with
  | O => (w1, w2)
  | S k =>
      let p := loop_body w1 w2 in
      train k (new_w1 p) (new_w2 p)
  end.

End Loop.

(** The inner product of two arrays of shape [(n, m)]. *)
Definition inner (n m : nat) (a b : array) : Q :=
  sum n m (fun i j => a i j * b i j).

(** Arrays given by their rows, and back. *)
Definition of_rows (rows : list (list Q)) : array :=
  fun i j => nth j (nth i rows []) 0.

Definition to_rows (n m : nat) (a : array) : list (list Q) :=
  map (fun i => map (fun j => Qred (a i j)) (seq 0 m)) (seq 0 n).

End WarmUp.

(** ** Part 8: notions used to state what the parts above do *)

Module Pairs.

(** The item and the label at one position. *)
Definition pair_at {A B} (data : list A) (labels : list B) (j : nat)
    : option (A * B) :=
  match data !! j, labels !! j with
  | Some d, Some l => Some (d, l)
  | _, _ => None
  end.

End Pairs.

Module Fit.
Import WarmUp.

(** The prediction agrees with the target on every item. *)
Definition fits (N D_in H D_out : nat) (x y w1 w2 : array) : Prop :=
  forall i j, (i < N)%nat -> (j < D_out)%nat ->
    (predict D_in H x w1 w2 i j == y i j)%Q.

End Fit.

(** ** Part 9: the other models of the nn notebook *)

Module Nets.
Import Torch.

(** [t.clamp(min=m)] *)
Definition clamp_min (m : Q) (t : tensor) : tensor :=
  map (map (fun v => if Qlt_le_dec v m then m else v)) t.

(** The modules the notebook puts in a model: [torch.nn.Linear] layers and
    [torch.nn.ReLU()], which has no parameter. *)
Inductive module :=
  | LinearModule (l : Linear)
  | ReLU.

(** Calling a module on a tensor. *)
Definition call (m : module) (x : tensor) : result tensor :=
  match m with
  | LinearModule l => linear_forward l x
  | ReLU => Ok (relu x)
  end.

(** [torch.nn.Sequential] of a list of modules: applies the modules in sequence. *)
Fixpoint Sequential (modules : list module) (x : tensor) : result tensor :=
  match modules with
  | [] => Ok x
  | m :: rest => y <- call m x ;; Sequential rest y
  end.

(** [model = torch.nn.Sequential(torch.nn.Linear(D_in, H), torch.nn.ReLU(),
                                 torch.nn.Linear(H, D_out))] *)
Definition sequential_model (D_in H D_out : nat) (rng : init) : list module :=
  [ LinearModule (layer rng 0 D_in H); ReLU;
    LinearModule (layer rng 1 H D_out) ].

(** The notebook defines [class TwoLayerNet(torch.nn.Module)] three times.
    First version: the activation is a submodule. *)
Module WithModule.

Record TwoLayerNet := {
  linear1 : Linear;
  hidden_activation : module;
  linear2 : Linear
}.

(** [TwoLayerNet.__init__(self, D_in, H, D_out)] *)
Definition TwoLayerNet_init (D_in H D_out : nat) (rng : init) : TwoLayerNet :=
  {| linear1 := layer rng 0 D_in H;
     hidden_activation := ReLU;
     linear2 := layer rng 1 H D_out |}.

(** [l1 = self.linear1(x); h_relu = self.hidden_activation(l1);
     y_pred = self.linear2(h_relu); return y_pred] *)
Definition TwoLayerNet_forward (self : TwoLayerNet) (x : tensor)
    : result tensor :=
  l1 <- linear_forward (linear1 self) x ;;
  h_relu <- call (hidden_activation self) l1 ;;
  y_pred <- linear_forward (linear2 self) h_relu ;;
  Ok y_pred.

End WithModule.

(** Second version: the activation is [clamp(min=0)]. *)
Module WithClamp.

Record TwoLayerNet := {
  linear1 : Linear;
  linear2 : Linear
}.

(** [TwoLayerNet.__init__(self, D_in, H, D_out)] *)
Definition TwoLayerNet_init (D_in H D_out : nat) (rng : init) : TwoLayerNet :=
  {| linear1 := layer rng 0 D_in H;
     linear2 := layer rng 1 H D_out |}.

(** [h_relu = self.linear1(x).clamp(min=0);
     y_pred = self.linear2(h_relu); return y_pred] *)
Definition TwoLayerNet_forward (self : TwoLayerNet) (x : tensor)
    : result tensor :=
  l1 <- linear_forward (linear1 self) x ;;
  let h_relu := clamp_min 0 l1 in
  y_pred <- linear_forward (linear2 self) h_relu ;;
  Ok y_pred.

End WithClamp.

(** Third version: the activation is [torch.nn.functional.relu]. *)
Module WithFunctional.

Record TwoLayerNet := {
  linear1 : Linear;
  linear2 : Linear
}.

(** [TwoLayerNet.__init__(self, D_in, H, D_out)] *)
Definition TwoLayerNet_init (D_in H D_out : nat) (rng : init) : TwoLayerNet :=
  {| linear1 := layer rng 0 D_in H;
     linear2 := layer rng 1 H D_out |}.

(** [h_relu = torch.nn.functional.relu(self.linear1(x));
     y_pred = self.linear2(h_relu); return y_pred] *)
Definition TwoLayerNet_forward (self : TwoLayerNet) (x : tensor)
    : result tensor :=
  l1 <- linear_forward (linear1 self) x ;;
  let h_relu := relu l1 in
  y_pred <- linear_forward (linear2 self) h_relu ;;
  Ok y_pred.

End WithFunctional.

(** Two results agree: the same exception, or tensors with equal items. *)
Definition result_equiv (r s : result tensor) : Prop :=
  match r, s with
  | Ok a, Ok b => tensor_equiv a b
  | Raise e, Raise e' => e = e'
  | _, _ => False
  end.

(** [k] copies of a list of modules, one after the other. *)
Fixpoint copies (k : nat) (ms : list module) : list module :=
  match k with
  | O => []
  | S k' => ms ++ copies k' ms
  end.

(** The layers [DynamicNet.forward] goes through when it draws
    [hidden_layers]. *)
Definition DynamicNet_layers (self : DynamicNet) (hidden_layers : nat)
    : list module :=
  [LinearModule (input_linear self); ReLU]
    ++ copies hidden_layers [LinearModule (middle_linear self); ReLU]
    ++ [LinearModule (output_linear self)].

End Nets.

(** ** Part 10: the mini-batch loop of the nn notebook *)

Module Batches.
Import Torch.

(** [int(q)]: the fractional part is cut off. *)
Definition int (q : Q) : Z := Z.quot (Qnum q) (Z.pos (Qden q)).

(** The position a slice bound stands for in a sequence of [len] items:
    a negative bound counts from the end, and every bound is clipped. *)
Definition slice_bound (i : Z) (len : nat) : nat :=
  Z.to_nat (if (i <? 0)%Z then Z.max 0 (i + Z.of_nat len)
            else Z.min i (Z.of_nat len)).

(** [t[start:end, ...]] *)
Definition slice_rows (start end_ : Z) (t : tensor) : tensor :=
  drop (slice_bound start (length t))
       (take (slice_bound end_ (length t)) t).

Definition same_shape (s t : tensor) : bool :=
  (length s =? length t)
  && forallb (fun p => length (fst p) =? length (snd p)) (zip s t).

(** [torch.nn.MSELoss(reduction='sum')] on two tensors of one shape: the sum
    of the squared differences of their items.  The notebook calls it on
    equal shapes only; other shapes are rejected here. *)
Definition MSELoss_sum (input target : tensor) : result Q :=
  if same_shape input target
  then Ok (fold_right Qplus 0%Q
             (zip_with (fun r s =>
                fold_right Qplus 0%Q
                  (zip_with (fun a b => (a - b) * (a - b))%Q r s))
                input target))
  else Raise (RuntimeError "size mismatch").

(** [for i in range(n): body], on the variables the body rebinds. *)
Fixpoint for_range {A : Type} (n : nat) (body : nat -> A -> result A)
    (a : A) : result A :=
  match n with
  | O => Ok a
  | S k => a' <- for_range k body a ;; body k a'
  end.

Section Loop.

(** The batch size [N] of the cell above the loop. *)
Variable N : nat.

(** The optimizer: its state, and what
    [optimizer.zero_grad(); loss.backward(); optimizer.step()] make of it
    and of the model, given the draw of the forward pass and the batch. *)
Variable optim : Type.
Variable optimizer_step :
  optim -> DynamicNet -> nat -> tensor -> tensor -> optim * DynamicNet.

(** The value [random.randint(0, 3)] returns in the forward pass of
    iteration [t], [i]. *)
Variable draws : nat -> nat -> nat.

(** The variables the loop reads and rebinds, and the lines it prints. *)
Record vars := {
  x : tensor;
  y : tensor;
  model : DynamicNet;
  optimizer : optim;
  printed : list (nat * Q)
}.

(** [start, end = int((N/2)*i), int((N/2)*(i+1))
     x = x[start:end, ...]
     y = y[start:end, ...]
     y_pred = model(x)
     loss = criterion(y_pred, y)
     if t % 50 == 0:
         print(t, loss.item())
     optimizer.zero_grad(); loss.backward(); optimizer.step()] *)
Definition batch_body (t i : nat) (v : vars) : result vars :=
  let half := (inject_Z (Z.of_nat N) / 2)%Q in
  let start := int (half * inject_Z (Z.of_nat i)) in
  let end_ := int (half * inject_Z (Z.of_nat (i + 1))) in
  let x := slice_rows start end_ (x v) in
  let y := slice_rows start end_ (y v) in
  y_pred <- DynamicNet_forward (model v) (draws t i) x ;;
  loss <- MSELoss_sum y_pred y ;;
  let printed :=
    if t mod 50 =? 0 then printed v ++ [(t, loss)] else printed v in
  let '(o, m) := optimizer_step (optimizer v) (model v) (draws t i) x y in
  Ok {| x := x; y := y; model := m; optimizer := o; printed := printed |}.

(** [for t in range(epochs): for i in range(2): ...]; the cell runs 500
    epochs. *)
Definition batch_loop (epochs : nat) (v : vars) : result vars :=
  for_range epochs (fun t v => for_range 2 (batch_body t) v) v.

(** What the loop prints in epoch [t] once the batches are empty. *)
Definition empty_lines (t : nat) : list (nat * Q) :=
  if t mod 50 =? 0 then [(t, 0%Q); (t, 0%Q)] else [].

End Loop.

Arguments x {optim} _.
Arguments y {optim} _.
Arguments model {optim} _.
Arguments optimizer {optim} _.
Arguments printed {optim} _.

(** A sample run: four rows, a model whose weights are all 1, and an
    optimizer that leaves the model as it is. *)
Definition sample_vars : vars unit :=
  {| x := [[1; 2]; [3; 4]; [5; 6]; [7; 8]]%Q;
     y := [[1]; [2]; [3]; [4]]%Q;
     model := DynamicNet_init 2 2 1 ones_init;
     optimizer := tt;
     printed := [] |}.

Definition keep_model (o : unit) (m : DynamicNet) (k : nat)
    (x y : tensor) : unit * DynamicNet := (o, m).

End Batches.

(** ** Part 11: the convolutional network of the TensorBoard notebook *)

Module CNN.
Import Torch.

(** A four-dimensional tensor [[N, C, H, W]]: its sizes and its items. *)
Record tensor4 := {
  dim0 : nat;
  dim1 : nat;
  dim2 : nat;
  dim3 : nat;
  item4 : nat -> nat -> nat -> nat -> Q
}.

(** [torch.nn.Conv2d(in_channels, out_channels, kernel_size)]: stride 1,
    no padding; [conv_weight] has shape
    [[out_channels, in_channels, kernel_size, kernel_size]]. *)
Record Conv2d := {
  in_channels : nat;
  out_channels : nat;
  kernel_size : nat;
  conv_weight : nat -> nat -> nat -> nat -> Q;
  conv_bias : nat -> Q
}.

(** The random draws of the constructor of a convolution. *)
Definition conv_init := nat -> (nat -> nat -> nat -> nat -> Q) * (nat -> Q).

(** [nn.Conv2d(in_c, out_c, k)] *)
Definition nn_Conv2d (rng : conv_init) (idx in_c out_c k : nat) : Conv2d :=
  {| in_channels := in_c;
     out_channels := out_c;
     kernel_size := k;
     conv_weight := fst (rng idx);
     conv_bias := snd (rng idx) |}.

(** Calling a convolution: item [(n, o, i, j)] of the output is the bias of
    channel [o] plus the sum, over the input channels and the window at
    [(i, j)], of weight times input. *)
Definition conv_forward (l : Conv2d) (x : tensor4) : result tensor4 :=
  if negb (dim1 x =? in_channels l)
  then Raise (RuntimeError "input channels do not match the weight")
  else if negb ((kernel_size l <=? dim2 x) && (kernel_size l <=? dim3 x))
  then Raise (RuntimeError "kernel size larger than the input")
  else Ok {|
    dim0 := dim0 x;
    dim1 := out_channels l;
    dim2 := dim2 x - kernel_size l + 1;
    dim3 := dim3 x - kernel_size l + 1;
    item4 := fun n o i j =>
      (conv_bias l o
       + WarmUp.sum_below (in_channels l) (fun c =>
           WarmUp.sum_below (kernel_size l) (fun di =>
             WarmUp.sum_below (kernel_size l) (fun dj =>
               conv_weight l o c di dj * item4 x n c (i + di) (j + dj)))))%Q
  |}.

(** [torch.nn.MaxPool2d(kernel_size, stride)] *)
Record MaxPool2d := {
  pool_size : nat;
  pool_stride : nat
}.

(** The greatest of [f 0], ..., [f n]. *)
Fixpoint max_upto (n : nat) (f : nat -> Q) : Q :=
  match n with
  | O => f 0
  | S k => Qmax (max_upto k f) (f (S k))
  end.

(** Calling a pooling layer: the greatest item of each window. *)
Definition pool_forward (p : MaxPool2d) (x : tensor4) : result tensor4 :=
  if (pool_size p =? 0) || (pool_stride p =? 0)
  then Raise (RuntimeError "kernel size and stride are positive")
  else if negb ((pool_size p <=? dim2 x) && (pool_size p <=? dim3 x))
  then Raise (RuntimeError "output size is too small")
  else Ok {|
    dim0 := dim0 x;
    dim1 := dim1 x;
    dim2 := (dim2 x - pool_size p) / pool_stride p + 1;
    dim3 := (dim3 x - pool_size p) / pool_stride p + 1;
    item4 := fun n c i j =>
      max_upto (pool_size p - 1) (fun a =>
        max_upto (pool_size p - 1) (fun b =>
          item4 x n c (pool_stride p * i + a) (pool_stride p * j + b)))
  |}.

(** [F.relu] on a four-dimensional tensor. *)
Definition relu4 (x : tensor4) : tensor4 :=
  {| dim0 := dim0 x; dim1 := dim1 x; dim2 := dim2 x; dim3 := dim3 x;
     item4 := fun n c i j => Qmax 0 (item4 x n c i j) |}.

Definition numel (x : tensor4) : nat := dim0 x * dim1 x * dim2 x * dim3 x.

(** The item at position [p] of the tensor laid out row after row. *)
Definition flat (x : tensor4) (p : nat) : Q :=
  item4 x (p / (dim1 x * dim2 x * dim3 x))
          ((p / (dim2 x * dim3 x)) mod dim1 x)
          ((p / dim3 x) mod dim2 x)
          (p mod dim3 x).

(** [x.view(-1, m)]: the items in the same order, [m] to a row; refused
    when the number of items is not a multiple of [m]. *)
Definition view (x : tensor4) (m : nat) : result tensor :=
  if (m =? 0) || negb (numel x mod m =? 0)
  then Raise (RuntimeError "shape is invalid for input of this size")
  else Ok (map (fun r => map (fun k => flat x (r * m + k)) (seq 0 m))
               (seq 0 (numel x / m))).

(** [class Net(nn.Module)] *)
Record Net := {
  conv1 : Conv2d;
  pool : MaxPool2d;
  conv2 : Conv2d;
  fc1 : Linear;
  fc2 : Linear;
  fc3 : Linear
}.

(** [Net.__init__(self)] *)
Definition Net_init (crng : conv_init) (rng : init) : Net :=
  {| conv1 := nn_Conv2d crng 0 1 6 5;
     pool := {| pool_size := 2; pool_stride := 2 |};
     conv2 := nn_Conv2d crng 1 6 16 5;
     fc1 := layer rng 0 (16 * 4 * 4) 120;
     fc2 := layer rng 1 120 84;
     fc3 := layer rng 2 84 10 |}.

(** [x = self.pool(F.relu(self.conv1(x)))
     x = self.pool(F.relu(self.conv2(x)))]: the first two lines of
    [Net.forward]. *)
Definition Net_features (self : Net) (x : tensor4) : result tensor4 :=
  c <- conv_forward (conv1 self) x ;;
  x <- pool_forward (pool self) (relu4 c) ;;
  c <- conv_forward (conv2 self) x ;;
  x <- pool_forward (pool self) (relu4 c) ;;
  Ok x.

(** [Net.forward(self, x)] *)
Definition Net_forward (self : Net) (x : tensor4) : result tensor :=
  x <- Net_features self x ;;
  x <- view x (16 * 4 * 4) ;;
  f <- linear_forward (fc1 self) x ;;
  let x := relu f in
  f <- linear_forward (fc2 self) x ;;
  let x := relu f in
  x <- linear_forward (fc3 self) x ;;
  Ok x.

(** The height, or width, that is left of [h] after the two convolutions
    and the two poolings. *)
Definition pooled (h : nat) : nat := ((h - 4) / 2 - 4) / 2.

(** Image [n] of one batch and image [n'] of another have equal items. *)
Definition same_image (x x' : tensor4) (n n' : nat) : Prop :=
  dim1 x = dim1 x' /\ dim2 x = dim2 x' /\ dim3 x = dim3 x'
  /\ forall c i j, c < dim1 x -> i < dim2 x -> j < dim3 x ->
       (item4 x n c i j == item4 x' n' c i j)%Q.

(** Row [n] of one tensor and row [n'] of another have equal items. *)
Definition same_row (a b : list (list Q)) (n n' : nat) : Prop :=
  exists r r', a !! n = Some r /\ b !! n' = Some r' /\ Forall2 Qeq r r'.

(** A sample draw of the convolutions: every weight and bias is 1. *)
Definition ones_conv_init : conv_init :=
  fun _ => (fun _ _ _ _ => 1%Q, fun _ => 1%Q).

(** A batch of [n] images of [h] by [w] pixels that are all 1. *)
Definition ones_images (n h w : nat) : tensor4 :=
  {| dim0 := n; dim1 := 1; dim2 := h; dim3 := w;
     item4 := fun _ _ _ _ => 1%Q |}.

End CNN.

(** ** Part 12: the transform and [matplotlib_imshow] of the TensorBoard
    notebook *)

Module Show.

(** A tensor [[C, H, W]]: one image. *)
Record image := {
  channels : nat;
  height : nat;
  width : nat;
  pixel : nat -> nat -> nat -> Q
}.

(** An 8-bit greyscale picture, as the dataset yields them. *)
Record picture := {
  picture_height : nat;
  picture_width : nat;
  grey : nat -> nat -> nat
}.

(** [transforms.ToTensor()] on such a picture: one channel, the grey levels
    divided by 255. *)
Definition ToTensor (pic : picture) : image :=
  {| channels := 1;
     height := picture_height pic;
     width := picture_width pic;
     pixel := fun _ i j => (inject_Z (Z.of_nat (grey pic i j)) / 255)%Q |}.

(** Why [Normalize] refuses a tensor: a [ValueError] when a standard
    deviation is zero, a [RuntimeError] when the numbers of channels do not
    match. *)
Inductive refusal :=
  | std_is_zero
  | channels_mismatch.

(** A tuple of per-channel values fits [C] channels when it has one item,
    used for every channel, or [C] items. *)
Definition fits_channels (l : list Q) (C : nat) : bool :=
  (length l =? 1) || (length l =? C).

Definition channel_value (l : list Q) (c : nat) : Q :=
  if length l =? 1 then nth 0 l 0%Q else nth c l 0%Q.

(** [transforms.Normalize(mean, std)]: every item becomes
    [(item - mean[c]) / std[c]]. *)
Definition Normalize (mean std : list Q) (t : image) : refusal + image :=
  if existsb (Qeq_bool 0) std then inl std_is_zero
  else if negb (fits_channels mean (channels t)
                && fits_channels std (channels t))
  then inl channels_mismatch
  else inr {| channels := channels t;
              height := height t;
              width := width t;
              pixel := fun c i j =>
                ((pixel t c i j - channel_value mean c)
                 / channel_value std c)%Q |}.

(** [transform = transforms.Compose([transforms.ToTensor(),
                                     transforms.Normalize((0.5,), (0.5,))])] *)
Definition transform (pic : picture) : refusal + image :=
  Normalize [1 # 2]%Q [1 # 2]%Q (ToTensor pic).

(** The array [matplotlib_imshow] hands to [plt.imshow]: [[H, W]] with the
    colour map [Greys], or [[H, W, C]].  An item is [None] where torch and
    numpy have [nan]. *)
Inductive shown :=
  | Greys (rows cols : nat) (value : nat -> nat -> option Q)
  | Colour (rows cols depth : nat) (value : nat -> nat -> nat -> option Q).

(** [img.mean(dim=0)]: the mean over the channels, [nan] when there is
    none. *)
Definition mean_dim0 (img : image) (i j : nat) : option Q :=
  if channels img =? 0 then None
  else Some (WarmUp.sum_below (channels img) (fun c => pixel img c i j)
             / inject_Z (Z.of_nat (channels img)))%Q.

(** [img / 2 + 0.5] *)
Definition unnormalize (v : option Q) : option Q :=
  option_map (fun q => q / 2 + (1 # 2))%Q v.

(** [matplotlib_imshow(img, one_channel=False)] *)
Definition matplotlib_imshow (img : image) (one_channel : bool) : shown :=
  if one_channel
  then Greys (height img) (width img)
             (fun i j => unnormalize (mean_dim0 img i j))
  else Colour (height img) (width img) (channels img)
              (fun i j c => unnormalize (Some (pixel img c i j))).

(** A sample picture of 2 by 2 pixels. *)
Definition sample_picture : picture :=
  {| picture_height := 2; picture_width := 2;
     grey := fun i j => 100 * i + 50 * j |}.

(** A sample image of three equal channels. *)
Definition sample_grid : image :=
  {| channels := 3; height := 2; width := 2;
     pixel := fun _ i j => (inject_Z (Z.of_nat (i + j)) / 4)%Q |}.

End Show.

(** ** Part 13: the logging of the training loop of the TensorBoard
    notebook *)

Module Logging.

(** What [writer.add_scalar('training loss', value, step)] records. *)
Record scalar := {
  scalar_value : Q;
  global_step : nat
}.

(** The variables the loop rebinds: [running_loss], and the scalars
    written so far. *)
Definition state := (Q * list scalar)%type.

(** The end of the body of the inner loop, where [loss] is the value of
    [loss.item()] and [len] the one of [len(trainloader)]:
    [running_loss += loss.item()
     if i % 1000 == 999:
         writer.add_scalar('training loss', running_loss / 1000,
                           epoch * len(trainloader) + i)
         ...
         running_loss = 0.0] *)
Definition log_body (epoch len i : nat) (loss : Q) (st : state) : state :=
  let running_loss := (fst st + loss)%Q in
  if i mod 1000 =? 999
  then (0%Q,
        snd st ++ [ {| scalar_value := (running_loss / 1000)%Q;
                       global_step := epoch * len + i |} ])
  else (running_loss, snd st).

(** [for i, data in enumerate(trainloader, 0): ...], given the losses of the
    mini-batches that are left, in order. *)
Fixpoint log_loop (epoch len i : nat) (losses : list Q) (st : state)
    : state :=
  match losses with
  | [] => st
  | loss :: rest => log_loop epoch len (S i) rest (log_body epoch len i loss st)
  end.

(** [running_loss = 0.0
     for epoch in range(1): ...], given the losses of the mini-batches of
    the epoch. *)
Definition training_log (losses : list Q) : state :=
  fold_left (fun st epoch => log_loop epoch (length losses) 0 losses st)
            (seq 0 1) (0%Q, []).

Definition total (l : list Q) : Q := fold_right Qplus 0%Q l.

(** The [k]-th run of 1000 losses. *)
Definition chunk (k : nat) (losses : list Q) : list Q :=
  take 1000 (drop (1000 * k) losses).

End Logging.

(** * Theorems *)

(** ** [sparsity_ratio] *)

Module SparsityFacts.
Import Sparsity.

Lemma float_of_nat_pos n : 0 < n -> (0 < float_of_nat n)%Q.
Proof.
  intros Hn. unfold float_of_nat, Qlt. simpl. lia.
Qed.

Lemma float_of_nat_le n m : n <= m -> (float_of_nat n <= float_of_nat m)%Q.
Proof.
  intros Hn. unfold float_of_nat, Qle. simpl. lia.
Qed.

Lemma float_of_nat_zero n : (float_of_nat n == 0)%Q <-> n = 0.
Proof.
  unfold float_of_nat, Qeq. simpl. lia.
Qed.

Lemma count_nonzero_le (X : ndarray) :
  count_nonzero X <= length (data X).
Proof.
  unfold count_nonzero. apply filter_length_le.
Qed.

Lemma filter_nonzero_nil (l : list Q) :
  length (List.filter is_nonzero l) = 0 <-> Forall (fun v => (v == 0)%Q) l.
Proof.
  induction l as [|v l IH]; simpl.
  - split; [constructor | reflexivity].
  - unfold is_nonzero at 1. destruct (Qeq_bool v 0) eqn:E; simpl.
    + apply Qeq_bool_iff in E. rewrite IH. split.
      * intros H. constructor; assumption.
      * intros H. inversion H; assumption.
    + split; [discriminate |].
      intros H. inversion H as [|? ? Hv _]; subst.
      apply Qeq_bool_iff in Hv. congruence.
Qed.

Lemma count_nonzero_zero (X : ndarray) :
  count_nonzero X = 0 <-> all_zeros X.
Proof. apply filter_nonzero_nil. Qed.

Lemma truediv_ok a b : ~ (b == 0)%Q -> truediv a b = Ok (a / b)%Q.
Proof.
  intros Hb. unfold truediv.
  destruct (Qeq_bool b 0) eqn:E; [|reflexivity].
  apply Qeq_bool_iff in E. contradiction.
Qed.

(** C10: [sparsity_ratio(X)] is [1.0 - count_nonzero(X) / (shape[0] * shape[1])];
    on a two-dimensional array with at least one item it lies in [[0, 1]] and
    equals 1 exactly when every item is zero; on an array without items the
    division raises [ZeroDivisionError]. *)
Theorem sparsity_ratio_spec (X : ndarray) :
  well_shaped X ->
  (0 < shape0 X * shape1 X ->
     exists r,
       sparsity_ratio X = Ok r
       /\ (r == 1 - float_of_nat (count_nonzero X)
                    / float_of_nat (shape0 X * shape1 X))%Q
       /\ (0 <= r)%Q /\ (r <= 1)%Q
       /\ ((r == 1)%Q <-> all_zeros X))
  /\ (shape0 X * shape1 X = 0 -> sparsity_ratio X = Raise ZeroDivisionError).
Proof.
  intros Hwf. split.
  - intros Hpos.
    set (c := float_of_nat (count_nonzero X)).
    set (t := float_of_nat (shape0 X * shape1 X)).
    assert (Ht : (0 < t)%Q) by (apply float_of_nat_pos; assumption).
    assert (Hc0 : (0 <= c)%Q).
    { unfold c, float_of_nat, Qle. simpl. lia. }
    assert (Hct : (c <= t)%Q).
    { apply float_of_nat_le. rewrite <- Hwf. apply count_nonzero_le. }
    assert (Hq0 : (0 <= c / t)%Q).
    { apply Qle_shift_div_l; [assumption|]. rewrite Qmult_0_l. assumption. }
    assert (Hq1 : (c / t <= 1)%Q).
    { apply Qle_shift_div_r; [assumption|]. rewrite Qmult_1_l. assumption. }
    exists (1 - c / t)%Q. repeat split.
    + unfold sparsity_ratio. fold c t. rewrite truediv_ok; [reflexivity|].
      intros E. rewrite E in Ht. apply (Qlt_irrefl 0). assumption.
    + lra.
    + lra.
    + intros Hr. apply count_nonzero_zero.
      assert (Hq : (c / t == 0)%Q) by lra.
      assert (Hc : (c == 0)%Q).
      { rewrite <- (Qmult_div_r c t); [|lra]. rewrite Hq. ring. }
      apply float_of_nat_zero. assumption.
    + intros Hz. apply count_nonzero_zero in Hz.
      unfold c. rewrite Hz. unfold float_of_nat. simpl.
      unfold Qdiv. ring.
  - intros Hzero. unfold sparsity_ratio. rewrite Hzero. reflexivity.
Qed.

Lemma sparsity_ratio_spec_witness :
  well_shaped X_sample /\
  exists r, sparsity_ratio X_sample = Ok r /\ (0 <= r)%Q /\ (r <= 1)%Q.
Proof.
  split; [reflexivity|].
  destruct (sparsity_ratio_spec X_sample) as [H _]; [reflexivity|].
  destruct H as (r & Hr & _ & H0 & H1 & _); [simpl; lia|].
  exists r. repeat split; assumption.
Defined.
(** An array of shape [(0, 5)] has no item: the call raises. *)
Example sparsity_ratio_empty :
  sparsity_ratio {| shape0 := 0; shape1 := 5; data := [] |}
  = Raise ZeroDivisionError.
Proof. reflexivity. Qed.

Example sparsity_ratio_sample :
  sparsity_ratio X_sample = Ok (1 - (2 # 1) / (6 # 1))%Q.
Proof. reflexivity. Qed.

End SparsityFacts.

(** ** [select_n_random] *)

Module SelectFacts.
Import Select.

Lemma index_select_ok {A} (data : list A) (perm : list nat) :
  Forall (fun i => i < length data) perm ->
  exists ds,
    index_select data perm = Ok ds
    /\ length ds = length perm
    /\ forall k i, perm !! k = Some i -> ds !! k = data !! i.
Proof.
  induction perm as [|i perm IH]; intros Hall.
  - exists []. repeat split; intros k i Hk; discriminate.
  - inversion Hall as [|? ? Hi Hrest]; subst.
    destruct (IH Hrest) as (ds & Hds & Hlen & Hlook).
    destruct (lookup_lt_is_Some_2 data i Hi) as [a Ha].
    exists (a :: ds). simpl. rewrite Ha, Hds. simpl.
    repeat split; [lia|].
    intros [|k] j Hk; simpl in *.
    + injection Hk as <-. symmetry. assumption.
    + apply Hlook. assumption.
Qed.

Lemma randperm_in_range k perm :
  is_randperm k perm -> Forall (fun i => i < k) perm.
Proof.
  intros Hperm. apply Forall_forall. intros i Hi.
  unfold is_randperm in Hperm. rewrite Hperm in Hi.
  apply elem_of_seq in Hi. lia.
Qed.

Lemma randperm_length k perm : is_randperm k perm -> length perm = k.
Proof.
  intros Hperm. rewrite (Permutation_length Hperm). apply length_seq.
Qed.

Lemma slice_to_nonneg {A} (n : Z) (l : list A) :
  (0 <= n)%Z -> slice_to n l = take (Z.to_nat n) l.
Proof.
  intros Hn. unfold slice_to.
  destruct (Z.ltb_spec n 0); [lia | reflexivity].
Qed.

(** C9: under [len(data) == len(labels)], whatever permutation
    [torch.randperm] draws, [select_n_random] returns two sequences of
    length [min(n, len(data))] whose items at each position [i] come from one
    common position of [data] and [labels]. *)
Theorem select_n_random_pairing {A B} (perm : list nat)
    (data : list A) (labels : list B) (n : Z) :
  length data = length labels ->
  is_randperm (length data) perm ->
  (0 <= n)%Z ->
  exists ds ls,
    select_n_random perm data labels n = Ok (ds, ls)
    /\ length ds = Nat.min (Z.to_nat n) (length data)
    /\ length ls = Nat.min (Z.to_nat n) (length data)
    /\ forall i, i < length ds ->
         exists j, j < length data
                   /\ ds !! i = data !! j /\ ls !! i = labels !! j.
Proof.
  intros Hlen Hperm Hn.
  pose proof (randperm_in_range _ _ Hperm) as Hrange.
  pose proof (randperm_length _ _ Hperm) as Hplen.
  destruct (index_select_ok data perm Hrange) as (d & Hd & Hdlen & Hdlook).
  assert (Hrange' : Forall (fun i => i < length labels) perm)
    by (rewrite <- Hlen; assumption).
  destruct (index_select_ok labels perm Hrange') as (l & Hl & Hllen & Hllook).
  exists (slice_to n d), (slice_to n l).
  rewrite !slice_to_nonneg by assumption.
  repeat split.
  - unfold select_n_random. rewrite Hlen, Nat.eqb_refl. simpl.
    rewrite Hd, Hl. simpl. rewrite !slice_to_nonneg by assumption.
    reflexivity.
  - rewrite length_take. lia.
  - rewrite length_take. lia.
  - intros i Hi. rewrite length_take in Hi.
    assert (Hip : i < length perm) by lia.
    destruct (lookup_lt_is_Some_2 perm i Hip) as [j Hj].
    exists j. repeat split.
    + rewrite Forall_forall in Hrange. apply Hrange.
      eapply list_elem_of_lookup_2. eassumption.
    + rewrite lookup_take_lt by lia. apply Hdlook. assumption.
    + rewrite lookup_take_lt by lia. apply Hllook. assumption.
Qed.

Lemma select_n_random_pairing_witness :
  exists ds ls,
    select_n_random [2; 0; 1] ["a"; "b"; "c"]%string [10; 20; 30]%Z default_n
      = Ok (ds, ls)
    /\ length ds = 3.
Proof.
  destruct (select_n_random_pairing [2; 0; 1] ["a"; "b"; "c"]%string
              [10; 20; 30]%Z default_n) as (ds & ls & Hrun & Hlen & _).
  - reflexivity.
  - unfold is_randperm. simpl.
    apply Permutation_cons_app with (l1 := [0; 1]) (l2 := []).
    reflexivity.
  - unfold default_n. lia.
  - exists ds, ls. split; assumption.
Defined.

(** With the draw [[2; 0; 1]] and [n = 2], the first two items of the
    permuted sequences are returned, still paired. *)
Example select_n_random_two :
  select_n_random [2; 0; 1] ["a"; "b"; "c"]%string [10; 20; 30]%Z 2
  = Ok (["c"; "a"]%string, [30; 10]%Z).
Proof. reflexivity. Qed.

(** Sequences of different lengths fail the assertion. *)
Example select_n_random_assert :
  select_n_random [1; 0] ["a"; "b"]%string [10]%Z 2 = Raise AssertionError.
Proof. reflexivity. Qed.

(** Outside the theorem's range: a negative [n] makes the slice [[:n]] drop
    items from the end. *)
Example select_n_random_negative :
  select_n_random [2; 0; 1] ["a"; "b"; "c"]%string [10; 20; 30]%Z (-1)
  = Ok (["c"; "a"]%string, [30; 10]%Z).
Proof. reflexivity. Qed.

End SelectFacts.

(** ** [AE] and [DynamicNet] *)

Module TorchFacts.
Import Torch.

Lemma layer_in rng k i o : in_features (layer rng k i o) = i.
Proof. reflexivity. Qed.

Lemma layer_weight_length rng k i o : length (weight (layer rng k i o)) = o.
Proof. unfold layer, nn_Linear. simpl. rewrite length_map, length_seq. reflexivity. Qed.

Lemma layer_bias_length rng k i o : length (bias (layer rng k i o)) = o.
Proof. unfold layer, nn_Linear. simpl. rewrite length_map, length_seq. reflexivity. Qed.

Lemma relu_shape t n m : has_shape t n m -> has_shape (relu t) n m.
Proof.
  intros [Hn Hrows]. split.
  - unfold relu. rewrite length_map. assumption.
  - unfold relu. apply Forall_map. eapply Forall_impl; [eassumption|].
    intros row Hrow. simpl. rewrite length_map. assumption.
Qed.

Lemma rows_checked (l : Linear) (x : tensor) n :
  has_shape x n (in_features l) ->
  forallb (fun row => length row =? in_features l) x = true.
Proof.
  intros [_ Hrows]. apply forallb_forall. intros row Hin.
  rewrite Forall_forall in Hrows. apply Nat.eqb_eq, Hrows.
  apply list_elem_of_In. assumption.
Qed.

Lemma linear_forward_shape (l : Linear) (x : tensor) n o :
  length (weight l) = o -> length (bias l) = o ->
  has_shape x n (in_features l) ->
  exists y, linear_forward l x = Ok y /\ has_shape y n o.
Proof.
  intros Hw Hb Hx. unfold linear_forward.
  rewrite (rows_checked l x n Hx).
  eexists. split; [reflexivity|].
  destruct Hx as [Hn _]. split.
  - rewrite length_map. assumption.
  - apply Forall_map, Forall_forall. intros row _. simpl.
    rewrite length_zip_with, length_map. lia.
Qed.

Lemma layer_forward_shape rng k i o (x : tensor) n :
  has_shape x n i ->
  exists y, linear_forward (layer rng k i o) x = Ok y /\ has_shape y n o.
Proof.
  intros Hx. apply linear_forward_shape.
  - apply layer_weight_length.
  - apply layer_bias_length.
  - rewrite layer_in. assumption.
Qed.

(** C7: for every positive [input_shape] and batch size [N], whatever the
    weights, [AE(input_shape).forward] applied to a tensor of shape
    [[N, input_shape]] returns a tensor of shape [[N, input_shape]]. *)
Theorem AE_forward_shape (input_shape N : nat) (rng : init) (features : tensor) :
  0 < input_shape -> 0 < N ->
  has_shape features N input_shape ->
  exists reconstructed,
    AE_forward (AE_init input_shape rng) features = Ok reconstructed
    /\ has_shape reconstructed N input_shape.
Proof.
  intros _ _ Hx. unfold AE_forward, AE_init. simpl.
  destruct (layer_forward_shape rng 0 input_shape 128 features N Hx)
    as (e & -> & He). simpl.
  destruct (layer_forward_shape rng 1 128 128 (relu e) N (relu_shape _ _ _ He))
    as (z & -> & Hz). simpl.
  destruct (layer_forward_shape rng 2 128 128 (relu z) N (relu_shape _ _ _ Hz))
    as (d & -> & Hd). simpl.
  destruct (layer_forward_shape rng 3 128 input_shape (relu d) N
              (relu_shape _ _ _ Hd)) as (r & -> & Hr). simpl.
  exists (relu r). split; [reflexivity|]. apply relu_shape. assumption.
Qed.

Lemma AE_forward_shape_witness :
  exists reconstructed,
    AE_forward (AE_init 2 ones_init) [[1; 2]; [3; -4]; [0; 1#2]]%Q
      = Ok reconstructed
    /\ has_shape reconstructed 3 2.
Proof.
  apply AE_forward_shape; [lia | lia |].
  split; [reflexivity|]. repeat constructor.
Defined.

Lemma middle_loop_shape H rng k (h : tensor) n D_in D_out :
  has_shape h n H ->
  exists h', middle_loop (DynamicNet_init D_in H D_out rng) k h = Ok h'
             /\ has_shape h' n H.
Proof.
  revert h. induction k as [|k IH]; intros h Hh; simpl.
  - exists h. split; [reflexivity | assumption].
  - destruct (layer_forward_shape rng 1 H H h n Hh) as (y & -> & Hy). simpl.
    apply IH, relu_shape. assumption.
Qed.

Lemma DynamicNet_forward_shape D_in H D_out rng k (x : tensor) n :
  has_shape x n D_in ->
  exists y, DynamicNet_forward (DynamicNet_init D_in H D_out rng) k x = Ok y
            /\ has_shape y n D_out.
Proof.
  intros Hx. unfold DynamicNet_forward.
  change (input_linear (DynamicNet_init D_in H D_out rng))
    with (layer rng 0 D_in H).
  change (output_linear (DynamicNet_init D_in H D_out rng))
    with (layer rng 2 H D_out).
  destruct (layer_forward_shape rng 0 D_in H x n Hx) as (h & -> & Hh). simpl.
  destruct (middle_loop_shape H rng k (relu h) n D_in D_out
              (relu_shape _ _ _ Hh)) as (h' & -> & Hh'). simpl.
  destruct (layer_forward_shape rng 2 H D_out h' n Hh') as (y & -> & Hy). simpl.
  exists y. split; [reflexivity | assumption].
Qed.

Example randint_0_3 : randint 0 3 = [0; 1; 2; 3].
Proof. reflexivity. Qed.

Example DynamicNet_draw_0 :
  DynamicNet_forward (DynamicNet_init 1 1 1 ones_init) 0 [[1]]%Q = Ok [[3]]%Q.
Proof. reflexivity. Qed.

Example DynamicNet_draw_1 :
  DynamicNet_forward (DynamicNet_init 1 1 1 ones_init) 1 [[1]]%Q = Ok [[4]]%Q.
Proof. reflexivity. Qed.

(** C8: [DynamicNet.forward] is not a function of its input and parameters:
    for some input and parameters two draws of [random.randint(0, 3)] give
    different outputs; still, for every draw, an input of shape [[N, D_in]]
    gives an output of shape [[N, D_out]]. *)
Theorem DynamicNet_forward_draws :
  (exists D_in H D_out rng x k1 k2 y1 y2,
      In k1 (randint 0 3) /\ In k2 (randint 0 3)
      /\ DynamicNet_forward (DynamicNet_init D_in H D_out rng) k1 x = Ok y1
      /\ DynamicNet_forward (DynamicNet_init D_in H D_out rng) k2 x = Ok y2
      /\ ~ tensor_equiv y1 y2)
  /\ (forall D_in H D_out rng N x k,
        In k (randint 0 3) ->
        has_shape x N D_in ->
        exists y,
          DynamicNet_forward (DynamicNet_init D_in H D_out rng) k x = Ok y
          /\ has_shape y N D_out).
Proof.
  split.
  - exists 1, 1, 1, ones_init, [[1]]%Q, 0, 1, [[3]]%Q, [[4]]%Q.
    repeat split.
    + simpl. auto.
    + simpl. auto.
    + intros Heq. inversion Heq as [|? ? ? ? Hrow _]; subst.
      inversion Hrow as [|? ? ? ? Hq _]; subst. discriminate Hq.
  - intros D_in H D_out rng N x k _ Hx. apply DynamicNet_forward_shape.
    assumption.
Qed.

Lemma DynamicNet_forward_draws_witness :
  exists y,
    DynamicNet_forward (DynamicNet_init 2 3 1 ones_init) 2 [[1; 2]; [0; 5]]%Q
      = Ok y
    /\ has_shape y 2 1.
Proof.
  apply (proj2 DynamicNet_forward_draws).
  - simpl. auto.
  - split; [reflexivity|]. repeat constructor.
Defined.

End TorchFacts.

(** ** The autograd session *)

Module AutogradFacts.
Import Autograd.

Example session_matches_recorded :
  fst (run_session session initial_state) = recorded.
Proof. vm_compute. reflexivity. Qed.

Lemma attr_of_insert (m : gmap nat attr) i j a :
  attr_of (<[i := a]> m) j = if decide (i = j) then a else attr_of m j.
Proof.
  unfold attr_of. rewrite lookup_insert. destruct (decide (i = j)); reflexivity.
Qed.

Ltac attr_cases :=
  rewrite ?attr_of_insert;
  repeat match goal with
         | |- context [decide (?i = ?j)] => destruct (decide (i = j)); subst
         end; simpl; try reflexivity; try congruence.

Lemma accumulate_freed id g m j :
  freed (attr_of (accumulate id g m) j) = freed (attr_of m j).
Proof. unfold accumulate. attr_cases. Qed.

Lemma accumulate_retains id g m j :
  retains_grad (attr_of (accumulate id g m) j) = retains_grad (attr_of m j).
Proof. unfold accumulate. attr_cases. Qed.

Lemma accumulate_grad_here id g m :
  is_Some (grad (attr_of (accumulate id g m) id)).
Proof. unfold accumulate. attr_cases. eauto. Qed.

Lemma accumulate_grad_mono id g m j :
  is_Some (grad (attr_of m j)) -> is_Some (grad (attr_of (accumulate id g m) j)).
Proof. unfold accumulate. attr_cases; eauto. Qed.

Lemma accumulate_grad_other id g m j :
  id <> j -> grad (attr_of (accumulate id g m) j) = grad (attr_of m j).
Proof. intros Hne. unfold accumulate. attr_cases. Qed.

Lemma retain_hook_freed id g m j :
  freed (attr_of (retain_hook id g m) j) = freed (attr_of m j).
Proof.
  unfold retain_hook. destruct (retains_grad (attr_of m id)); [|reflexivity].
  apply accumulate_freed.
Qed.

Lemma retain_hook_retains id g m j :
  retains_grad (attr_of (retain_hook id g m) j) = retains_grad (attr_of m j).
Proof.
  unfold retain_hook. destruct (retains_grad (attr_of m id)); [|reflexivity].
  apply accumulate_retains.
Qed.

Lemma retain_hook_grad_mono id g m j :
  is_Some (grad (attr_of m j)) -> is_Some (grad (attr_of (retain_hook id g m) j)).
Proof.
  unfold retain_hook. destruct (retains_grad (attr_of m id)); [|tauto].
  apply accumulate_grad_mono.
Qed.

Lemma retain_hook_grad_unretained id g m j :
  retains_grad (attr_of m j) = false ->
  grad (attr_of (retain_hook id g m) j) = grad (attr_of m j).
Proof.
  intros Hj. unfold retain_hook.
  destruct (retains_grad (attr_of m id)) eqn:E; [|reflexivity].
  apply accumulate_grad_other. congruence.
Qed.

(** The reverse pass never frees a buffer and never changes which tensors
    retain their gradient. *)
Lemma backprop_flags t : forall g m j,
  freed (attr_of (snd (backprop t g m)) j) = freed (attr_of m j)
  /\ retains_grad (attr_of (snd (backprop t g m)) j) = retains_grad (attr_of m j).
Proof.
  induction t as [id d rg | id d a IHa c | id d a IHa b IHb | id d a IHa c
                 | id d a IHa]; intros g m j; simpl.
  - destruct rg; [|tauto]. rewrite accumulate_freed, accumulate_retains. tauto.
  - destruct (freed (attr_of m id)); simpl; [tauto|].
    destruct (IHa g (retain_hook id g m) j) as [-> ->].
    rewrite retain_hook_freed, retain_hook_retains. tauto.
  - destruct (freed (attr_of m id)); simpl; [tauto|].
    pose proof (IHa (vmap2 Qmult g (tensor_data b)) (retain_hook id g m) j)
      as [Hf Hr].
    destruct (backprop a _ (retain_hook id g m)) as [[[]|e] m1]; simpl in *.
    + destruct (IHb (vmap2 Qmult g (tensor_data a)) m1 j) as [-> ->].
      rewrite Hf, Hr, retain_hook_freed, retain_hook_retains. tauto.
    + rewrite Hf, Hr, retain_hook_freed, retain_hook_retains. tauto.
  - destruct (freed (attr_of m id)); simpl; [tauto|].
    destruct (IHa (vscale c g) (retain_hook id g m) j) as [-> ->].
    rewrite retain_hook_freed, retain_hook_retains. tauto.
  - destruct (freed (attr_of m id)); simpl; [tauto|].
    match goal with |- context [backprop a ?g' ?m'] =>
      destruct (IHa g' m' j) as [-> ->] end.
    rewrite retain_hook_freed, retain_hook_retains. tauto.
Qed.

Lemma backprop_grad_mono t : forall g m j,
  is_Some (grad (attr_of m j)) ->
  is_Some (grad (attr_of (snd (backprop t g m)) j)).
Proof.
  induction t as [id d rg | id d a IHa c | id d a IHa b IHb | id d a IHa c
                 | id d a IHa]; intros g m j Hj; simpl.
  - destruct rg; [|assumption]. apply accumulate_grad_mono. assumption.
  - destruct (freed (attr_of m id)); simpl; [assumption|].
    apply IHa, retain_hook_grad_mono. assumption.
  - destruct (freed (attr_of m id)); simpl; [assumption|].
    pose proof (IHa (vmap2 Qmult g (tensor_data b)) (retain_hook id g m) j
                  (retain_hook_grad_mono _ _ _ _ Hj)) as H1.
    destruct (backprop a _ (retain_hook id g m)) as [[[]|e] m1]; simpl in *.
    + apply IHb. assumption.
    + assumption.
  - destruct (freed (attr_of m id)); simpl; [assumption|].
    apply IHa, retain_hook_grad_mono. assumption.
  - destruct (freed (attr_of m id)); simpl; [assumption|].
    apply IHa, retain_hook_grad_mono. assumption.
Qed.

(** The reverse pass writes [.grad] only on leaves that require a gradient
    and on tensors that retain theirs. *)
Lemma backprop_grad_frame t : forall g m j,
  retains_grad (attr_of m j) = false ->
  ~ In j (grad_leaves t) ->
  grad (attr_of (snd (backprop t g m)) j) = grad (attr_of m j).
Proof.
  induction t as [id d rg | id d a IHa c | id d a IHa b IHb | id d a IHa c
                 | id d a IHa]; intros g m j Hr Hj; simpl in *.
  - destruct rg; [|reflexivity]. apply accumulate_grad_other.
    intros ->. apply Hj. left. reflexivity.
  - destruct (freed (attr_of m id)); simpl; [reflexivity|].
    rewrite IHa; [| rewrite retain_hook_retains |]; try assumption.
    apply retain_hook_grad_unretained. assumption.
  - destruct (freed (attr_of m id)); simpl; [reflexivity|].
    assert (Ha : ~ In j (grad_leaves a)) by (intros H; apply Hj, in_or_app; tauto).
    assert (Hb : ~ In j (grad_leaves b)) by (intros H; apply Hj, in_or_app; tauto).
    pose proof (IHa (vmap2 Qmult g (tensor_data b)) (retain_hook id g m) j) as H1.
    pose proof (backprop_flags a (vmap2 Qmult g (tensor_data b))
                  (retain_hook id g m) j) as [_ Hr1].
    rewrite retain_hook_retains in H1, Hr1.
    destruct (backprop a _ (retain_hook id g m)) as [[[]|e] m1]; simpl in *.
    + rewrite IHb; [| congruence | assumption].
      rewrite H1 by assumption. apply retain_hook_grad_unretained. assumption.
    + rewrite H1 by assumption. apply retain_hook_grad_unretained. assumption.
  - destruct (freed (attr_of m id)); simpl; [reflexivity|].
    rewrite IHa; [| rewrite retain_hook_retains |]; try assumption.
    apply retain_hook_grad_unretained. assumption.
  - destruct (freed (attr_of m id)); simpl; [reflexivity|].
    rewrite IHa; [| rewrite retain_hook_retains |]; try assumption.
    apply retain_hook_grad_unretained. assumption.
Qed.

Lemma live_ext t m m' :
  (forall j, freed (attr_of m j) = freed (attr_of m' j)) ->
  live t m = live t m'.
Proof.
  intros H. induction t; simpl; rewrite ?H; congruence.
Qed.

Lemma backprop_live t g m : live t (snd (backprop t g m)) = live t m.
Proof. apply live_ext. intros j. apply backprop_flags. Qed.

(** The reverse pass succeeds exactly on a history none of whose buffers
    was freed. *)
Lemma backprop_ok_iff t : forall g m,
  fst (backprop t g m) = Ok tt <-> live t m = true.
Proof.
  induction t as [id d rg | id d a IHa c | id d a IHa b IHb | id d a IHa c
                 | id d a IHa]; intros g m; simpl.
  - tauto.
  - destruct (freed (attr_of m id)); simpl; [split; discriminate|].
    rewrite IHa. erewrite live_ext; [reflexivity|].
    intros j. apply retain_hook_freed.
  - destruct (freed (attr_of m id)); simpl; [split; discriminate|].
    pose proof (IHa (vmap2 Qmult g (tensor_data b)) (retain_hook id g m)) as Ha.
    pose proof (backprop_flags a (vmap2 Qmult g (tensor_data b))
                  (retain_hook id g m)) as Hfl.
    rewrite (live_ext a (retain_hook id g m) m) in Ha
      by (intros j; apply retain_hook_freed).
    destruct (backprop a _ (retain_hook id g m)) as [[[]|e] m1]; simpl in *.
    + rewrite IHb. rewrite (live_ext b m1 m).
      * destruct Ha as [Ha _]. rewrite Ha by reflexivity. reflexivity.
      * intros j. destruct (Hfl j) as [-> _]. apply retain_hook_freed.
    + split; [discriminate|]. intros H.
      apply andb_prop in H as [H _]. apply Ha in H. discriminate.
  - destruct (freed (attr_of m id)); simpl; [split; discriminate|].
    rewrite IHa. erewrite live_ext; [reflexivity|].
    intros j. apply retain_hook_freed.
  - destruct (freed (attr_of m id)); simpl; [split; discriminate|].
    rewrite IHa. erewrite live_ext; [reflexivity|].
    intros j. apply retain_hook_freed.
Qed.

Lemma mark_freed_keeps id m j :
  freed (attr_of m j) = true -> freed (attr_of (mark_freed id m) j) = true.
Proof. intros H. unfold mark_freed. attr_cases. Qed.

Lemma mark_freed_here id m : freed (attr_of (mark_freed id m) id) = true.
Proof. unfold mark_freed. attr_cases. Qed.

Lemma mark_freed_grad id m j :
  grad (attr_of (mark_freed id m) j) = grad (attr_of m j)
  /\ retains_grad (attr_of (mark_freed id m) j) = retains_grad (attr_of m j).
Proof. unfold mark_freed. split; attr_cases. Qed.

Lemma free_graph_keeps t : forall m j,
  freed (attr_of m j) = true -> freed (attr_of (free_graph t m) j) = true.
Proof.
  induction t; intros m j H; simpl; auto using mark_freed_keeps.
Qed.

Lemma free_graph_grad t : forall m j,
  grad (attr_of (free_graph t m) j) = grad (attr_of m j)
  /\ retains_grad (attr_of (free_graph t m) j) = retains_grad (attr_of m j).
Proof.
  induction t as [id d rg | id d a IHa c | id d a IHa b IHb | id d a IHa c
                 | id d a IHa]; intros m j; simpl.
  - tauto.
  - destruct (IHa (mark_freed id m) j) as [-> ->]. apply mark_freed_grad.
  - destruct (IHb (free_graph a (mark_freed id m)) j) as [-> ->].
    destruct (IHa (mark_freed id m) j) as [-> ->]. apply mark_freed_grad.
  - destruct (IHa (mark_freed id m) j) as [-> ->]. apply mark_freed_grad.
  - destruct (IHa (mark_freed id m) j) as [-> ->]. apply mark_freed_grad.
Qed.

Lemma free_graph_root t m :
  is_leaf t = false -> freed (attr_of (free_graph t m) (tensor_id t)) = true.
Proof.
  destruct t; simpl; try discriminate; intros _;
    repeat apply free_graph_keeps; apply mark_freed_here.
Qed.

Lemma freed_root_raises t g m :
  is_leaf t = false -> freed (attr_of m (tensor_id t)) = true ->
  backprop t g m = (Raise (RuntimeError freed_message), m).
Proof.
  destruct t; simpl; try discriminate; intros _ ->; reflexivity.
Qed.

Lemma backward_ok_inv t rg cg s s1 :
  backward t rg cg s = (Ok tt, s1) ->
  requires_grad t = true
  /\ length (tensor_data t) = 1
  /\ live t (attrs s) = true
  /\ attrs s1 = (if default cg rg
                 then snd (backprop t [1%Q] (attrs s))
                 else free_graph t (snd (backprop t [1%Q] (attrs s)))).
Proof.
  unfold backward, raise. intros H.
  destruct (requires_grad t); simpl in H; [|discriminate].
  destruct (Nat.eqb_spec (length (tensor_data t)) 1) as [Hlen|];
    simpl in H; [|discriminate].
  pose proof (backprop_ok_iff t [1%Q] (attrs s)) as Hok.
  destruct (backprop t [1%Q] (attrs s)) as [[[]|e] m]; simpl in *;
    [|discriminate].
  injection H as <-. simpl. repeat split; try tauto.
Qed.

Lemma backward_live t rg cg s :
  requires_grad t = true -> length (tensor_data t) = 1 ->
  live t (attrs s) = true ->
  fst (backward t rg cg s) = Ok tt.
Proof.
  intros Hrg Hlen Hlive. unfold backward. rewrite Hrg, Hlen. simpl.
  apply (backprop_ok_iff t [1%Q]) in Hlive.
  destruct (backprop t [1%Q] (attrs s)) as [[[]|e] m]; simpl in *;
    [reflexivity | discriminate].
Qed.

(** C3: after a successful [backward()] that did not retain the graph, a
    further [backward()] on the same non-leaf tensor raises the RuntimeError
    about freed buffers; after a successful [backward(retain_graph=True)], a
    further [backward()] on the same tensor succeeds. *)
Theorem backward_twice :
  (forall t s s1 rg rg' cg',
      is_leaf t = false -> rg <> Some true ->
      backward t rg false s = (Ok tt, s1) ->
      fst (backward t rg' cg' s1) = Raise (RuntimeError freed_message))
  /\ (forall t s s1 cg rg' cg',
        backward t (Some true) cg s = (Ok tt, s1) ->
        fst (backward t rg' cg' s1) = Ok tt).
Proof.
  split.
  - intros t s s1 rg rg' cg' Hleaf Hrg H.
    apply backward_ok_inv in H as (Hreq & Hlen & _ & Hattrs).
    assert (Hkeep : default false rg = false)
      by (destruct rg as [[]|]; simpl; congruence).
    rewrite Hkeep in Hattrs.
    unfold backward. rewrite Hreq, Hlen. simpl.
    rewrite freed_root_raises; [reflexivity | assumption |].
    rewrite Hattrs. apply free_graph_root. assumption.
  - intros t s s1 cg rg' cg' H.
    apply backward_ok_inv in H as (Hreq & Hlen & Hlive & Hattrs).
    simpl in Hattrs. apply backward_live; try assumption.
    rewrite Hattrs, backprop_live. assumption.
Qed.

(** The tensor that [out] names when cell 11 runs, and the one it names
    after cell 16 has rebuilt the graph. *)
Example out_before_11 :
  globals (state_before 11) !! "out"%string = Some out_first.
Proof. vm_compute. reflexivity. Qed.

Example out_rebuilt_16 :
  globals state_rebuilt_16 !! "out"%string = Some out_second.
Proof. vm_compute. reflexivity. Qed.

Example out_before_19 :
  globals (state_before 19) !! "out"%string = Some out_second.
Proof. vm_compute. reflexivity. Qed.

Lemma backward_twice_witness :
  fst (backward out_first None false
         (snd (backward out_first None false (state_before 11))))
    = Raise (RuntimeError freed_message)
  /\ fst (backward out_second None false
            (snd (backward out_second (Some true) true
                    (snd (retain_grad out_second state_rebuilt_16)))))
     = Ok tt.
Proof.
  split.
  - apply (proj1 backward_twice) with (s := state_before 11) (rg := None).
    + reflexivity.
    + discriminate.
    + vm_compute. reflexivity.
  - apply (proj2 backward_twice)
      with (s := snd (retain_grad out_second state_rebuilt_16))
           (cg := true).
    vm_compute. reflexivity.
Defined.

Lemma retain_grad_inv t s s1 :
  is_leaf t = false -> retain_grad t s = (Ok tt, s1) ->
  retains_grad (attr_of (attrs s1) (tensor_id t)) = true.
Proof.
  intros Hleaf. unfold retain_grad, raise, ret, with_attrs. rewrite Hleaf.
  destruct (requires_grad t); simpl; [|discriminate].
  intros H. injection H as <-. simpl. rewrite attr_of_insert.
  destruct (decide (tensor_id t = tensor_id t)); [reflexivity | congruence].
Qed.

Lemma backprop_root_grad t g m :
  is_leaf t = false -> retains_grad (attr_of m (tensor_id t)) = true ->
  fst (backprop t g m) = Ok tt ->
  is_Some (grad (attr_of (snd (backprop t g m)) (tensor_id t))).
Proof.
  intros Hleaf Hret Hok.
  assert (Hhook : is_Some (grad (attr_of (retain_hook (tensor_id t) g m)
                                         (tensor_id t)))).
  { unfold retain_hook. rewrite Hret. apply accumulate_grad_here. }
  destruct t as [id d rg | id d a c | id d a b | id d a c | id d a];
    simpl in *; try discriminate;
    destruct (freed (attr_of m id)); simpl in *; try discriminate.
  - apply backprop_grad_mono. assumption.
  - pose proof (backprop_grad_mono a (vmap2 Qmult g (tensor_data b))
                  (retain_hook id g m) id Hhook) as H1.
    destruct (backprop a _ (retain_hook id g m)) as [[[]|e] m1]; simpl in *.
    + apply backprop_grad_mono. assumption.
    + discriminate.
  - apply backprop_grad_mono. assumption.
  - apply backprop_grad_mono. assumption.
Qed.

(** C4: reading [.grad] of a non-leaf tensor on which [retain_grad()] was
    not called gives [None] and issues the non-leaf warning (shown on stderr
    the first time); the reverse pass writes [.grad] only on leaves that
    require a gradient and on tensors that retain theirs; after
    [retain_grad()] on a non-leaf tensor and a successful [backward()] from
    it, its [.grad] is populated and read without a warning. *)
Theorem nonleaf_grad :
  (forall t s,
      is_leaf t = false ->
      retains_grad (attr_of (attrs s) (tensor_id t)) = false ->
      get_grad t s = (Ok None, snd (warn nonleaf_grad_warning s))
      /\ (warning_shown s = false ->
          stderr (snd (get_grad t s)) = stderr s ++ [nonleaf_grad_warning]))
  /\ (forall t g m j,
        retains_grad (attr_of m j) = false ->
        ~ In j (grad_leaves t) ->
        grad (attr_of (snd (backprop t g m)) j) = grad (attr_of m j))
  /\ (forall t s s1 s2 rg cg,
        is_leaf t = false ->
        retain_grad t s = (Ok tt, s1) ->
        backward t rg cg s1 = (Ok tt, s2) ->
        exists v, get_grad t s2 = (Ok (Some v), s2)).
Proof.
  split; [|split].
  - intros t s Hleaf Hret. unfold get_grad, grad_warns.
    rewrite Hleaf, Hret. simpl. split; [reflexivity|].
    intros ->. reflexivity.
  - intros t g m j. apply backprop_grad_frame.
  - intros t s s1 s2 rg cg Hleaf Hretain Hback.
    pose proof (retain_grad_inv t s s1 Hleaf Hretain) as Hret.
    apply backward_ok_inv in Hback as (_ & _ & Hlive & Hattrs).
    apply (backprop_ok_iff t [1%Q]) in Hlive.
    pose proof (backprop_root_grad t [1%Q] (attrs s1) Hleaf Hret Hlive) as Hg.
    pose proof (backprop_flags t [1%Q] (attrs s1) (tensor_id t)) as [_ Hr].
    assert (Hs2 : is_Some (grad (attr_of (attrs s2) (tensor_id t)))
                  /\ retains_grad (attr_of (attrs s2) (tensor_id t)) = true).
    { rewrite Hattrs. destruct (default cg rg).
      - split; [assumption | congruence].
      - destruct (free_graph_grad t (snd (backprop t [1%Q] (attrs s1)))
                    (tensor_id t)) as [-> ->].
        split; [assumption | congruence]. }
    destruct Hs2 as [[v Hv] Hr2]. exists v.
    unfold get_grad, grad_warns. rewrite Hr2, Hv, andb_false_r. reflexivity.
Qed.

Lemma nonleaf_grad_witness :
  fst (get_grad out_first (state_before 14)) = Ok None
  /\ exists v,
       fst (get_grad out_second
              (snd (backward out_second (Some true) true
                      (snd (retain_grad out_second state_rebuilt_16)))))
       = Ok (Some v).
Proof.
  split.
  - destruct (proj1 nonleaf_grad out_first (state_before 14)) as [-> _];
      reflexivity.
  - destruct (proj2 (proj2 nonleaf_grad) out_second
                state_rebuilt_16
                (snd (retain_grad out_second state_rebuilt_16))
                (snd (backward out_second (Some true) true
                        (snd (retain_grad out_second state_rebuilt_16))))
                (Some true) true) as [v Hv].
    + reflexivity.
    + vm_compute. reflexivity.
    + vm_compute. reflexivity.
    + exists v. rewrite Hv. reflexivity.
Defined.

End AutogradFacts.

(** ** The code cells *)

Module AnalysisFacts.
Import Py Analysis.
Local Open Scope string_scope.

(** *** DataLoader options *)

(** Counterexample to C6 as stated: the first loader of the autoencoder
    notebook passes [num_workers=4, pin_memory=True]. *)
Lemma dataloaders_configured :
  ~ Forall (fun call => default_parallelism call = true) all_dataloaders.
Proof.
  intros H. apply Forall_inv in H. vm_compute in H. discriminate H.
Qed.

(** C6, amended: the notebooks construct four DataLoaders; each passes
    [num_workers] itself (4, 4, 2, 2), so none leaves the worker count at
    its default, and [pin_memory=True] is passed for the autoencoder's
    [train_loader] only. *)
Theorem dataloader_settings :
  map loader_settings all_dataloaders =
    [ ([Name "train_dataset"], Some (Const (CInt 4)), Some (Const (CBool true)));
      ([Name "test_dataset"], Some (Const (CInt 4)), None);
      ([Name "trainset"], Some (Const (CInt 2)), None);
      ([Name "testset"], Some (Const (CInt 2)), None) ]
  /\ Forall (fun call =>
               leaves_default "num_workers" default_num_workers call = false)
            all_dataloaders
  /\ map (leaves_default "pin_memory" default_pin_memory) all_dataloaders
     = [false; true; true; true].
Proof.
  split; [|split].
  - vm_compute. reflexivity.
  - repeat constructor.
  - vm_compute. reflexivity.
Qed.

(** *** Definitions made by the notebooks *)

(** Counterexample to C2 as stated: the autoencoder notebook defines the
    class [AE], a subclass of [nn.Module]. *)
Lemma AE_defined :
  In (Class "AE" [Some "nn.Module"] ["__init__"; "forward"])
     (definitions_of autoencoder_nb)
  /\ own_definitions <> [].
Proof.
  split.
  - vm_compute. left. reflexivity.
  - vm_compute. discriminate.
Qed.

(** C2, amended: besides calling library operations directly, the notebooks
    define six [nn.Module] subclasses, each with its own [__init__] and
    [forward], and four helper functions; each body is built from calls,
    and the notebooks call what they define. *)
Theorem notebook_definitions :
  own_definitions =
    [ Class "AE" [Some "nn.Module"] ["__init__"; "forward"];
      Function "matplotlib_imshow";
      Class "Net" [Some "nn.Module"] ["__init__"; "forward"];
      Function "select_n_random";
      Function "images_to_probs";
      Function "plot_classes_preds";
      Class "TwoLayerNet" [Some "torch.nn.Module"] ["__init__"; "forward"];
      Class "TwoLayerNet" [Some "torch.nn.Module"] ["__init__"; "forward"];
      Class "TwoLayerNet" [Some "torch.nn.Module"] ["__init__"; "forward"];
      Class "DynamicNet" [Some "torch.nn.Module"] ["__init__"; "forward"] ]
  /\ forallb built_from_calls (flat_map cell_statements notebooks) = true
  /\ calls_to_own =
       [ "AE"; "Net"; "matplotlib_imshow"; "select_n_random";
         "images_to_probs"; "matplotlib_imshow"; "plot_classes_preds";
         "TwoLayerNet"; "TwoLayerNet"; "DynamicNet" ].
Proof.
  split; [|split].
  - vm_compute. reflexivity.
  - vm_compute. reflexivity.
  - vm_compute. reflexivity.
Qed.

(** *** Paths written to disk *)

Lemma run_cells_union (cs : list (nat * list stmt)) : forall disk : gset string,
  fold_left (fun d c => run_cell (snd c) d) cs disk
  = disk ∪ fold_left (fun d c => run_cell (snd c) d) cs ∅.
Proof.
  induction cs as [|c cs IH]; intros disk; simpl.
  - rewrite (right_id_L ∅ (∪)). reflexivity.
  - rewrite IH. rewrite (IH (run_cell (snd c) ∅)).
    unfold run_cell. rewrite (left_id_L ∅ (∪)), (assoc_L (∪)). reflexivity.
Qed.

Lemma run_notebook_union nb (disk : gset string) :
  run_notebook nb disk = disk ∪ run_notebook nb ∅.
Proof. apply run_cells_union. Qed.

Example tensorboard_paths :
  elements (run_notebook tensorboard_nb ∅)
  = ["./data"; "runs/fashion_mnist_experiment_1"].
Proof. vm_compute. reflexivity. Qed.

Example autoencoder_paths :
  elements (run_notebook autoencoder_nb ∅) = ["mnist_data"].
Proof. vm_compute. reflexivity. Qed.

(** Counterexample to C5 as stated: on an empty disk, running the cell
    [writer = SummaryWriter('runs/fashion_mnist_experiment_1')] of the
    TensorBoard notebook leaves that folder behind. *)
Lemma summary_writer_leaves_folder :
  cell_at tensorboard_nb 14 =
    [ ImportFromStmt "torch.utils.tensorboard" ["SummaryWriter"];
      Assign [Name "writer"]
        (Call (Name "SummaryWriter")
              [Const (CStr "runs/fashion_mnist_experiment_1")] []) ]
  /\ run_cell (cell_at tensorboard_nb 14) ∅
     = {["runs/fashion_mnist_experiment_1"]}
  /\ run_notebook tensorboard_nb ∅ <> ∅.
Proof.
  split; [|split].
  - vm_compute. reflexivity.
  - vm_compute. reflexivity.
  - intros H. apply (f_equal elements) in H.
    rewrite tensorboard_paths, elements_empty in H. discriminate H.
Qed.

(** C5, amended: whatever is on disk beforehand, running the TensorBoard
    notebook leaves the log folder [runs/fashion_mnist_experiment_1] and the
    dataset folder [./data] behind, and running the autoencoder notebook
    leaves the dataset folder [mnist_data]. *)
Theorem notebooks_write_to_disk (disk : gset string) :
  "runs/fashion_mnist_experiment_1" ∈ run_notebook tensorboard_nb disk
  /\ "./data" ∈ run_notebook tensorboard_nb disk
  /\ "mnist_data" ∈ run_notebook autoencoder_nb disk.
Proof.
  assert (Htb : forall p, p ∈ elements (run_notebook tensorboard_nb ∅) ->
                          p ∈ run_notebook tensorboard_nb disk).
  { intros p Hp. rewrite run_notebook_union. apply elem_of_union_r.
    apply elem_of_elements. assumption. }
  assert (Hae : forall p, p ∈ elements (run_notebook autoencoder_nb ∅) ->
                          p ∈ run_notebook autoencoder_nb disk).
  { intros p Hp. rewrite run_notebook_union. apply elem_of_union_r.
    apply elem_of_elements. assumption. }
  rewrite tensorboard_paths in Htb. rewrite autoencoder_paths in Hae.
  repeat split.
  - apply Htb. apply list_elem_of_In. simpl. tauto.
  - apply Htb. apply list_elem_of_In. simpl. tauto.
  - apply Hae. apply list_elem_of_In. simpl. tauto.
Qed.

(** *** Training loops *)

(** Counterexample to C1 as stated: the numpy warm-up loop of the AutoGrad
    notebook (cell 8) calls neither [backward()] nor an optimizer; it
    assigns [grad_w1] and [grad_w2] itself and applies
    [w -= learning_rate * grad_w]. *)
Lemma warm_up_loop_not_delegated :
  In {| in_notebook := "dl_intro/2 Torch AutoGrad.ipynb";
        at_cell := 8;
        calls_backward := false;
        calls_optimizer_step := false;
        hand_written_updates :=
          [ (Name "w1", BinOp (Name "learning_rate") Mult (Name "grad_w1"));
            (Name "w2", BinOp (Name "learning_rate") Mult (Name "grad_w2")) ];
        gradient_variables :=
          ["grad_y_pred"; "grad_w2"; "grad_h_relu"; "grad_h"; "grad_w1"] |}
     training_loops
  /\ ~ Forall (fun t => delegated t = true) training_loops.
Proof.
  split.
  - vm_compute. do 2 right. left. reflexivity.
  - intros H. do 2 apply Forall_inv_tail in H. apply Forall_inv in H.
    vm_compute in H. discriminate H.
Qed.

End AnalysisFacts.

(** ** The hand-written training step *)

Module WarmUpFacts.
Import WarmUp.
Local Open Scope Q_scope.

Lemma sum_below_ext n (f g : nat -> Q) :
  (forall i, (i < n)%nat -> f i == g i) -> sum_below n f == sum_below n g.
Proof.
  induction n as [|n IH]; intros Hfg; simpl.
  - reflexivity.
  - rewrite IH, (Hfg n) by (intros; try apply Hfg; lia). reflexivity.
Qed.

Lemma sum_below_add n (f g : nat -> Q) :
  sum_below n (fun i => f i + g i) == sum_below n f + sum_below n g.
Proof.
  induction n as [|n IH]; simpl.
  - ring.
  - rewrite IH. ring.
Qed.

Lemma sum_below_scale n c (f : nat -> Q) :
  sum_below n (fun i => c * f i) == c * sum_below n f.
Proof.
  induction n as [|n IH]; simpl.
  - ring.
  - rewrite IH. ring.
Qed.

Lemma sum_below_scale_r n c (f : nat -> Q) :
  sum_below n (fun i => f i * c) == sum_below n f * c.
Proof.
  induction n as [|n IH]; simpl.
  - ring.
  - rewrite IH. ring.
Qed.

Lemma sum_below_zero n : sum_below n (fun _ => 0) == 0.
Proof.
  induction n as [|n IH]; simpl.
  - reflexivity.
  - rewrite IH. ring.
Qed.

Lemma sum_below_swap n m (f : nat -> nat -> Q) :
  sum_below n (fun i => sum_below m (fun j => f i j))
  == sum_below m (fun j => sum_below n (fun i => f i j)).
Proof.
  induction n as [|n IH]; simpl.
  - rewrite sum_below_zero. reflexivity.
  - rewrite IH, <- sum_below_add. reflexivity.
Qed.

Lemma sum_ext n m (a b : array) :
  (forall i j, (i < n)%nat -> (j < m)%nat -> a i j == b i j) ->
  sum n m a == sum n m b.
Proof.
  intros Hab. unfold sum. apply sum_below_ext. intros i Hi.
  apply sum_below_ext. intros j Hj. apply Hab; assumption.
Qed.

Lemma sum_add n m (a b : array) :
  sum n m (add a b) == sum n m a + sum n m b.
Proof.
  unfold sum, add. rewrite <- sum_below_add.
  apply sum_below_ext. intros i _. apply sum_below_add.
Qed.

(** The matrix product is additive in its second argument. *)
Lemma dot_add_r k (a b c : array) i j :
  dot k a (add b c) i j == dot k a b i j + dot k a c i j.
Proof.
  unfold dot, add. rewrite <- sum_below_add.
  apply sum_below_ext. intros l _. ring.
Qed.

(** Expanding a sum of squares around [p]. *)
Lemma sum_square_add n m (p e : array) :
  sum n m (square (add p e))
  == sum n m (square p) + inner n m (scale 2 p) e + sum n m (square e).
Proof.
  unfold inner. rewrite <- !sum_add. apply sum_ext. intros i j _ _.
  unfold square, add, scale. ring.
Qed.

(** [<a, b.c> = <b^T.a, c>]: moving a factor across the inner product. *)
Lemma inner_dot_r n k m (a b c : array) :
  inner n m a (dot k b c) == inner k m (dot n (T b) a) c.
Proof.
  unfold inner, sum, dot, T.
  transitivity
    (sum_below n (fun i => sum_below k (fun l =>
       sum_below m (fun j => a i j * (b i l * c l j))))).
  { apply sum_below_ext. intros i _.
    rewrite <- sum_below_swap. apply sum_below_ext. intros j _.
    rewrite <- sum_below_scale. reflexivity. }
  rewrite sum_below_swap. apply sum_below_ext. intros l _.
  rewrite sum_below_swap. apply sum_below_ext. intros j _.
  rewrite <- sum_below_scale_r. apply sum_below_ext. intros i _. ring.
Qed.

(** [<a, b.c> = <a.c^T, b>] *)
Lemma inner_dot_l n k m (a b c : array) :
  inner n m a (dot k b c) == inner n k (dot m a (T c)) b.
Proof.
  unfold inner, sum, dot, T.
  apply sum_below_ext. intros i _.
  transitivity
    (sum_below m (fun j => sum_below k (fun l => a i j * c l j * b i l))).
  { apply sum_below_ext. intros j _. rewrite <- sum_below_scale.
    apply sum_below_ext. intros l _. ring. }
  rewrite sum_below_swap. apply sum_below_ext. intros l _.
  rewrite <- sum_below_scale_r. reflexivity.
Qed.

Section Gradients.

Variables N D_in H D_out : nat.
Variable learning_rate : Q.
Variables x y w1 w2 : array.

#[local] Abbreviation p := (loop_body N D_in H D_out learning_rate x y w1 w2).
#[local] Abbreviation h_relu := (maximum0 (hidden D_in x w1)).
#[local] Abbreviation residual := (sub (predict D_in H x w1 w2) y).

(** The loss the loop prints is the loss of the current weights. *)
Lemma loss_value_is_loss :
  loss_value p = loss N D_in H D_out x y w1 w2.
Proof. reflexivity. Qed.

(** The update is a step of size [learning_rate] against the gradients. *)
Lemma update_is_descent_step i j :
  new_w1 p i j = w1 i j - learning_rate * grad_w1 p i j
  /\ new_w2 p i j = w2 i j - learning_rate * grad_w2 p i j.
Proof. split; reflexivity. Qed.

(** [grad_w2] is the gradient of the loss in [w2]: moving [w2] by any [d]
    changes the loss by [<grad_w2, d>] plus a term of second order in
    [d]. *)
Lemma grad_w2_is_gradient (d : array) :
  loss N D_in H D_out x y w1 (add w2 d)
  == loss N D_in H D_out x y w1 w2
     + inner H D_out (grad_w2 p) d
     + sum N D_out (square (dot H h_relu d)).
Proof.
  unfold loss.
  transitivity (sum N D_out (square (add residual (dot H h_relu d)))).
  { apply sum_ext. intros i j _ _.
    assert (Hpred : predict D_in H x w1 (add w2 d) i j
                    == predict D_in H x w1 w2 i j + dot H h_relu d i j)
      by apply dot_add_r.
    unfold square, sub. rewrite Hpred. unfold add. ring. }
  rewrite sum_square_add.
  rewrite (inner_dot_r N H D_out). reflexivity.
Qed.

(** [grad_w1] is the gradient of the loss in [w1]: moving [w1] by a [d]
    that changes the sign of no hidden item changes the loss by
    [<grad_w1, d>] plus a term of second order in [d]. *)
Lemma grad_w1_is_gradient (d : array) :
  (forall i k, (i < N)%nat -> (k < H)%nat ->
     (hidden D_in x (add w1 d) i k < 0 <-> hidden D_in x w1 i k < 0)) ->
  loss N D_in H D_out x y (add w1 d) w2
  == loss N D_in H D_out x y w1 w2
     + inner D_in H (grad_w1 p) d
     + sum N D_out
         (square (dot H (fun i k => passes D_in x w1 i k * dot D_in x d i k) w2)).
Proof.
  intros Hsign. unfold loss.
  set (e := dot H (fun i k => passes D_in x w1 i k * dot D_in x d i k) w2).
  transitivity (sum N D_out (square (add residual e))).
  { apply sum_ext. intros i j Hi _.
    assert (Hpred : predict D_in H x (add w1 d) w2 i j
                    == predict D_in H x w1 w2 i j + e i j).
    { assert (Hrelu : forall k, (k < H)%nat ->
                maximum0 (hidden D_in x (add w1 d)) i k
                == maximum0 (hidden D_in x w1) i k
                   + passes D_in x w1 i k * dot D_in x d i k).
      { intros k Hk. pose proof (Hsign i k Hi Hk) as Hs.
        assert (Hh : hidden D_in x (add w1 d) i k
                     == hidden D_in x w1 i k + dot D_in x d i k)
          by apply dot_add_r.
        unfold maximum0, passes.
        destruct (Qlt_le_dec (hidden D_in x w1 i k) 0) as [Hneg|Hpos].
        - rewrite !Q.max_r; [ring | apply Qlt_le_weak; assumption
                                   | apply Qlt_le_weak, Hs; assumption].
        - assert (Hpos' : 0 <= hidden D_in x (add w1 d) i k).
          { apply Qnot_lt_le. intros Hlt. apply Hs in Hlt.
            apply (Qlt_not_le _ _ Hlt). assumption. }
          rewrite !Q.max_l by assumption. rewrite Hh. ring. }
      transitivity
        (sum_below H (fun k =>
           maximum0 (hidden D_in x w1) i k * w2 k j
           + passes D_in x w1 i k * dot D_in x d i k * w2 k j)).
      - apply sum_below_ext. intros k Hk. rewrite (Hrelu k Hk). ring.
      - exact (sum_below_add H
                 (fun k => maximum0 (hidden D_in x w1) i k * w2 k j)
                 (fun k => passes D_in x w1 i k * dot D_in x d i k * w2 k j)). }
    unfold square, sub. rewrite Hpred. unfold add. ring. }
  rewrite sum_square_add.
  assert (Hin : inner N D_out (scale 2 residual) e
                == inner D_in H (grad_w1 p) d).
  { unfold e. rewrite (inner_dot_l N H D_out).
    transitivity
      (inner N H
         (zero_where_negative (hidden D_in x w1)
            (dot D_out (scale 2 residual) (T w2)))
         (dot D_in x d)).
    { unfold inner. apply sum_ext. intros i k _ _.
      unfold zero_where_negative, passes.
      destruct (Qlt_le_dec (hidden D_in x w1 i k) 0); ring. }
    rewrite (inner_dot_r N D_in H). reflexivity. }
  rewrite Hin. reflexivity.
Qed.

End Gradients.

(** One pass on a small instance: [N, D_in, H, D_out = 1, 1, 1, 1],
    [x = [[1]]], [y = [[0]]], [w1 = [[1]]], [w2 = [[1]]] and a learning
    rate of [1/10]: the loss is 1, both gradients are 2 and both weights
    move from 1 to [4/5]. *)
Example loop_body_small :
  let p := loop_body 1 1 1 1 (1 # 10)
             (of_rows [[1]]) (of_rows [[0]]) (of_rows [[1]]) (of_rows [[1]]) in
  Qred (loss_value p) = 1
  /\ to_rows 1 1 (grad_w1 p) = [[2]] /\ to_rows 1 1 (grad_w2 p) = [[2]]
  /\ to_rows 1 1 (new_w1 p) = [[4 # 5]] /\ to_rows 1 1 (new_w2 p) = [[4 # 5]].
Proof. vm_compute. repeat split. Qed.

(** Two passes on the same instance: the weights go from 1 to [4/5], then
    to [436/625] (the second pass has gradients [128/125]). *)
Example train_small :
  let w := train 1 1 1 1 (1 # 10) (of_rows [[1]]) (of_rows [[0]]) 2
             (of_rows [[1]]) (of_rows [[1]]) in
  to_rows 1 1 (fst w) = [[436 # 625]] /\ to_rows 1 1 (snd w) = [[436 # 625]].
Proof. vm_compute. split; reflexivity. Qed.

End WarmUpFacts.

(** ** The training loops *)

Module TrainingFacts.
Import Py Analysis WarmUp.
Local Open Scope string_scope.

(** C1, amended: of the ten training loops of the notebooks, the six that
    call [optimizer.step()] leave both the gradients ([loss.backward()]) and
    the update to PyTorch; the autograd loop (AutoGrad notebook, cell 58)
    and the first loop of the nn notebook (cell 7) call [loss.backward()]
    but update the weights themselves, by [w -= learning_rate * w.grad];
    the two warm-up loops of the AutoGrad notebook (cells 8 and 11) call
    neither: their body computes [grad_w1] and [grad_w2], which are the
    gradients of its loss in [w1] and [w2], and moves each weight by
    [learning_rate] times its gradient. *)
Theorem training_loops_by_hand_and_by_library :
  map summary training_loops =
    [ ("unnamed/part_001", 17, true, true, [], []);
      ("unnamed/part_003", 34, true, true, [], []);
      ("dl_intro/2 Torch AutoGrad.ipynb", 8, false, false,
       [ (Name "w1", BinOp (Name "learning_rate") Mult (Name "grad_w1"));
         (Name "w2", BinOp (Name "learning_rate") Mult (Name "grad_w2")) ],
       ["grad_y_pred"; "grad_w2"; "grad_h_relu"; "grad_h"; "grad_w1"]);
      ("dl_intro/2 Torch AutoGrad.ipynb", 11, false, false,
       [ (Name "w1", BinOp (Name "learning_rate") Mult (Name "grad_w1"));
         (Name "w2", BinOp (Name "learning_rate") Mult (Name "grad_w2")) ],
       ["grad_y_pred"; "grad_w2"; "grad_h_relu"; "grad_h"; "grad_w1"]);
      ("dl_intro/2 Torch AutoGrad.ipynb", 58, true, false,
       [ (Name "w1",
          BinOp (Name "learning_rate") Mult (Attr (Name "w1") "grad"));
         (Name "w2",
          BinOp (Name "learning_rate") Mult (Attr (Name "w2") "grad")) ],
       []);
      ("dl_intro/3 Torch NN.ipynb", 7, true, false,
       [ (Name "param",
          BinOp (Name "learning_rate") Mult (Attr (Name "param") "grad")) ],
       []);
      ("dl_intro/3 Torch NN.ipynb", 12, true, true, [], []);
      ("dl_intro/3 Torch NN.ipynb", 24, true, true, [], []);
      ("dl_intro/3 Torch NN.ipynb", 45, true, true, [], []);
      ("dl_intro/3 Torch NN.ipynb", 55, true, true, [], []) ]
  /\ map delegated training_loops =
       [true; true; false; false; false; false; true; true; true; true]
  /\ (forall N D_in H D_out learning_rate x y w1 w2,
        (forall i j,
            new_w1 (loop_body N D_in H D_out learning_rate x y w1 w2) i j
            = (w1 i j - learning_rate
                        * grad_w1 (loop_body N D_in H D_out learning_rate
                                     x y w1 w2) i j)%Q
            /\ new_w2 (loop_body N D_in H D_out learning_rate x y w1 w2) i j
               = (w2 i j - learning_rate
                           * grad_w2 (loop_body N D_in H D_out learning_rate
                                        x y w1 w2) i j)%Q)
        /\ (forall d,
              (loss N D_in H D_out x y w1 (add w2 d)
               == loss N D_in H D_out x y w1 w2
                  + inner H D_out
                      (grad_w2 (loop_body N D_in H D_out learning_rate
                                  x y w1 w2)) d
                  + sum N D_out
                      (square (dot H (maximum0 (hidden D_in x w1)) d)))%Q)
        /\ (forall d,
              (forall i k, i < N -> k < H ->
                 (hidden D_in x (add w1 d) i k < 0
                  <-> hidden D_in x w1 i k < 0)%Q) ->
              (loss N D_in H D_out x y (add w1 d) w2
               == loss N D_in H D_out x y w1 w2
                  + inner D_in H
                      (grad_w1 (loop_body N D_in H D_out learning_rate
                                  x y w1 w2)) d
                  + sum N D_out
                      (square
                         (dot H
                            (fun i k =>
                               passes D_in x w1 i k * dot D_in x d i k)
                            w2)))%Q)).
Proof.
  split; [vm_compute; reflexivity|].
  split; [vm_compute; reflexivity|].
  intros N D_in H D_out learning_rate x y w1 w2.
  split; [|split].
  - intros i j. apply WarmUpFacts.update_is_descent_step.
  - intros d. apply WarmUpFacts.grad_w2_is_gradient.
  - intros d Hsign. apply WarmUpFacts.grad_w1_is_gradient. assumption.
Qed.

(** On the small instance of [loop_body_small], moving [w1] from 1 by
    [1/2] keeps the hidden item positive, and the loss moves from 1 to
    [9/4 = 1 + 2 * 1/2 + (1/2)^2]. *)
Lemma training_loops_by_hand_and_by_library_witness :
  (loss 1 1 1 1 (of_rows [[1]]) (of_rows [[0]])
        (add (of_rows [[1]]) (of_rows [[1 # 2]])) (of_rows [[1]])
   == 1 + 2 * (1 # 2) + (1 # 2) * (1 # 2))%Q.
Proof.
  destruct training_loops_by_hand_and_by_library as (_ & _ & Hbody).
  destruct (Hbody 1 1 1 1 (1 # 10)%Q (of_rows [[1]]%Q) (of_rows [[0]]%Q)
              (of_rows [[1]]%Q) (of_rows [[1]]%Q)) as (_ & _ & Hw1).
  rewrite (Hw1 (of_rows [[1 # 2]]%Q)).
  - vm_compute. reflexivity.
  - intros i k Hi Hk.
    assert (i = 0) as -> by lia. assert (k = 0) as -> by lia.
    vm_compute. split; discriminate.
Defined.

End TrainingFacts.

(** ** More on [sparsity_ratio] *)

Module SparsityMore.
Import Sparsity SparsityFacts.

Lemma filter_nonzero_all (l : list Q) :
  length (List.filter is_nonzero l) = length l
  <-> Forall (fun v => ~ (v == 0)%Q) l.
Proof.
  induction l as [|v l IH]; simpl.
  - split; [constructor | reflexivity].
  - pose proof (filter_length_le is_nonzero l) as Hle.
    unfold is_nonzero at 1. destruct (Qeq_bool v 0) eqn:E; simpl.
    + split; [lia|]. intros H. inversion H as [|? ? Hv _]; subst.
      apply Qeq_bool_iff in E. contradiction.
    + split.
      * intros H. constructor.
        -- intros Hv. apply Qeq_bool_iff in Hv. congruence.
        -- apply IH. lia.
      * intros H. inversion H; subst. f_equal. apply IH. assumption.
Qed.

(** X1: on an array with at least one item, the ratio is 0 exactly when no
    item is zero, and it exceeds 90% (the notebook's rule of thumb for
    sparse formats) exactly when fewer than one item in ten is non-zero. *)
Theorem sparsity_ratio_thresholds (X : ndarray) (r : Q) :
  well_shaped X ->
  0 < shape0 X * shape1 X ->
  sparsity_ratio X = Ok r ->
  ((r == 0)%Q <-> Forall (fun v => ~ (v == 0)%Q) (data X))
  /\ ((9 # 10 < r)%Q <-> 10 * count_nonzero X < shape0 X * shape1 X).
Proof.
  intros Hwf Hpos Hrun.
  set (c := float_of_nat (count_nonzero X)) in *.
  set (t := float_of_nat (shape0 X * shape1 X)) in *.
  assert (Ht : (0 < t)%Q) by (apply float_of_nat_pos; assumption).
  unfold sparsity_ratio in Hrun. fold c t in Hrun.
  rewrite truediv_ok in Hrun by lra. simpl in Hrun. injection Hrun as <-.
  assert (Hq : (c / t * t == c)%Q) by (field; lra).
  split.
  - rewrite <- filter_nonzero_all. fold (count_nonzero X). rewrite Hwf.
    split.
    + intros Hr. assert (Hct : (c == t)%Q) by nra.
      unfold c, t, float_of_nat, Qeq in Hct. simpl in Hct. lia.
    + intros Hc. unfold c, t. rewrite Hc. field.
      fold t. lra.
  - split.
    + intros Hr. assert (Hct : (10 * c < t)%Q) by nra.
      unfold c, t, float_of_nat, Qlt in Hct. simpl in Hct. lia.
    + intros Hc.
      assert (Hct : (10 * c < t)%Q).
      { unfold c, t, float_of_nat, Qlt. simpl. lia. }
      nra.
Qed.

Lemma sparsity_ratio_thresholds_witness :
  (9 # 10 < 1 - (0 # 1) / (6 # 1))%Q.
Proof.
  pose (Z := {| shape0 := 2; shape1 := 3; data := [0; 0; 0; 0; 0; 0]%Q |}).
  destruct (sparsity_ratio_thresholds Z (1 - (0 # 1) / (6 # 1))%Q)
    as [_ [_ H]].
  - reflexivity.
  - simpl. lia.
  - reflexivity.
  - apply H. simpl. lia.
Defined.

End SparsityMore.

(** ** More on [select_n_random] *)

Module SelectMore.
Import Select SelectFacts Pairs.

(** [data[perm]] is the list of the items of [data] at the positions of
    [perm], in that order. *)
Lemma index_select_map {A} (data : list A) (perm : list nat) (ds : list A) :
  index_select data perm = Ok ds ->
  Forall2 (fun j d => data !! j = Some d) perm ds.
Proof.
  revert ds. induction perm as [|i perm IH]; intros ds; simpl.
  - intros H. injection H as <-. constructor.
  - destruct (data !! i) as [a|] eqn:Ha; [|discriminate].
    destruct (index_select data perm) as [rest|e]; simpl; [|discriminate].
    intros H. injection H as <-. constructor; [assumption|].
    apply IH. reflexivity.
Qed.

Lemma select_n_random_inv {A B} perm (data : list A) (labels : list B) n ds ls :
  select_n_random perm data labels n = Ok (ds, ls) ->
  length data = length labels
  /\ exists d l, index_select data perm = Ok d
                 /\ index_select labels perm = Ok l
                 /\ ds = slice_to n d /\ ls = slice_to n l.
Proof.
  unfold select_n_random.
  destruct (Nat.eqb_spec (length data) (length labels)) as [Hlen|];
    simpl; [|discriminate].
  destruct (index_select data perm) as [d|]; simpl; [|discriminate].
  destruct (index_select labels perm) as [l|]; simpl; [|discriminate].
  intros H. injection H as <- <-. split; [assumption|].
  exists d, l. repeat split.
Qed.

(** X2: [select_n_random] samples without replacement: the two sequences it
    returns are the items of [data] and [labels] at one list of distinct
    positions, the first [n] positions drawn by [torch.randperm]. *)
Theorem select_n_random_distinct {A B} (perm : list nat)
    (data : list A) (labels : list B) (n : Z) (ds : list A) (ls : list B) :
  is_randperm (length data) perm ->
  (0 <= n)%Z ->
  select_n_random perm data labels n = Ok (ds, ls) ->
  exists js,
    js = take (Z.to_nat n) perm
    /\ NoDup js
    /\ Forall2 (fun j d => data !! j = Some d) js ds
    /\ Forall2 (fun j l => labels !! j = Some l) js ls.
Proof.
  intros Hperm Hn Hrun.
  apply select_n_random_inv in Hrun as (_ & d & l & Hd & Hl & -> & ->).
  rewrite !slice_to_nonneg by assumption.
  exists (take (Z.to_nat n) perm). repeat split.
  - apply (sublist_NoDup _ perm); [|apply sublist_take].
    unfold is_randperm in Hperm. rewrite Hperm. apply NoDup_seq.
  - apply Forall2_take, index_select_map. assumption.
  - apply Forall2_take, index_select_map. assumption.
Qed.

Lemma select_n_random_distinct_witness :
  exists js,
    js = take 2 [2; 0; 1]
    /\ NoDup js
    /\ Forall2 (fun j d => ["a"; "b"; "c"]%string !! j = Some d) js
               ["c"; "a"]%string
    /\ Forall2 (fun j l => [10; 20; 30]%Z !! j = Some l) js [30; 10]%Z.
Proof.
  apply (select_n_random_distinct [2; 0; 1] ["a"; "b"; "c"]%string
           [10; 20; 30]%Z 2).
  - unfold is_randperm. simpl.
    apply Permutation_cons_app with (l1 := [0; 1]) (l2 := []). reflexivity.
  - lia.
  - reflexivity.
Defined.

Lemma zip_lookup_from {A B} (data : list A) : forall (labels : list B)
    (before_d : list A) (before_l : list B),
  length before_d = length before_l ->
  length data = length labels ->
  zip data labels
  = omap (pair_at (before_d ++ data) (before_l ++ labels))
         (seq (length before_d) (length data)).
Proof.
  induction data as [|d data IH]; intros [|l labels] bd bl Hb Hlen;
    simpl in *; try discriminate; [reflexivity|].
  unfold pair_at at 1.
  rewrite (list_lookup_middle bd data d (length bd) eq_refl).
  rewrite (list_lookup_middle bl labels l (length bd) Hb). simpl.
  f_equal.
  rewrite (IH labels (bd ++ [d]) (bl ++ [l])).
  - rewrite <- !app_assoc, length_app. simpl.
    replace (length bd + 1) with (S (length bd)) by lia. reflexivity.
  - rewrite !length_app. simpl. lia.
  - lia.
Qed.

(** The pairs of two sequences of one length, position by position. *)
Lemma zip_lookup_seq {A B} (data : list A) (labels : list B) :
  length data = length labels ->
  zip data labels = omap (pair_at data labels) (seq 0 (length data)).
Proof.
  intros Hlen. apply (zip_lookup_from data labels [] []); auto.
Qed.

(** X3: when [n] is at least the number of items, [select_n_random] returns
    a shuffle of the whole dataset: the returned (item, label) pairs are a
    permutation of the input pairs. *)
Theorem select_n_random_shuffles {A B} (perm : list nat)
    (data : list A) (labels : list B) (n : Z) (ds : list A) (ls : list B) :
  is_randperm (length data) perm ->
  (Z.of_nat (length data) <= n)%Z ->
  select_n_random perm data labels n = Ok (ds, ls) ->
  Permutation (zip ds ls) (zip data labels).
Proof.
  intros Hperm Hn Hrun.
  pose proof (randperm_length _ _ Hperm) as Hplen.
  apply select_n_random_inv in Hrun as (Hlen & d & l & Hd & Hl & -> & ->).
  rewrite !slice_to_nonneg by lia.
  apply index_select_map in Hd, Hl.
  pose proof (Forall2_length _ _ _ Hd) as Hdlen.
  pose proof (Forall2_length _ _ _ Hl) as Hllen.
  rewrite !take_ge by lia.
  assert (Hzip : zip d l = omap (pair_at data labels) perm).
  { clear Hperm Hplen Hdlen Hllen Hn. revert l Hl.
    induction Hd as [|j a perm d Hj _ IH]; intros l Hl.
    - inversion Hl; subst. reflexivity.
    - inversion Hl as [|? b ? l' Hb Hl']; subst. simpl.
      unfold pair_at at 1. rewrite Hj, Hb. simpl. f_equal.
      apply IH. assumption. }
  rewrite Hzip, (zip_lookup_seq data labels Hlen).
  unfold is_randperm in Hperm. rewrite Hperm. reflexivity.
Qed.

Lemma select_n_random_shuffles_witness :
  Permutation (zip ["c"; "a"; "b"]%string [30; 10; 20]%Z)
              (zip ["a"; "b"; "c"]%string [10; 20; 30]%Z).
Proof.
  apply (select_n_random_shuffles [2; 0; 1] ["a"; "b"; "c"]%string
           [10; 20; 30]%Z default_n).
  - unfold is_randperm. simpl.
    apply Permutation_cons_app with (l1 := [0; 1]) (l2 := []). reflexivity.
  - unfold default_n. simpl. lia.
  - reflexivity.
Defined.

End SelectMore.

(** ** More on the hand-written training step *)

Module WarmUpMore.
Import WarmUp WarmUpFacts.
Local Open Scope Q_scope.

Lemma sum_below_nonneg n (f : nat -> Q) :
  (forall i, (i < n)%nat -> 0 <= f i) -> 0 <= sum_below n f.
Proof.
  induction n as [|n IH]; intros Hf; simpl.
  - apply Qle_refl.
  - assert (0 <= sum_below n f) by (apply IH; intros; apply Hf; lia).
    assert (0 <= f n) by (apply Hf; lia). lra.
Qed.

Lemma sum_below_zero_iff n (f : nat -> Q) :
  (forall i, (i < n)%nat -> 0 <= f i) ->
  (sum_below n f == 0 <-> forall i, (i < n)%nat -> f i == 0).
Proof.
  induction n as [|n IH]; intros Hf; simpl.
  - split; [intros _ i Hi; lia | reflexivity].
  - assert (Hs : 0 <= sum_below n f)
      by (apply sum_below_nonneg; intros; apply Hf; lia).
    assert (Hn : 0 <= f n) by (apply Hf; lia).
    split.
    + intros H i Hi. destruct (Nat.eq_dec i n) as [->|Hne]; [lra|].
      apply IH; [intros; apply Hf; lia | lra | lia].
    + intros H. rewrite (H n) by lia.
      assert (sum_below n f == 0) as ->
        by (apply IH; [intros; apply Hf; lia | intros; apply H; lia]).
      ring.
Qed.

Lemma square_nonneg (v : Q) : 0 <= v * v.
Proof. nra. Qed.

Lemma square_zero (v : Q) : v * v == 0 <-> v == 0.
Proof. split; intros H; nra. Qed.

Section Fit.

Variables N D_in H D_out : nat.
Variable learning_rate : Q.
Variables x y w1 w2 : array.

#[local] Abbreviation p := (loop_body N D_in H D_out learning_rate x y w1 w2).

#[local] Abbreviation fits := (Fit.fits N D_in H D_out x y w1 w2).

(** X4: the loss of the loop is never negative, and it is zero exactly when
    the prediction equals the target on every item. *)
Theorem loss_zero_iff_fit :
  0 <= loss_value p /\ (loss_value p == 0 <-> fits).
Proof.
  change (loss_value p) with (loss N D_in H D_out x y w1 w2).
  unfold loss, sum, Fit.fits.
  assert (Hrow : forall i, 0 <= sum_below D_out (fun j =>
                    square (sub (predict D_in H x w1 w2) y) i j)).
  { intros i. apply sum_below_nonneg. intros j _. apply square_nonneg. }
  split.
  - apply sum_below_nonneg. intros i _. apply Hrow.
  - rewrite sum_below_zero_iff by (intros; apply Hrow).
    split.
    + intros Hz i j Hi Hj. specialize (Hz i Hi).
      rewrite sum_below_zero_iff in Hz by (intros; apply square_nonneg).
      specialize (Hz j Hj). unfold square, sub in Hz.
      apply (proj1 (square_zero _)) in Hz. lra.
    + intros Hfit i Hi.
      apply sum_below_zero_iff; [intros; apply square_nonneg|].
      intros j Hj. unfold square, sub. rewrite (Hfit i j Hi Hj). ring.
Qed.

(** X5: once the prediction fits the target, a pass through the loop body
    finds zero gradients and leaves both weights as they are. *)
Theorem fit_is_fixed_point :
  fits ->
  forall a k l j, (j < D_out)%nat ->
    grad_w1 p a k == 0 /\ grad_w2 p l j == 0
    /\ new_w1 p a k == w1 a k /\ new_w2 p l j == w2 l j.
Proof.
  intros Hfit a k l j Hj.
  assert (Hg1 : grad_w1 p a k == 0).
  { simpl. unfold dot at 1.
    rewrite (sum_below_ext N _ (fun _ => 0)); [apply sum_below_zero|].
    intros i Hi. unfold zero_where_negative.
    destruct (Qlt_le_dec _ 0); [ring|].
    unfold dot at 1.
    rewrite (sum_below_ext D_out _ (fun _ => 0)).
    - rewrite sum_below_zero. ring.
    - intros o Ho. unfold scale, sub.
      change (dot H (maximum0 (dot D_in x w1)) w2 i o)
        with (predict D_in H x w1 w2 i o).
      rewrite (Hfit i o Hi Ho). ring. }
  assert (Hg2 : grad_w2 p l j == 0).
  { simpl. unfold dot at 1.
    rewrite (sum_below_ext N _ (fun _ => 0)); [apply sum_below_zero|].
    intros i Hi. unfold scale, sub.
    change (dot H (maximum0 (dot D_in x w1)) w2 i j)
      with (predict D_in H x w1 w2 i j).
    rewrite (Hfit i j Hi Hj). ring. }
  repeat split; try assumption.
  - change (new_w1 p a k) with (w1 a k - learning_rate * grad_w1 p a k).
    rewrite Hg1. ring.
  - change (new_w2 p l j) with (w2 l j - learning_rate * grad_w2 p l j).
    rewrite Hg2. ring.
Qed.

End Fit.

Lemma loss_zero_iff_fit_witness :
  0 <= loss_value (loop_body 1 1 1 1 (1 # 10)
                     (of_rows [[1]]) (of_rows [[0]])
                     (of_rows [[1]]) (of_rows [[1]])).
Proof.
  apply (loss_zero_iff_fit 1 1 1 1 (1 # 10)).
Defined.

Lemma fit_is_fixed_point_witness :
  new_w2 (loop_body 1 1 1 1 (1 # 10) (of_rows [[1]]) (of_rows [[6]])
            (of_rows [[2]]) (of_rows [[3]])) 0%nat 0%nat
  == 3.
Proof.
  apply (fit_is_fixed_point 1 1 1 1 (1 # 10) (of_rows [[1]]) (of_rows [[6]])
           (of_rows [[2]]) (of_rows [[3]])) with (a := 0%nat) (k := 0%nat);
    [|lia].
  intros i j Hi Hj. assert (i = 0)%nat as -> by lia.
  assert (j = 0)%nat as -> by lia. vm_compute. reflexivity.
Defined.

End WarmUpMore.

(** ** The models of the nn notebook *)

Module NetsFacts.
Import Torch Nets.

Lemma dot_equiv (u u' w : list Q) :
  Forall2 Qeq u u' -> (dot u w == dot u' w)%Q.
Proof.
  intros Hu. revert w. unfold dot.
  induction Hu as [|a a' u u' Ha _ IH]; intros w; [reflexivity|].
  destruct w as [|b w]; simpl; [reflexivity|].
  rewrite Ha, (IH w). reflexivity.
Qed.

Lemma zip_with_Qplus_equiv (u u' b : list Q) :
  Forall2 Qeq u u' -> Forall2 Qeq (zip_with Qplus u b) (zip_with Qplus u' b).
Proof.
  intros Hu. revert b.
  induction Hu as [|a a' u u' Ha _ IH]; intros b; [constructor|].
  destruct b as [|c b]; simpl; constructor; [|apply IH].
  rewrite Ha. reflexivity.
Qed.

Lemma equiv_row_lengths (a b : tensor) (n : nat) :
  tensor_equiv a b ->
  forallb (fun row => length row =? n) a
  = forallb (fun row => length row =? n) b.
Proof.
  induction 1 as [|r r' a b Hr _ IH]; simpl; [reflexivity|].
  rewrite (Forall2_length _ _ _ Hr), IH. reflexivity.
Qed.

(** A linear layer gives equal results on equal inputs. *)
Lemma linear_forward_equiv (l : Linear) (a b : tensor) :
  tensor_equiv a b ->
  result_equiv (linear_forward l a) (linear_forward l b).
Proof.
  intros Hab. unfold linear_forward.
  rewrite (equiv_row_lengths a b _ Hab).
  destruct (forallb _ b); simpl; [|reflexivity].
  induction Hab as [|r r' a b Hr _ IH]; simpl; constructor; [|exact IH].
  apply zip_with_Qplus_equiv. clear IH.
  induction (weight l) as [|wrow ws IHw]; simpl; constructor; [|exact IHw].
  apply dot_equiv. assumption.
Qed.

(** [clamp(min=0)] is the ReLU. *)
Lemma clamp_is_relu (t : tensor) : tensor_equiv (clamp_min 0 t) (relu t).
Proof.
  unfold clamp_min, relu.
  induction t as [|row t IH]; simpl; constructor; [|exact IH].
  induction row as [|v row IHr]; simpl; constructor; [|exact IHr].
  destruct (Qlt_le_dec v 0) as [Hneg|Hpos].
  - rewrite Q.max_l; [reflexivity | apply Qlt_le_weak; assumption].
  - rewrite Q.max_r; [reflexivity | assumption].
Qed.

(** X6: built from the same two layers, the three versions of
    [TwoLayerNet.forward] (ReLU as a submodule, as [clamp(min=0)], as
    [torch.nn.functional.relu]) and the [torch.nn.Sequential] model return
    the same result on every input: the same exception, or tensors with
    equal items. *)
Theorem TwoLayerNet_versions_agree (l1 l2 : Linear) (x : tensor) :
  let functional :=
    WithFunctional.TwoLayerNet_forward
      {| WithFunctional.linear1 := l1; WithFunctional.linear2 := l2 |} x in
  WithModule.TwoLayerNet_forward
    {| WithModule.linear1 := l1;
       WithModule.hidden_activation := ReLU;
       WithModule.linear2 := l2 |} x
  = functional
  /\ Sequential [LinearModule l1; ReLU; LinearModule l2] x = functional
  /\ result_equiv
       (WithClamp.TwoLayerNet_forward
          {| WithClamp.linear1 := l1; WithClamp.linear2 := l2 |} x)
       functional.
Proof.
  intros functional. subst functional.
  unfold WithModule.TwoLayerNet_forward, WithFunctional.TwoLayerNet_forward,
    WithClamp.TwoLayerNet_forward. simpl.
  destruct (linear_forward l1 x) as [h|e]; simpl.
  - split; [|split].
    + destruct (linear_forward l2 (relu h)); reflexivity.
    + destruct (linear_forward l2 (relu h)); reflexivity.
    + pose proof (linear_forward_equiv l2 _ _ (clamp_is_relu h)) as H.
      destruct (linear_forward l2 (clamp_min 0 h)),
        (linear_forward l2 (relu h)); simpl in *; assumption.
  - repeat split.
Qed.

Lemma Sequential_app (ms ns : list module) (x : tensor) :
  Sequential (ms ++ ns) x = (y <- Sequential ms x ;; Sequential ns y).
Proof.
  revert x. induction ms as [|m ms IH]; intros x; simpl; [reflexivity|].
  destruct (call m x) as [y|e]; simpl; [apply IH | reflexivity].
Qed.

Lemma middle_loop_Sequential (self : DynamicNet) (k : nat) (h : tensor) :
  middle_loop self k h
  = Sequential (copies k [LinearModule (middle_linear self); ReLU]) h.
Proof.
  revert h. induction k as [|k IH]; intros h; simpl; [reflexivity|].
  destruct (linear_forward (middle_linear self) h) as [y|e]; simpl;
    [apply IH | reflexivity].
Qed.

(** X7: whatever it draws, [DynamicNet.forward] is the feed-forward network
    made of the input layer, [hidden_layers] copies of the one middle layer
    (the weights are shared) and the output layer, with a ReLU after every
    layer but the last. *)
Theorem DynamicNet_is_Sequential (self : DynamicNet) (hidden_layers : nat)
    (x : tensor) :
  DynamicNet_forward self hidden_layers x
  = Sequential (DynamicNet_layers self hidden_layers) x.
Proof.
  unfold DynamicNet_forward, DynamicNet_layers.
  change ([LinearModule (input_linear self); ReLU] ++ ?r)
    with (LinearModule (input_linear self) :: ReLU :: r).
  simpl. destruct (linear_forward (input_linear self) x) as [h|e]; simpl;
    [|reflexivity].
  rewrite Sequential_app, <- middle_loop_Sequential.
  destruct (middle_loop self hidden_layers (relu h)) as [h'|e]; simpl;
    [|reflexivity].
  destruct (linear_forward (output_linear self) h'); reflexivity.
Qed.

End NetsFacts.

(** ** The mini-batch loop of the nn notebook *)

Module BatchesFacts.
Import Torch Batches.

Lemma int_half (N i : nat) :
  int (inject_Z (Z.of_nat N) / 2 * inject_Z (Z.of_nat i))
  = Z.of_nat (N * i / 2).
Proof.
  rewrite Nat2Z.inj_div, Nat2Z.inj_mul.
  unfold int, Qdiv, Qmult, Qinv, inject_Z. simpl.
  rewrite Z.mul_1_r, Z.quot_div_nonneg by lia. reflexivity.
Qed.

Lemma slice_rows_nil (s e : Z) : slice_rows s e [] = [].
Proof. unfold slice_rows. rewrite take_nil, drop_nil. reflexivity. Qed.

Lemma slice_bound_nat (s len : nat) :
  slice_bound (Z.of_nat s) len = Nat.min s len.
Proof.
  unfold slice_bound.
  destruct (Z.ltb_spec (Z.of_nat s) 0); lia.
Qed.

Lemma slice_rows_from_zero (e : nat) (t : tensor) :
  slice_rows 0 (Z.of_nat e) t = take e t.
Proof.
  unfold slice_rows.
  rewrite (slice_bound_nat 0), slice_bound_nat. simpl.
  destruct (Nat.le_gt_cases e (length t)).
  - rewrite Nat.min_l by lia. reflexivity.
  - rewrite Nat.min_r by lia. rewrite !take_ge by lia. reflexivity.
Qed.

Lemma slice_rows_past_end (s : nat) (e : Z) (t : tensor) :
  length t <= s -> slice_rows (Z.of_nat s) e t = [].
Proof.
  intros Hlen. unfold slice_rows.
  rewrite slice_bound_nat, Nat.min_r by lia.
  apply drop_ge. rewrite length_take. lia.
Qed.

Lemma for_range_S {A : Type} (n : nat) (body : nat -> A -> result A)
    (a : A) :
  for_range (S n) body a = (a' <- for_range n body a ;; body n a').
Proof. reflexivity. Qed.

Lemma for_range_2 {A : Type} (body : nat -> A -> result A) (a : A) :
  for_range 2 body a = (a' <- body 0 a ;; body 1 a').
Proof. reflexivity. Qed.

(** The first pass of a loop, then the others. *)
Lemma for_range_shift {A : Type} (n : nat) (body : nat -> A -> result A)
    (a : A) :
  for_range (S n) body a
  = (a' <- body 0 a ;; for_range n (fun k => body (1 + k)) a').
Proof.
  induction n as [|n IH].
  - simpl. destruct (body 0 a); reflexivity.
  - rewrite for_range_S, IH.
    destruct (body 0 a) as [a'|e]; simpl; reflexivity.
Qed.

Lemma middle_loop_nil (self : DynamicNet) (k : nat) :
  middle_loop self k [] = Ok [].
Proof. induction k as [|k IH]; simpl; [reflexivity | exact IH]. Qed.

Lemma DynamicNet_forward_nil (self : DynamicNet) (k : nat) :
  DynamicNet_forward self k [] = Ok [].
Proof.
  unfold DynamicNet_forward. simpl. rewrite middle_loop_nil. reflexivity.
Qed.

Section Loop.

Variable N : nat.
Variable optim : Type.
Variable optimizer_step :
  optim -> DynamicNet -> nat -> tensor -> tensor -> optim * DynamicNet.
Variable draws : nat -> nat -> nat.

#[local] Abbreviation body := (batch_body N optim optimizer_step draws).
#[local] Abbreviation loop := (batch_loop N optim optimizer_step draws).

(** The first iteration takes the first half of the rows. *)
Lemma first_batch (v v1 : vars optim) :
  body 0 0 v = Ok v1 ->
  x v1 = take (N / 2) (x v) /\ y v1 = take (N / 2) (y v).
Proof.
  unfold batch_body.
  rewrite !int_half, Nat.mul_0_r. simpl (0 + 1). rewrite Nat.mul_1_r.
  change (Z.of_nat (0 / 2)) with 0%Z. rewrite !slice_rows_from_zero.
  destruct (DynamicNet_forward _ _ _) as [y_pred|e]; simpl; [|discriminate].
  destruct (MSELoss_sum _ _) as [loss|e]; simpl; [|discriminate].
  destruct (optimizer_step _ _ _ _ _) as [o m].
  intros [= <-]. split; reflexivity.
Qed.

(** An iteration that starts at or after the last row of [x] and [y]
    leaves them empty and prints a loss of 0. *)
Lemma late_batch (t i : nat) (v : vars optim) :
  length (x v) <= N * i / 2 -> length (y v) <= N * i / 2 ->
  exists v', body t i v = Ok v' /\ x v' = [] /\ y v' = []
    /\ printed v'
       = printed v ++ (if t mod 50 =? 0 then [(t, 0%Q)] else []).
Proof.
  intros Hx Hy. unfold batch_body.
  rewrite !int_half, !slice_rows_past_end by assumption.
  rewrite DynamicNet_forward_nil. simpl.
  destruct (optimizer_step _ _ _ _ _) as [o m].
  eexists. split; [reflexivity|]. simpl.
  repeat split.
  match goal with |- context [if ?c then _ else _] => destruct c end;
    [reflexivity|].
  rewrite app_nil_r. reflexivity.
Qed.

Lemma later_epochs (T : nat) (v : vars optim) :
  x v = [] -> y v = [] ->
  forall t0, exists v',
    for_range T (fun t v => for_range 2 (body (t0 + t)) v) v = Ok v'
    /\ x v' = [] /\ y v' = []
    /\ printed v'
       = printed v ++ flat_map empty_lines (seq t0 T).
Proof.
  intros Hx Hy t0. induction T as [|T IH].
  - exists v. simpl. rewrite app_nil_r. auto.
  - destruct IH as (v1 & Hrun & Hx1 & Hy1 & Hp1).
    rewrite for_range_S, Hrun. cbn [bind]. rewrite for_range_2.
    destruct (late_batch (t0 + T) 0 v1) as (v2 & Hb2 & Hx2 & Hy2 & Hp2);
      [rewrite Hx1; simpl; lia | rewrite Hy1; simpl; lia |].
    rewrite Hb2. cbn [bind].
    destruct (late_batch (t0 + T) 1 v2) as (v3 & Hb3 & Hx3 & Hy3 & Hp3);
      [rewrite Hx2; simpl; lia | rewrite Hy2; simpl; lia |].
    exists v3. split; [exact Hb3|]. repeat split; try assumption.
    rewrite Hp3, Hp2, Hp1, seq_S, flat_map_app.
    cbn [flat_map]. unfold empty_lines.
    rewrite app_nil_r, <- !app_assoc.
    destruct ((t0 + T) mod 50 =? 0); reflexivity.
Qed.

(** X8: the mini-batch loop rebinds [x] and [y] to the slice it takes, so
    only its first iteration sees data.  If that iteration runs, taking the
    first [N/2] rows, the whole loop runs, whatever the optimizer does and
    whatever the forward passes draw; every later batch is empty, and every
    later line printed shows a loss of 0. *)
Theorem batches_after_the_first_are_empty (epochs : nat)
    (v v1 : vars optim) :
  body 0 0 v = Ok v1 ->
  x v1 = take (N / 2) (x v) /\ y v1 = take (N / 2) (y v)
  /\ exists v', loop (S epochs) v = Ok v'
       /\ x v' = [] /\ y v' = []
       /\ printed v'
          = printed v1 ++ (0, 0%Q) :: flat_map empty_lines (seq 1 epochs).
Proof.
  intros Hfirst.
  destruct (first_batch v v1 Hfirst) as [Hx1 Hy1].
  split; [exact Hx1|]. split; [exact Hy1|].
  destruct (late_batch 0 1 v1) as (v2 & Hb2 & Hx2 & Hy2 & Hp2).
  { rewrite Hx1, length_take, Nat.mul_1_r. lia. }
  { rewrite Hy1, length_take, Nat.mul_1_r. lia. }
  destruct (later_epochs epochs v2 Hx2 Hy2 1) as (v3 & Hrun & Hx3 & Hy3 & Hp3).
  exists v3. unfold batch_loop.
  rewrite for_range_shift, for_range_2, Hfirst. cbn [bind].
  rewrite Hb2. cbn [bind].
  split; [exact Hrun|]. repeat split; try assumption.
  rewrite Hp3, Hp2. change (0 mod 50 =? 0) with true. cbn iota.
  rewrite <- app_assoc. reflexivity.
Qed.

End Loop.

Lemma batches_after_the_first_are_empty_witness :
  exists v1,
    batch_body 4 unit keep_model (fun _ _ => 1) 0 0 sample_vars = Ok v1
    /\ x v1 = take (4 / 2) (x sample_vars)
    /\ y v1 = take (4 / 2) (y sample_vars)
    /\ exists v',
         batch_loop 4 unit keep_model (fun _ _ => 1) 500 sample_vars = Ok v'
         /\ x v' = [] /\ y v' = []
         /\ printed v'
            = printed v1 ++ (0, 0%Q) :: flat_map empty_lines (seq 1 499).
Proof.
  eexists. split; [vm_compute; reflexivity|].
  apply (batches_after_the_first_are_empty 4 unit keep_model
           (fun _ _ => 1) 499 sample_vars).
  vm_compute. reflexivity.
Defined.

End BatchesFacts.

(** ** The convolutional network *)

Module CNNFacts.
Import Torch CNN.

Lemma view_shape (x : tensor4) (m : nat) :
  0 < m -> numel x mod m = 0 ->
  exists t, view x m = Ok t /\ has_shape t (numel x / m) m.
Proof.
  intros Hm Hdiv. unfold view.
  destruct (m =? 0) eqn:Hm0; [apply Nat.eqb_eq in Hm0; lia|].
  rewrite Hdiv. simpl. eexists. split; [reflexivity|]. split.
  - rewrite length_map, length_seq. reflexivity.
  - apply Forall_map, Forall_forall. intros r _. simpl.
    rewrite length_map, length_seq. reflexivity.
Qed.


(** The sizes after the two convolutions and poolings. *)
Lemma Net_features_shape (crng : conv_init) (rng : init) (x : tensor4) :
  dim1 x = 1 -> 16 <= dim2 x -> 16 <= dim3 x ->
  exists f, Net_features (Net_init crng rng) x = Ok f
    /\ dim0 f = dim0 x /\ dim1 f = 16
    /\ dim2 f = pooled (dim2 x) /\ dim3 f = pooled (dim3 x).
Proof.
  intros Hc Hh Hw. unfold Net_features, Net_init, conv_forward, pool_forward.
  cbn [conv1 conv2 pool nn_Conv2d in_channels out_channels kernel_size
       pool_size pool_stride relu4 dim0 dim1 dim2 dim3 bind].
  rewrite Hc. cbn [Nat.eqb negb orb].
  assert (H5h : (5 <=? dim2 x) = true) by (apply Nat.leb_le; lia).
  assert (H5w : (5 <=? dim3 x) = true) by (apply Nat.leb_le; lia).
  rewrite H5h, H5w.
  cbn [andb negb bind relu4 dim0 dim1 dim2 dim3 Nat.eqb orb].
  assert (H2h : (2 <=? dim2 x - 5 + 1) = true) by (apply Nat.leb_le; lia).
  assert (H2w : (2 <=? dim3 x - 5 + 1) = true) by (apply Nat.leb_le; lia).
  rewrite H2h, H2w.
  cbn [andb negb bind relu4 dim0 dim1 dim2 dim3 Nat.eqb orb].
  assert (Hh1 : (dim2 x - 5 + 1 - 2) / 2 + 1 = (dim2 x - 4) / 2).
  { replace (dim2 x - 5 + 1 - 2) with (dim2 x - 6) by lia.
    replace (dim2 x - 4) with (dim2 x - 6 + 1 * 2) by lia.
    rewrite Nat.div_add by lia. reflexivity. }
  assert (Hw1 : (dim3 x - 5 + 1 - 2) / 2 + 1 = (dim3 x - 4) / 2).
  { replace (dim3 x - 5 + 1 - 2) with (dim3 x - 6) by lia.
    replace (dim3 x - 4) with (dim3 x - 6 + 1 * 2) by lia.
    rewrite Nat.div_add by lia. reflexivity. }
  rewrite Hh1, Hw1.
  assert (H6h : 6 <= (dim2 x - 4) / 2)
    by (apply Nat.div_le_lower_bound; lia).
  assert (H6w : 6 <= (dim3 x - 4) / 2)
    by (apply Nat.div_le_lower_bound; lia).
  assert (H5h' : (5 <=? (dim2 x - 4) / 2) = true) by (apply Nat.leb_le; lia).
  assert (H5w' : (5 <=? (dim3 x - 4) / 2) = true) by (apply Nat.leb_le; lia).
  rewrite H5h', H5w'.
  cbn [andb negb bind relu4 dim0 dim1 dim2 dim3 Nat.eqb orb].
  assert (H2h' : (2 <=? (dim2 x - 4) / 2 - 5 + 1) = true)
    by (apply Nat.leb_le; lia).
  assert (H2w' : (2 <=? (dim3 x - 4) / 2 - 5 + 1) = true)
    by (apply Nat.leb_le; lia).
  rewrite H2h', H2w'.
  cbn [andb negb bind relu4 dim0 dim1 dim2 dim3 Nat.eqb orb].
  eexists. split; [reflexivity|].
  cbn [dim0 dim1 dim2 dim3]. unfold pooled.
  repeat split.
  - replace ((dim2 x - 4) / 2 - 5 + 1 - 2) with ((dim2 x - 4) / 2 - 6) by lia.
    replace ((dim2 x - 4) / 2 - 4)
      with ((dim2 x - 4) / 2 - 6 + 1 * 2) by lia.
    rewrite Nat.div_add by lia. reflexivity.
  - replace ((dim3 x - 4) / 2 - 5 + 1 - 2) with ((dim3 x - 4) / 2 - 6) by lia.
    replace ((dim3 x - 4) / 2 - 4)
      with ((dim3 x - 4) / 2 - 6 + 1 * 2) by lia.
    rewrite Nat.div_add by lia. reflexivity.
Qed.

(** Once the convolutions and poolings are through, the rest of
    [Net.forward] runs when the number of items is a multiple of
    [16 * 4 * 4]. *)
Lemma Net_forward_after_features (crng : conv_init) (rng : init)
    (x f : tensor4) :
  Net_features (Net_init crng rng) x = Ok f ->
  numel f mod (16 * 4 * 4) = 0 ->
  exists out, Net_forward (Net_init crng rng) x = Ok out
    /\ has_shape out (numel f / (16 * 4 * 4)) 10.
Proof.
  intros Hf Hdiv. unfold Net_forward. rewrite Hf. cbn [bind].
  destruct (view_shape f (16 * 4 * 4)) as (v & Hv & Hshape);
    [lia | exact Hdiv |].
  rewrite Hv. cbn [bind].
  unfold Net_init. cbn [fc1 fc2 fc3].
  destruct (TorchFacts.layer_forward_shape rng 0 _ 120 v _ Hshape)
    as (f1 & -> & Hf1). cbn [bind].
  destruct (TorchFacts.layer_forward_shape rng 1 _ 84 _ _
              (TorchFacts.relu_shape _ _ _ Hf1)) as (f2 & -> & Hf2).
  cbn [bind].
  destruct (TorchFacts.layer_forward_shape rng 2 _ 10 _ _
              (TorchFacts.relu_shape _ _ _ Hf2)) as (f3 & -> & Hf3).
  cbn [bind]. exists f3. split; [reflexivity | assumption].
Qed.

(** X9: on a batch of [N] one-channel images of 28 by 28 pixels, whatever
    the weights, [Net.forward] returns a tensor of shape [[N, 10]]: one
    score per class for every image. *)
Theorem Net_forward_shape (crng : conv_init) (rng : init) (x : tensor4) :
  dim1 x = 1 -> dim2 x = 28 -> dim3 x = 28 ->
  exists out, Net_forward (Net_init crng rng) x = Ok out
    /\ has_shape out (dim0 x) 10.
Proof.
  intros Hc Hh Hw.
  destruct (Net_features_shape crng rng x Hc) as (f & Hf & H0 & H1 & H2 & H3);
    [lia | lia |].
  rewrite Hh in H2. rewrite Hw in H3.
  change (pooled 28) with 4 in H2, H3.
  assert (Hnumel : numel f = dim0 x * (16 * 4 * 4)).
  { unfold numel. rewrite H0, H1, H2, H3. lia. }
  destruct (Net_forward_after_features crng rng x f Hf) as (out & Hout & Hs).
  { rewrite Hnumel. apply Nat.Div0.mod_mul. }
  rewrite Hnumel, Nat.div_mul in Hs by lia.
  exists out. split; assumption.
Qed.

Lemma Net_forward_shape_witness :
  exists out,
    Net_forward (Net_init ones_conv_init ones_init) (ones_images 3 28 28)
      = Ok out
    /\ has_shape out 3 10.
Proof.
  apply (Net_forward_shape ones_conv_init ones_init (ones_images 3 28 28));
    reflexivity.
Defined.



Lemma max_upto_ext (n : nat) (f g : nat -> Q) :
  (forall a, a <= n -> (f a == g a)%Q) ->
  (max_upto n f == max_upto n g)%Q.
Proof.
  induction n as [|n IH]; intros Hfg; cbn [max_upto].
  - apply Hfg. lia.
  - apply Q.max_compat; [apply IH; intros; apply Hfg; lia | apply Hfg; lia].
Qed.

Lemma conv_forward_same_image (l : Conv2d) (x x' y y' : tensor4)
    (n n' : nat) :
  conv_forward l x = Ok y -> conv_forward l x' = Ok y' ->
  same_image x x' n n' -> same_image y y' n n'.
Proof.
  unfold conv_forward. intros Hy Hy' (H1 & H2 & H3 & Hitems).
  rewrite <- H1, <- H2, <- H3 in Hy'.
  destruct (dim1 x =? in_channels l) eqn:Hc; [|discriminate].
  destruct (kernel_size l <=? dim2 x) eqn:Hk2; [|discriminate].
  destruct (kernel_size l <=? dim3 x) eqn:Hk3; [|discriminate].
  cbn [negb andb] in Hy, Hy'.
  injection Hy as <-. injection Hy' as <-.
  apply Nat.eqb_eq in Hc. apply Nat.leb_le in Hk2, Hk3.
  unfold same_image. cbn [dim1 dim2 dim3 item4].
  repeat split. intros o i j _ Hi Hj.
  apply Qplus_comp; [reflexivity|].
  apply WarmUpFacts.sum_below_ext. intros c Hcin.
  apply WarmUpFacts.sum_below_ext. intros di Hdi.
  apply WarmUpFacts.sum_below_ext. intros dj Hdj.
  rewrite (Hitems c (i + di) (j + dj)) by lia. reflexivity.
Qed.

Lemma relu4_same_image (x x' : tensor4) (n n' : nat) :
  same_image x x' n n' -> same_image (relu4 x) (relu4 x') n n'.
Proof.
  intros (H1 & H2 & H3 & Hitems). unfold same_image.
  cbn [relu4 dim1 dim2 dim3 item4]. repeat split; try assumption.
  intros c i j Hc Hi Hj. apply Q.max_compat; [reflexivity|].
  apply Hitems; assumption.
Qed.

Lemma pool_forward_same_image (p : MaxPool2d) (x x' y y' : tensor4)
    (n n' : nat) :
  pool_forward p x = Ok y -> pool_forward p x' = Ok y' ->
  same_image x x' n n' -> same_image y y' n n'.
Proof.
  unfold pool_forward. intros Hy Hy' (H1 & H2 & H3 & Hitems).
  rewrite <- H1, <- H2, <- H3 in Hy'.
  destruct (pool_size p =? 0) eqn:Hk; [discriminate|].
  destruct (pool_stride p =? 0) eqn:Hs; [discriminate|].
  destruct (pool_size p <=? dim2 x) eqn:Hk2; [|discriminate].
  destruct (pool_size p <=? dim3 x) eqn:Hk3; [|discriminate].
  cbn [negb andb orb] in Hy, Hy'.
  injection Hy as <-. injection Hy' as <-.
  apply Nat.eqb_neq in Hk, Hs. apply Nat.leb_le in Hk2, Hk3.
  unfold same_image. cbn [dim1 dim2 dim3 item4].
  repeat split. intros c i j Hc Hi Hj.
  assert (Hbound : forall h a, pool_size p <= h ->
            forall q, q < (h - pool_size p) / pool_stride p + 1 ->
            a <= pool_size p - 1 -> pool_stride p * q + a < h).
  { intros h a Hh q Hq Ha.
    assert (Hle : pool_stride p * q
                  <= pool_stride p * ((h - pool_size p) / pool_stride p))
      by (apply Nat.mul_le_mono_l; lia).
    pose proof (Nat.Div0.mul_div_le (h - pool_size p) (pool_stride p)).
    lia. }
  apply max_upto_ext. intros a Ha.
  apply max_upto_ext. intros b Hb.
  apply Hitems; [assumption | apply Hbound; assumption
                | apply Hbound; assumption].
Qed.

Lemma Net_features_same_image (self : Net) (x x' f f' : tensor4)
    (n n' : nat) :
  Net_features self x = Ok f -> Net_features self x' = Ok f' ->
  same_image x x' n n' -> same_image f f' n n'.
Proof.
  unfold Net_features. intros Hf Hf' Hsame.
  destruct (conv_forward (conv1 self) x) as [c1|] eqn:Hc1; [|discriminate].
  destruct (conv_forward (conv1 self) x') as [c1'|] eqn:Hc1'; [|discriminate].
  cbn [bind] in Hf, Hf'.
  destruct (pool_forward (pool self) (relu4 c1)) as [p1|] eqn:Hp1;
    [|discriminate].
  destruct (pool_forward (pool self) (relu4 c1')) as [p1'|] eqn:Hp1';
    [|discriminate].
  cbn [bind] in Hf, Hf'.
  destruct (conv_forward (conv2 self) p1) as [c2|] eqn:Hc2; [|discriminate].
  destruct (conv_forward (conv2 self) p1') as [c2'|] eqn:Hc2'; [|discriminate].
  cbn [bind] in Hf, Hf'.
  destruct (pool_forward (pool self) (relu4 c2)) as [p2|] eqn:Hp2;
    [|discriminate].
  destruct (pool_forward (pool self) (relu4 c2')) as [p2'|] eqn:Hp2';
    [|discriminate].
  cbn [bind] in Hf, Hf'.
  injection Hf as <-. injection Hf' as <-.
  eapply pool_forward_same_image; [exact Hp2 | exact Hp2' |].
  apply relu4_same_image.
  eapply conv_forward_same_image; [exact Hc2 | exact Hc2' |].
  eapply pool_forward_same_image; [exact Hp1 | exact Hp1' |].
  apply relu4_same_image.
  eapply conv_forward_same_image; [exact Hc1 | exact Hc1' |].
  exact Hsame.
Qed.

Lemma lookup_map {A B : Type} (f : A -> B) (l : list A) (n : nat) :
  map f l !! n = option_map f (l !! n).
Proof.
  revert n. induction l as [|a l IH]; intros [|n]; simpl; auto.
Qed.

Lemma linear_forward_same_row (l : Linear) (a b ya yb : tensor)
    (n n' : nat) :
  linear_forward l a = Ok ya -> linear_forward l b = Ok yb ->
  same_row a b n n' -> same_row ya yb n n'.
Proof.
  unfold linear_forward. intros Ha Hb (r & r' & Hr & Hr' & Heq).
  destruct (forallb _ a); [|discriminate].
  destruct (forallb _ b); [|discriminate].
  injection Ha as <-. injection Hb as <-.
  unfold same_row. rewrite !lookup_map, Hr, Hr'. cbn [option_map].
  eexists. eexists.
  split; [reflexivity|]. split; [reflexivity|].
  apply NetsFacts.zip_with_Qplus_equiv.
  induction (weight l) as [|wrow ws IHw]; simpl; constructor; [|exact IHw].
  apply NetsFacts.dot_equiv. assumption.
Qed.

Lemma relu_same_row (a b : tensor) (n n' : nat) :
  same_row a b n n' -> same_row (relu a) (relu b) n n'.
Proof.
  intros (r & r' & Hr & Hr' & Heq). unfold relu.
  unfold same_row. rewrite !lookup_map, Hr, Hr'. cbn [option_map].
  eexists. eexists.
  split; [reflexivity|]. split; [reflexivity|].
  clear Hr Hr'.
  induction Heq as [|v v' r r' Hv _ IH]; simpl; constructor; [|exact IH].
  apply Q.max_compat; [reflexivity | assumption].
Qed.

(** Where item [k] of row [r] of [view(-1, 16 * 4 * 4)] comes from. *)
Lemma flat_of_row (f : tensor4) (r k : nat) :
  dim1 f = 16 -> dim2 f = 4 -> dim3 f = 4 -> k < 16 * 4 * 4 ->
  flat f (r * (16 * 4 * 4) + k)
  = item4 f r ((k / 16) mod 16) ((k / 4) mod 4) (k mod 4).
Proof.
  intros H1 H2 H3 Hk. unfold flat. rewrite H1, H2, H3.
  f_equal.
  - rewrite Nat.div_add_l by lia. rewrite Nat.div_small by assumption. lia.
  - change (16 * 4 * 4) with (16 * (4 * 4)). change (4 * 4) with 16.
    rewrite Nat.mul_assoc, Nat.div_add_l by lia.
    rewrite Nat.add_comm, Nat.Div0.mod_add. reflexivity.
  - change (16 * 4 * 4) with (64 * 4).
    rewrite Nat.mul_assoc, Nat.div_add_l by lia.
    change 64 with (16 * 4). rewrite Nat.mul_assoc.
    rewrite Nat.add_comm, Nat.Div0.mod_add. reflexivity.
  - change (16 * 4 * 4) with (64 * 4).
    rewrite Nat.mul_assoc, Nat.add_comm, Nat.Div0.mod_add. reflexivity.
Qed.

Lemma view_row (f : tensor4) (m : nat) (v : list (list Q)) (r : nat) :
  view f m = Ok v -> r < numel f / m ->
  v !! r = Some (map (fun k => flat f (r * m + k)) (seq 0 m)).
Proof.
  unfold view. intros Hv Hr.
  destruct ((m =? 0) || negb (numel f mod m =? 0)); [discriminate|].
  injection Hv as <-.
  rewrite lookup_map, lookup_seq_lt by assumption. reflexivity.
Qed.

Lemma view_same_row (f f' : tensor4) (v v' : tensor) (n n' : nat) :
  dim2 f = 4 -> dim3 f = 4 -> dim1 f = 16 ->
  n < dim0 f -> n' < dim0 f' ->
  view f (16 * 4 * 4) = Ok v -> view f' (16 * 4 * 4) = Ok v' ->
  same_image f f' n n' -> same_row v v' n n'.
Proof.
  intros H2 H3 H1 Hn Hn' Hv Hv' (E1 & E2 & E3 & Hitems).
  assert (Hnumel : forall g, dim1 g = 16 -> dim2 g = 4 -> dim3 g = 4 ->
            numel g / (16 * 4 * 4) = dim0 g).
  { intros g G1 G2 G3. unfold numel. rewrite G1, G2, G3.
    rewrite <- !Nat.mul_assoc. apply Nat.div_mul. lia. }
  pose proof (view_row f _ v n Hv) as Hrow.
  pose proof (view_row f' _ v' n' Hv') as Hrow'.
  rewrite Hnumel in Hrow, Hrow' by congruence.
  unfold same_row. eexists. eexists.
  split; [exact (Hrow Hn)|]. split; [exact (Hrow' Hn')|].
  change (map ?g ?l) with (g <$> l).
  apply Forall2_fmap, Forall_Forall2_diag, Forall_forall.
  intros k Hk. apply elem_of_seq in Hk.
  rewrite !flat_of_row by (congruence || lia).
  apply Hitems.
  - rewrite H1. apply Nat.mod_upper_bound. lia.
  - rewrite H2. apply Nat.mod_upper_bound. lia.
  - rewrite H3. apply Nat.mod_upper_bound. lia.
Qed.

Lemma Net_forward_rows (crng : conv_init) (rng : init)
    (x x' : tensor4) (n n' : nat) (out out' : tensor) :
  dim1 x = 1 -> dim2 x = 28 -> dim3 x = 28 ->
  dim1 x' = 1 -> dim2 x' = 28 -> dim3 x' = 28 ->
  n < dim0 x -> n' < dim0 x' ->
  (forall i j, i < 28 -> j < 28 ->
     (item4 x n 0 i j == item4 x' n' 0 i j)%Q) ->
  Net_forward (Net_init crng rng) x = Ok out ->
  Net_forward (Net_init crng rng) x' = Ok out' ->
  same_row out out' n n'.
Proof.
  intros H1 H2 H3 H1' H2' H3' Hn Hn' Hpixels Hout Hout'.
  destruct (Net_features_shape crng rng x H1)
    as (f & Hf & F0 & F1 & F2 & F3); [lia | lia |].
  destruct (Net_features_shape crng rng x' H1')
    as (f' & Hf' & F0' & F1' & F2' & F3'); [lia | lia |].
  rewrite H2 in F2. rewrite H3 in F3. rewrite H2' in F2'. rewrite H3' in F3'.
  change (pooled 28) with 4 in F2, F3, F2', F3'.
  assert (Hsame : same_image f f' n n').
  { apply (Net_features_same_image (Net_init crng rng) x x'); try assumption.
    unfold same_image. rewrite H1, H2, H3, H1', H2', H3'.
    repeat split. intros c i j Hc Hi Hj.
    assert (c = 0) by lia. subst c. apply Hpixels; assumption. }
  unfold Net_forward in Hout, Hout'. rewrite Hf in Hout. rewrite Hf' in Hout'.
  cbn [bind] in Hout, Hout'.
  destruct (view f (16 * 4 * 4)) as [v|] eqn:Hv; [|discriminate].
  destruct (view f' (16 * 4 * 4)) as [v'|] eqn:Hv'; [|discriminate].
  cbn [bind] in Hout, Hout'.
  assert (Hrow : same_row v v' n n').
  { apply (view_same_row f f'); try assumption; congruence. }
  set (net := Net_init crng rng) in *.
  destruct (linear_forward (fc1 net) v) as [a1|] eqn:Ha1; [|discriminate].
  destruct (linear_forward (fc1 net) v') as [a1'|] eqn:Ha1'; [|discriminate].
  cbn [bind] in Hout, Hout'.
  destruct (linear_forward (fc2 net) (relu a1)) as [a2|] eqn:Ha2;
    [|discriminate].
  destruct (linear_forward (fc2 net) (relu a1')) as [a2'|] eqn:Ha2';
    [|discriminate].
  cbn [bind] in Hout, Hout'.
  destruct (linear_forward (fc3 net) (relu a2)) as [a3|] eqn:Ha3;
    [|discriminate].
  destruct (linear_forward (fc3 net) (relu a2')) as [a3'|] eqn:Ha3';
    [|discriminate].
  cbn [bind] in Hout, Hout'.
  injection Hout as <-. injection Hout' as <-.
  eapply linear_forward_same_row; [exact Ha3 | exact Ha3' |].
  apply relu_same_row.
  eapply linear_forward_same_row; [exact Ha2 | exact Ha2' |].
  apply relu_same_row.
  eapply linear_forward_same_row; [exact Ha1 | exact Ha1' |].
  exact Hrow.
Qed.

(** X11: the scores [Net.forward] gives an image do not depend on the other
    images of the batch, nor on its place in the batch: two images of 28 by
    28 pixels with equal pixels, in batches of any sizes, get equal rows of
    scores. *)
Theorem Net_forward_per_image (crng : conv_init) (rng : init)
    (x x' : tensor4) (n n' : nat) :
  dim1 x = 1 -> dim2 x = 28 -> dim3 x = 28 ->
  dim1 x' = 1 -> dim2 x' = 28 -> dim3 x' = 28 ->
  n < dim0 x -> n' < dim0 x' ->
  (forall i j, i < 28 -> j < 28 ->
     (item4 x n 0 i j == item4 x' n' 0 i j)%Q) ->
  exists out out' row row',
    Net_forward (Net_init crng rng) x = Ok out
    /\ Net_forward (Net_init crng rng) x' = Ok out'
    /\ out !! n = Some row /\ out' !! n' = Some row'
    /\ Forall2 Qeq row row'.
Proof.
  intros H1 H2 H3 H1' H2' H3' Hn Hn' Hpixels.
  assert (Hruns : forall z, dim1 z = 1 -> dim2 z = 28 -> dim3 z = 28 ->
            exists o, Net_forward (Net_init crng rng) z = Ok o).
  { intros z Z1 Z2 Z3.
    destruct (Net_features_shape crng rng z Z1)
      as (f & Hf & F0 & F1 & F2 & F3); [lia | lia |].
    rewrite Z2 in F2. rewrite Z3 in F3. change (pooled 28) with 4 in F2, F3.
    destruct (Net_forward_after_features crng rng z f Hf) as (o & Ho & _).
    - unfold numel. rewrite F1, F2, F3.
      replace (dim0 f * 16 * 4 * 4) with (dim0 f * (16 * 4 * 4)) by lia.
      apply Nat.Div0.mod_mul.
    - exists o. exact Ho. }
  destruct (Hruns x H1 H2 H3) as (out & Hout).
  destruct (Hruns x' H1' H2' H3') as (out' & Hout').
  destruct (Net_forward_rows crng rng x x' n n' out out')
    as (row & row' & Hrow & Hrow' & Heq); try assumption.
  exists out, out', row, row'. auto.
Qed.

Lemma Net_forward_per_image_witness :
  exists out out' row row',
    Net_forward (Net_init ones_conv_init ones_init) (ones_images 2 28 28)
      = Ok out
    /\ Net_forward (Net_init ones_conv_init ones_init) (ones_images 3 28 28)
       = Ok out'
    /\ out !! 1 = Some row /\ out' !! 0 = Some row'
    /\ Forall2 Qeq row row'.
Proof.
  apply (Net_forward_per_image ones_conv_init ones_init
           (ones_images 2 28 28) (ones_images 3 28 28) 1 0);
    try reflexivity; simpl; lia.
Defined.

End CNNFacts.

(** ** The transform and [matplotlib_imshow] *)

Module ShowFacts.
Import Show.

Lemma sum_below_const (n : nat) (f : nat -> Q) (v : Q) :
  (forall c, c < n -> (f c == v)%Q) ->
  (WarmUp.sum_below n f == inject_Z (Z.of_nat n) * v)%Q.
Proof.
  induction n as [|n IH]; intros Hf.
  - simpl. ring.
  - cbn [WarmUp.sum_below]. rewrite IH by (intros; apply Hf; lia).
    rewrite (Hf n) by lia.
    rewrite Nat2Z.inj_succ, <- Z.add_1_r, inject_Z_plus. ring.
Qed.

Lemma Normalize_half (t : image) :
  Normalize [1 # 2]%Q [1 # 2]%Q t
  = inr {| channels := channels t; height := height t; width := width t;
           pixel := fun c i j => ((pixel t c i j - (1 # 2)) / (1 # 2))%Q |}.
Proof. unfold Normalize. simpl. reflexivity. Qed.

(** X12: [matplotlib_imshow] undoes [Normalize((0.5,), (0.5,))].  Called on
    a normalized tensor, it hands to [plt.imshow] the values the tensor had
    before: item by item without [one_channel]; and with [one_channel], for
    a tensor whose channels are all equal, the items of its first
    channel. *)
Theorem imshow_undoes_Normalize (t img : image) :
  Normalize [1 # 2]%Q [1 # 2]%Q t = inr img ->
  (exists value,
     matplotlib_imshow img false
     = Colour (height t) (width t) (channels t) value
     /\ forall i j c, exists v,
          value i j c = Some v /\ (v == pixel t c i j)%Q)
  /\ (0 < channels t ->
      (forall c i j, c < channels t -> (pixel t c i j == pixel t 0 i j)%Q) ->
      exists value,
        matplotlib_imshow img true = Greys (height t) (width t) value
        /\ forall i j, exists v,
             value i j = Some v /\ (v == pixel t 0 i j)%Q).
Proof.
  rewrite Normalize_half. intros [= <-]. split.
  - eexists. split; [reflexivity|]. intros i j c.
    eexists. split; [reflexivity|]. cbn [pixel]. field.
  - intros HC Heq. eexists. split; [reflexivity|]. intros i j.
    unfold mean_dim0. cbn [channels pixel].
    destruct (channels t =? 0) eqn:H0; [apply Nat.eqb_eq in H0; lia|].
    eexists. split; [reflexivity|].
    rewrite (sum_below_const _ _ ((pixel t 0 i j - (1 # 2)) / (1 # 2))%Q).
    + assert (Hnz : ~ (inject_Z (Z.of_nat (channels t)) == 0)%Q).
      { intros Hz. unfold Qeq in Hz. simpl in Hz. lia. }
      field. exact Hnz.
    + intros c Hc. rewrite (Heq c i j Hc). reflexivity.
Qed.

Lemma imshow_undoes_Normalize_witness :
  exists img,
    Normalize [1 # 2]%Q [1 # 2]%Q sample_grid = inr img
    /\ exists value,
         matplotlib_imshow img true = Greys 2 2 value
         /\ forall i j, exists v,
              value i j = Some v /\ (v == pixel sample_grid 0 i j)%Q.
Proof.
  eexists. split; [reflexivity|].
  apply (proj2 (imshow_undoes_Normalize sample_grid _ eq_refl)).
  - simpl. lia.
  - intros c i j _. reflexivity.
Defined.

(** X13: a picture of the dataset that went through [transform] is shown
    by [matplotlib_imshow(img, one_channel=True)] with its grey levels
    divided by 255, so every value handed to [plt.imshow] lies between 0
    and 1. *)
Theorem transform_then_imshow (pic : picture) :
  (forall i j, i < picture_height pic -> j < picture_width pic ->
     grey pic i j <= 255) ->
  exists img value,
    transform pic = inr img
    /\ matplotlib_imshow img true
       = Greys (picture_height pic) (picture_width pic) value
    /\ forall i j, i < picture_height pic -> j < picture_width pic ->
         exists v,
           value i j = Some v
           /\ (v == inject_Z (Z.of_nat (grey pic i j)) / 255)%Q
           /\ (0 <= v <= 1)%Q.
Proof.
  intros Hgrey. unfold transform. rewrite Normalize_half.
  eexists. eexists. split; [reflexivity|]. split; [reflexivity|].
  intros i j Hi Hj. unfold mean_dim0, ToTensor.
  cbn [channels pixel Nat.eqb WarmUp.sum_below unnormalize option_map].
  eexists. split; [reflexivity|].
  change (inject_Z (Z.of_nat 1)) with 1%Q.
  pose proof (Hgrey i j Hi Hj) as Hg.
  set (g := inject_Z (Z.of_nat (grey pic i j))).
  assert (Hv : ((0 + (g / 255 - (1 # 2)) / (1 # 2)) / 1 / 2 + (1 # 2)
                == g / 255)%Q) by field.
  split; [exact Hv|]. rewrite Hv.
  assert (H0 : (0 <= g)%Q).
  { unfold g, Qle. simpl. lia. }
  assert (H255 : (g <= 255)%Q).
  { unfold g, Qle. simpl. lia. }
  split.
  - apply Qle_shift_div_l; [reflexivity | lra].
  - apply Qle_shift_div_r; [reflexivity | lra].
Qed.

Lemma transform_then_imshow_witness :
  exists img value,
    transform sample_picture = inr img
    /\ matplotlib_imshow img true = Greys 2 2 value
    /\ forall i j, i < 2 -> j < 2 ->
         exists v,
           value i j = Some v
           /\ (v == inject_Z (Z.of_nat (grey sample_picture i j)) / 255)%Q
           /\ (0 <= v <= 1)%Q.
Proof.
  apply (transform_then_imshow sample_picture).
  simpl. intros i j Hi Hj. lia.
Defined.

End ShowFacts.

(** ** The logging of the training loop *)

Module LoggingFacts.
Import Logging.

Lemma total_snoc (l : list Q) (v : Q) : (total (l ++ [v]) == total l + v)%Q.
Proof.
  unfold total. induction l as [|a l IH]; simpl; [ring|].
  rewrite IH. ring.
Qed.

Lemma log_loop_snoc (epoch len i : nat) (losses : list Q) (loss : Q)
    (st : state) :
  log_loop epoch len i (losses ++ [loss]) st
  = log_body epoch len (i + length losses) loss
      (log_loop epoch len i losses st).
Proof.
  revert i st. induction losses as [|a losses IH]; intros i st.
  - cbn [app log_loop length]. rewrite Nat.add_0_r. reflexivity.
  - cbn [app log_loop length]. rewrite IH.
    replace (S i + length losses) with (i + S (length losses)) by lia.
    reflexivity.
Qed.

Lemma mod_1000 (q r : nat) : r < 1000 -> (1000 * q + r) mod 1000 = r.
Proof.
  intros Hr. symmetry. apply (Nat.mod_unique _ _ q); [assumption | reflexivity].
Qed.

Lemma div_1000 (q r : nat) : r < 1000 -> (1000 * q + r) / 1000 = q.
Proof.
  intros Hr. symmetry. apply (Nat.div_unique _ _ _ r); [assumption | reflexivity].
Qed.

(** The state after [1000 * q + r] mini-batches. *)
Lemma log_loop_invariant (losses : list Q) :
  forall q r, length losses = 1000 * q + r -> r < 1000 ->
  forall len,
  let st := log_loop 0 len 0 losses (0%Q, []) in
  length (snd st) = q
  /\ (forall k, k < q ->
        exists s, snd st !! k = Some s
          /\ global_step s = 1000 * k + 999
          /\ (scalar_value s == total (chunk k losses) / 1000)%Q)
  /\ (fst st == total (drop (1000 * q) losses))%Q.
Proof.
  induction losses as [|loss losses IH] using rev_ind; intros q r Hlen Hr len.
  - cbn [length] in Hlen. assert (q = 0) by lia. subst q.
    cbn [log_loop fst snd length]. split; [reflexivity|]. split.
    + intros k Hk. lia.
    + rewrite drop_nil. reflexivity.
  - rewrite length_app in Hlen. cbn [length] in Hlen.
    intros st. subst st. rewrite log_loop_snoc. cbn [Nat.add].
    destruct r as [|r].
    + (* the mini-batch that completes a run of 1000 *)
      destruct q as [|q]; [lia|].
      assert (Hprev : length losses = 1000 * q + 999) by lia.
      destruct (IH q 999 Hprev ltac:(lia) len) as (Hq & Hentries & Hrun).
      unfold log_body. rewrite Hprev, mod_1000 by lia.
      change (999 =? 999) with true. cbn [fst snd].
      split; [rewrite length_app, Hq; cbn [length]; lia|]. split.
      * intros k Hk. destruct (Nat.eq_dec k q) as [->|Hne].
        -- eexists. split.
           { rewrite lookup_app_r by lia. rewrite Hq, Nat.sub_diag.
             reflexivity. }
           cbn [global_step scalar_value]. split; [lia|].
           unfold chunk. rewrite drop_app_le by lia.
           rewrite take_ge by (rewrite length_app, length_drop; cbn [length]; lia).
           rewrite total_snoc, Hrun. reflexivity.
        -- destruct (Hentries k ltac:(lia)) as (s & Hs & Hstep & Hval).
           exists s. split; [rewrite lookup_app_l by lia; exact Hs|].
           split; [exact Hstep|]. rewrite Hval. unfold chunk.
           rewrite drop_app_le by lia.
           rewrite take_app_le by (rewrite length_drop; lia).
           reflexivity.
      * rewrite drop_ge by (rewrite length_app; cbn [length]; lia).
        reflexivity.
    + (* any other mini-batch *)
      assert (Hprev : length losses = 1000 * q + r) by lia.
      destruct (IH q r Hprev ltac:(lia) len) as (Hq & Hentries & Hrun).
      unfold log_body. rewrite Hprev, mod_1000 by lia.
      destruct (r =? 999) eqn:E; [apply Nat.eqb_eq in E; lia|].
      cbn [fst snd]. split; [exact Hq|]. split.
      * intros k Hk.
        destruct (Hentries k Hk) as (s & Hs & Hstep & Hval).
        exists s. split; [exact Hs|]. split; [exact Hstep|].
        rewrite Hval. unfold chunk.
        rewrite drop_app_le by lia.
        rewrite take_app_le by (rewrite length_drop; lia).
        reflexivity.
      * rewrite drop_app_le by lia. rewrite total_snoc, Hrun. reflexivity.
Qed.

(** X14: the training loop writes one scalar for every complete run of 1000
    mini-batches and no other: the [k]-th one at step [1000 * k + 999],
    with the mean of the losses of that run.  The losses of the
    mini-batches left over at the end are summed in [running_loss] and
    never written. *)
Theorem training_log_by_thousands (losses : list Q) :
  let st := training_log losses in
  length (snd st) = length losses / 1000
  /\ (forall k, k < length losses / 1000 ->
        exists s, snd st !! k = Some s
          /\ global_step s = 1000 * k + 999
          /\ (scalar_value s == total (chunk k losses) / 1000)%Q)
  /\ (fst st
      == total (drop (1000 * (length losses / 1000)) losses))%Q.
Proof.
  unfold training_log. cbn [seq fold_left].
  apply (log_loop_invariant losses _ (length losses mod 1000)).
  - apply Nat.div_mod_eq.
  - apply Nat.mod_upper_bound. lia.
Qed.

End LoggingFacts.
